(** * Event scheduling system: conflict detection and utilisation report

    A shallow embedding of [app.py] (Flask + SQLAlchemy): the three tables,
    the helpers [parse_datetime_from_form] and [check_conflicts], and the
    routes [add_event], [conflict_view] and [utilisation_report].

    Request handlers are written in a small state-and-exception monad over
    a [world]: the SQLAlchemy session, the committed database, the flashed
    messages, the log of accesses to stored rows and the wall clock.  A
    request starts with the session holding the committed rows, and what it
    leaves uncommitted in the session is dropped when it ends. *)

From Stdlib Require Import ZArith List String Ascii Bool Lia Floats.
From Stdlib Require Import Sorting.Sorted Sorting.Permutation.
Import ListNotations.

Local Open Scope string_scope.
Local Open Scope list_scope.
Local Open Scope Z_scope.

(** ** Python library: [datetime]

    A naive [datetime] is identified with its position on the proleptic
    Gregorian time line, counted in microseconds from the start of ordinal
    day 0.  Python compares two datetimes field by field (year, month, day,
    hour, minute, second, microsecond); on well-formed values that is the
    order of these positions, and the difference of two datetimes is the
    [timedelta] holding the difference of the positions. *)

Module PyDatetime.

Definition datetime := Z.
Definition timedelta := Z.      (* microseconds *)

Definition is_leap (year : Z) : bool :=
  (year mod 4 =? 0) && (negb (year mod 100 =? 0) || (year mod 400 =? 0)).

Definition days_before_year (year : Z) : Z :=
  let y := year - 1 in y * 365 + y / 4 - y / 100 + y / 400.

Definition DAYS_IN_MONTH : list Z :=
  [-1; 31; 28; 31; 30; 31; 30; 31; 31; 30; 31; 30; 31].

Definition DAYS_BEFORE_MONTH : list Z :=
  [-1; 0; 31; 59; 90; 120; 151; 181; 212; 243; 273; 304; 334].

Definition days_in_month (year month : Z) : Z :=
  if (month =? 2) && is_leap year then 29
  else nth (Z.to_nat month) DAYS_IN_MONTH (-1).

Definition days_before_month (year month : Z) : Z :=
  nth (Z.to_nat month) DAYS_BEFORE_MONTH (-1)
  + (if (2 <? month) && is_leap year then 1 else 0).

Definition ymd2ord (year month day : Z) : Z :=
  days_before_year year + days_before_month year month + day.

Definition US_PER_SECOND : Z := 1000000.
Definition US_PER_DAY : Z := 86400 * US_PER_SECOND.

(** [datetime(year, month, day, hour, minute, second, microsecond)] *)
Definition mk_datetime (year month day hour minute second us : Z) : datetime :=
  ((ymd2ord year month day * 86400 + hour * 3600 + minute * 60 + second)
   * US_PER_SECOND) + us.

(** [datetime.combine(d.date(), datetime.max.time())]: the date of [d] at
    23:59:59.999999. *)
Definition combine_max_time (d : datetime) : datetime :=
  (d / US_PER_DAY) * US_PER_DAY
  + ((23 * 3600 + 59 * 60 + 59) * US_PER_SECOND + 999999).

(** [(a - b)] for datetimes. *)
Definition sub (a b : datetime) : timedelta := a - b.

(** Comparison operators and the builtins [max] and [min] on datetimes.
    [max(a, b)] returns [b] only when [b > a]; [min(a, b)] returns [b]
    only when [b < a]. *)
Definition lt (a b : datetime) : bool := a <? b.
Definition gt (a b : datetime) : bool := a >? b.
Definition le (a b : datetime) : bool := a <=? b.
Definition ge (a b : datetime) : bool := a >=? b.
Definition max (a b : datetime) : datetime := if gt b a then b else a.
Definition min (a b : datetime) : datetime := if lt b a then b else a.

(** *** Printing: [str(datetime)] *)

Definition digit_char (d : Z) : ascii := ascii_of_nat (48 + Z.to_nat d).

(** [n] written with exactly [w] decimal digits ([%0wd] for [0 <= n < 10^w]). *)
Fixpoint zfill (w : nat) (n : Z) : string :=
  match w with
  | O => EmptyString
  | S w' => (zfill w' (n / 10) ++ String (digit_char (n mod 10)) EmptyString)%string
  end.

Definition DI400Y : Z := 146097.
Definition DI100Y : Z := 36524.
Definition DI4Y : Z := 1461.

(** The inverse of [ymd2ord] (CPython's [_ord2ymd]). *)
Definition ord2ymd (ordinal : Z) : Z * Z * Z :=
  let n := ordinal - 1 in
  let n400 := n / DI400Y in let n := n mod DI400Y in
  let year := n400 * 400 + 1 in
  let n100 := n / DI100Y in let n := n mod DI100Y in
  let n4 := n / DI4Y in let n := n mod DI4Y in
  let n1 := n / 365 in let n := n mod 365 in
  let year := year + n100 * 100 + n4 * 4 + n1 in
  if (n1 =? 4) || (n100 =? 4) then (year - 1, 12, 31)
  else
    let leapyear := (n1 =? 3) && (negb (n4 =? 24) || (n100 =? 3)) in
    let month := Z.shiftr (n + 50) 5 in
    let preceding :=
      nth (Z.to_nat month) DAYS_BEFORE_MONTH (-1)
      + (if (2 <? month) && leapyear then 1 else 0) in
    if preceding >? n then
      let month' := month - 1 in
      let preceding' :=
        preceding - (nth (Z.to_nat month') DAYS_IN_MONTH (-1)
                     + (if (month' =? 2) && leapyear then 1 else 0)) in
      (year, month', n - preceding' + 1)
    else (year, month, n - preceding + 1).

(** [str(d)], that is [d.isoformat(sep=' ')]: the microseconds are printed
    only when they are not zero. *)
Definition str (d : datetime) : string :=
  let day := d / US_PER_DAY in
  let rest := d mod US_PER_DAY in
  let secs := rest / US_PER_SECOND in
  let us := rest mod US_PER_SECOND in
  let '(y, m, dd) := ord2ymd day in
  let hh := zfill 2 (secs / 3600) in
  let mm := zfill 2 ((secs / 60) mod 60) in
  let ss := zfill 2 (secs mod 60) in
  let frac := if us =? 0 then EmptyString else String "." (zfill 6 us) in
  (zfill 4 y ++ "-" ++ zfill 2 m ++ "-" ++ zfill 2 dd ++ " "
   ++ hh ++ ":" ++ mm ++ ":" ++ ss ++ frac)%string.

(** *** Parsing: [datetime.strptime]

    [_strptime] turns the format into a regular expression, one named group
    per directive, compiles it with [re.IGNORECASE] and runs [re.match]; the
    match must consume the whole input.  The groups used here are
      %Y  (\d\d\d\d)
      %m  (1[0-2]|0[1-9]|[1-9])
      %d  (3[0-1]|[1-2]\d|0[1-9]|[1-9]| [1-9])
      %H  (2[0-3]|[0-1]\d|\d)
      %M  ([0-5]\d|\d)
    A group is a list of alternatives tried in order, an alternative is a
    sequence of character classes; [match_groups] is the backtracking
    matcher.  Strings are sequences of code points below 256, where [\d] is
    the ten ASCII digits. *)

Definition cclass := ascii -> bool.
Definition alternative := list cclass.
Definition group := list alternative.

Definition code (c : ascii) : Z := Z.of_nat (nat_of_ascii c).
Definition between (lo hi : Z) : cclass := fun c => (lo <=? code c) && (code c <=? hi).
Definition digit : cclass := between 48 57.
Definition digits_from_to (lo hi : Z) : cclass := between (48 + lo) (48 + hi).
Definition exactly (a : ascii) : cclass := fun c => code c =? code a.
(** A letter of the format under [re.IGNORECASE]. *)
Definition letter (upper lower : ascii) : cclass :=
  fun c => (code c =? code upper) || (code c =? code lower).

Fixpoint match_alternative (a : alternative) (s : string) : option (string * string) :=
  match a with
  | [] => Some (EmptyString, s)
  | p :: a' =>
      match s with
      | String c r =>
          if p c then
            match match_alternative a' r with
            | Some (m, rest) => Some (String c m, rest)
            | None => None
            end
          else None
      | EmptyString => None
      end
  end.

Fixpoint match_groups (gs : list group) (s : string) : option (list string * string) :=
  match gs with
  | [] => Some ([], s)
  | g :: gs' =>
      (fix try (alts : list alternative) : option (list string * string) :=
         match alts with
         | [] => None
         | a :: alts' =>
             match match_alternative a s with
             | Some (m, rest) =>
                 match match_groups gs' rest with
                 | Some (ms, fin) => Some (m :: ms, fin)
                 | None => try alts'
                 end
             | None => try alts'
             end
         end) g
  end.

Definition re_Y : group := [[digit; digit; digit; digit]].
Definition re_m : group :=
  [[exactly "1"; digits_from_to 0 2]; [exactly "0"; digits_from_to 1 9]; [digits_from_to 1 9]].
Definition re_d : group :=
  [[exactly "3"; digits_from_to 0 1]; [digits_from_to 1 2; digit];
   [exactly "0"; digits_from_to 1 9]; [digits_from_to 1 9];
   [exactly " "; digits_from_to 1 9]].
Definition re_H : group :=
  [[exactly "2"; digits_from_to 0 3]; [digits_from_to 0 1; digit]; [digit]].
Definition re_M : group := [[digits_from_to 0 5; digit]; [digit]].
Definition re_lit (c : cclass) : group := [[c]].

(** [int(s)] on a captured group: decimal digits, a leading space skipped. *)
Definition int_of_group (s : string) : Z :=
  (fix go (s : string) (acc : Z) : Z :=
     match s with
     | EmptyString => acc
     | String c r => if digit c then go r (acc * 10 + (code c - 48)) else go r acc
     end) s 0.

(** [datetime.date(year, month, day)] raises [ValueError] outside these bounds. *)
Definition valid_date (y m d : Z) : bool :=
  (1 <=? y) && (y <=? 9999) && (1 <=? m) && (m <=? 12)
  && (1 <=? d) && (d <=? days_in_month y m).

(** [datetime.strptime(s, "%Y-%m-%d")]; [None] stands for [ValueError]. *)
Definition strptime_date (s : string) : option datetime :=
  match match_groups [re_Y; re_lit (exactly "-"); re_m; re_lit (exactly "-"); re_d] s with
  | Some ([Y; _; m; _; d], EmptyString) =>
      let y := int_of_group Y in let m := int_of_group m in let d := int_of_group d in
      if valid_date y m d then Some (mk_datetime y m d 0 0 0 0) else None
  | _ => None
  end.

(** [datetime.strptime(s, "%Y-%m-%dT%H:%M")]; [None] stands for [ValueError]. *)
Definition strptime_datetime_local (s : string) : option datetime :=
  match match_groups [re_Y; re_lit (exactly "-"); re_m; re_lit (exactly "-"); re_d;
                      re_lit (letter "T" "t"); re_H; re_lit (exactly ":"); re_M] s with
  | Some ([Y; _; m; _; d; _; H; _; M], EmptyString) =>
      let y := int_of_group Y in let m := int_of_group m in let d := int_of_group d in
      if valid_date y m d
      then Some (mk_datetime y m d (int_of_group H) (int_of_group M) 0 0)
      else None
  | _ => None
  end.

End PyDatetime.

Import PyDatetime.

(** ** Python builtins used on form values *)

Module PyBuiltins.

(** Code points below 256 that [int] skips around a number.  The parser
    skips the six ASCII blanks TAB, LF, VT, FF, CR and SPACE; before it
    runs, the two blanks above 127, NEL and NBSP, are turned into spaces.
    The separators FS..US (28..31) are not skipped: [int] rejects them. *)
Definition is_space (c : ascii) : bool :=
  let n := code c in
  ((9 <=? n) && (n <=? 13)) || (n =? 32) || (n =? 133) || (n =? 160).

Fixpoint lstrip (s : string) : string :=
  match s with
  | String c r => if is_space c then lstrip r else s
  | EmptyString => s
  end.

(** Digits after the first one: a digit, or one underscore followed by a
    digit.  Returns the value read and what is left. *)
Fixpoint digits_tail (s : string) (acc : Z) : Z * string :=
  match s with
  | String c r =>
      if digit c then digits_tail r (acc * 10 + (code c - 48))
      else if code c =? 95 then
        match r with
        | String c' r' =>
            if digit c' then digits_tail r' (acc * 10 + (code c' - 48)) else (acc, s)
        | EmptyString => (acc, s)
        end
      else (acc, s)
  | EmptyString => (acc, s)
  end.

(** The digits of the leading run of digits and underscores. *)
Fixpoint digit_count (s : string) : Z :=
  match s with
  | String c r =>
      if digit c then 1 + digit_count r
      else if code c =? 95 then digit_count r
      else 0
  | EmptyString => 0
  end.

(** [sys.int_info.default_max_str_digits]: a longer literal is refused. *)
Definition MAX_STR_DIGITS : Z := 4300.

Definition unsigned_literal (s : string) : option Z :=
  match s with
  | String c r =>
      if digit c then
        let '(v, rest) := digits_tail r (code c - 48) in
        match lstrip rest with
        | EmptyString => if digit_count s <=? MAX_STR_DIGITS then Some v else None
        | _ => None
        end
      else None
  | EmptyString => None
  end.

(** [int(s)] for a [str] in base 10; [None] stands for [ValueError]. *)
Definition int (s : string) : option Z :=
  match lstrip s with
  | String c r =>
      if code c =? 45 then option_map Z.opp (unsigned_literal r)
      else if code c =? 43 then unsigned_literal r
      else unsigned_literal (String c r)
  | EmptyString => None
  end.

(** Truth value of an optional string: [None] and the empty string are false. *)
Definition truthy (v : option string) : bool :=
  match v with
  | Some (String _ _) => true
  | _ => false
  end.

End PyBuiltins.

(** ** Models (the three tables) *)

(** [Event.event_id] is [None] on an object that was never flushed. *)
Record Event := mkEvent {
  event_id : option Z;
  title : string;
  start_time : datetime;
  end_time : datetime;
  description : option string }.

Record Resource := mkResource {
  resource_id : Z;
  resource_name : string;
  resource_type : string }.

Record EventResourceAllocation := mkAllocation {
  allocation_id : Z;
  alloc_event_id : Z;
  alloc_resource_id : Z }.

(** The rows of the three tables, in primary-key order. *)
Record database := mkDatabase {
  events : list Event;
  resources : list Resource;
  allocations : list EventResourceAllocation }.

(** [==] on two [event_id] attributes, each an [int] or [None]. *)
Definition id_eqb (a b : option Z) : bool :=
  match a, b with
  | Some x, Some y => x =? y
  | None, None => true
  | _, _ => false
  end.

(** The many-to-one relationships [alloc.event] and [alloc.resource]: the
    row with that primary key, or [None]. *)
Definition event_of (db : database) (a : EventResourceAllocation) : option Event :=
  find (fun e => id_eqb (event_id e) (Some (alloc_event_id a))) (events db).

Definition resource_of (db : database) (a : EventResourceAllocation) : option Resource :=
  find (fun r => resource_id r =? alloc_resource_id a) (resources db).

(** The rows of [event_resource_allocations] with [resource_id = rid]: what
    the SELECT behind [filter_by(resource_id=rid)] and behind the
    collection [resource.allocations] answers. *)
Definition allocations_on (db : database) (rid : Z) : list EventResourceAllocation :=
  filter (fun a => alloc_resource_id a =? rid) (allocations db).

(** The rows of [event_resource_allocations] with [event_id = eid]: what
    the SELECT behind the collection [event.allocations] answers. *)
Definition allocations_of_event (db : database) (eid : Z) : list EventResourceAllocation :=
  filter (fun a => alloc_event_id a =? eid) (allocations db).

(** The key SQLite gives a new row of an [INTEGER PRIMARY KEY] table: one
    more than the largest key in use, whatever its sign, and 1 in an empty
    table.  (When the largest key is the largest SQLite integer, SQLite
    tries unused keys at random instead; what is proved of the routes says
    of a new key only that no stored row had it.) *)
Definition next_id (ids : list Z) : Z :=
  match ids with
  | [] => 1
  | i :: rest => 1 + fold_right Z.max i rest
  end.

(** SQLite holds an integer in 64 bits, two's complement. *)
Definition sqlite_integer (n : Z) : bool := (- 2 ^ 63 <=? n) && (n <? 2 ^ 63).

Definition event_ids (db : database) : list Z :=
  flat_map (fun e => match event_id e with Some i => [i] | None => [] end) (events db).

(** Referential integrity: every allocation references a stored event and
    a stored resource. *)
Definition integrity (db : database) : bool :=
  forallb (fun a => match event_of db a, resource_of db a with
                    | Some _, Some _ => true
                    | _, _ => false
                    end) (allocations db).

(** ** The world of a request and the handler monad *)

Inductive read :=
| ReadResources                              (* Resource.query.all() *)
| ReadAllocations                            (* EventResourceAllocation.query.all() *)
| ReadAllocationsOn (rid : Z)                (* filter_by(resource_id=rid), resource.allocations *)
| ReadEventOf (a : EventResourceAllocation)  (* alloc.event *)
| ReadResourceOf (a : EventResourceAllocation) (* alloc.resource *)
| ReadEvents                                 (* Event.query.order_by(Event.start_time) *)
| CountEvents                                (* Event.query.count() *)
| CountResources                             (* Resource.query.count() *)
| ReadEvent (eid : Z)                        (* Event.query.get_or_404(eid) *)
| ReadResource (rid : Z)                     (* Resource.query.get_or_404(rid) *)
| ReadAllocationsOf (eid : Z).               (* event.allocations *)

Inductive exn := ValueError | AttributeError | IndexError | OverflowError.

Record world := mkWorld {
  session : database;                (* the rows as the request's session sees them *)
  committed : database;              (* the rows in the database file *)
  flashes : list (string * string);  (* flash(message, category), oldest first *)
  reads : list read;                 (* accesses to stored rows, oldest first *)
  clock : nat -> datetime;           (* the value of the k-th call of datetime.now() *)
  ticks : nat }.                     (* calls of datetime.now() made so far *)

Inductive outcome (A : Type) :=
| Returns (a : A)
| Raises (e : exn).
Arguments Returns {A} a.
Arguments Raises {A} e.

Definition M (A : Type) : Type := world -> outcome A * world.

Definition ret {A} (a : A) : M A := fun w => (Returns a, w).
Definition raise {A} (e : exn) : M A := fun w => (Raises e, w).
Definition bind {A B} (m : M A) (k : A -> M B) : M B :=
  fun w => match m w with
           | (Returns a, w') => k a w'
           | (Raises e, w') => (Raises e, w')
           end.

Notation "x <- m ;; k" := (bind m (fun x => k))
  (at level 61, m at next level, right associativity).
Notation "m ;;; k" := (bind m (fun _ => k))
  (at level 61, right associativity).

(** [for x in l: body], the loop's local variables threaded as [s]. *)
Fixpoint for_each {A S} (l : list A) (body : A -> S -> M S) (s : S) : M S :=
  match l with
  | [] => ret s
  | x :: l' => s' <- body x s ;; for_each l' body s'
  end.

(** Attribute access on a value that may be [None]. *)
Definition attr_of {A} (o : option A) : M A :=
  match o with
  | Some a => ret a
  | None => raise AttributeError
  end.

(** A library call that signals failure with [ValueError]. *)
Definition or_value_error {A} (o : option A) : M A :=
  match o with
  | Some a => ret a
  | None => raise ValueError
  end.

(** [l[i]] *)
Definition item {A} (l : list A) (i : nat) : M A :=
  match nth_error l i with
  | Some a => ret a
  | None => raise IndexError
  end.

Definition log (r : read) : M unit :=
  fun w => (Returns tt,
            mkWorld (session w) (committed w) (flashes w) (reads w ++ [r]) (clock w) (ticks w)).

Definition flash (message category : string) : M unit :=
  fun w => (Returns tt,
            mkWorld (session w) (committed w) (flashes w ++ [(message, category)])
                    (reads w) (clock w) (ticks w)).

Definition now : M datetime :=
  fun w => (Returns (clock w (ticks w)),
            mkWorld (session w) (committed w) (flashes w) (reads w) (clock w) (S (ticks w))).

Definition get_session : M database := fun w => (Returns (session w), w).

Definition put_session (db : database) : M unit :=
  fun w => (Returns tt, mkWorld db (committed w) (flashes w) (reads w) (clock w) (ticks w)).

(** [db.session.commit()] *)
Definition commit : M unit :=
  fun w => (Returns tt,
            mkWorld (session w) (session w) (flashes w) (reads w) (clock w) (ticks w)).

Definition query_all_resources : M (list Resource) :=
  log ReadResources ;;; db <- get_session ;; ret (resources db).

Definition query_all_allocations : M (list EventResourceAllocation) :=
  log ReadAllocations ;;; db <- get_session ;; ret (allocations db).

(** A Python int bound to a statement as a parameter: [sqlite3] raises
    [OverflowError] when it does not fit a SQLite integer, and the
    statement is not run. *)
Definition bind_parameter (n : Z) : M unit :=
  if sqlite_integer n then ret tt else raise OverflowError.

(** [EventResourceAllocation.query.filter_by(resource_id=rid).all()] *)
Definition query_allocations_by_resource (rid : Z) : M (list EventResourceAllocation) :=
  bind_parameter rid ;;;
  log (ReadAllocationsOn rid) ;;; db <- get_session ;; ret (allocations_on db rid).

(** The one-to-many relationship [resource.allocations], loaded with the
    key of the stored row [r]. *)
Definition resource_allocations (r : Resource) : M (list EventResourceAllocation) :=
  log (ReadAllocationsOn (resource_id r)) ;;;
  db <- get_session ;; ret (allocations_on db (resource_id r)).

Definition alloc_event (a : EventResourceAllocation) : M (option Event) :=
  log (ReadEventOf a) ;;; db <- get_session ;; ret (event_of db a).

Definition alloc_resource (a : EventResourceAllocation) : M (option Resource) :=
  log (ReadResourceOf a) ;;; db <- get_session ;; ret (resource_of db a).

(** [db.session.add(event); db.session.flush()]: the row is inserted, the
    database assigns its key, and the object's [event_id] is set.  The
    result is that object as the code reads it after the flush. *)
Definition session_add_event_and_flush (e : Event) : M Event :=
  db <- get_session ;;
  let e' := mkEvent (Some (next_id (event_ids db))) (title e) (start_time e)
                    (end_time e) (description e) in
  put_session (mkDatabase (events db ++ [e']) (resources db) (allocations db)) ;;;
  ret e'.

(** [db.session.add(EventResourceAllocation(event_id=eid, resource_id=rid))];
    rows added in one unit of work are inserted in the order they were added. *)
Definition session_add_allocation (eid rid : Z) : M unit :=
  db <- get_session ;;
  let a := mkAllocation (next_id (map allocation_id (allocations db))) eid rid in
  put_session (mkDatabase (events db) (resources db) (allocations db ++ [a])).

(** ** Utility functions *)

Inductive http_method := GET | POST.

Record request := mkRequest {
  method : http_method;
  form : list (string * string) }.

(** [request.form.get(name)] and [request.form.getlist(name)] *)
Definition form_get (req : request) (name : string) : option string :=
  option_map snd (find (fun kv => String.eqb (fst kv) name) (form req)).

Definition form_getlist (req : request) (name : string) : list string :=
  map snd (filter (fun kv => String.eqb (fst kv) name) (form req)).

Definition parse_datetime_from_form (req : request) (field_name : string) : M (option datetime) :=
  let value := form_get req field_name in
  match value with
  | Some (String c r) => d <- or_value_error (strptime_datetime_local (String c r)) ;; ret (Some d)
  | _ => ret None
  end.

Definition invalid_range_message : string := "Event start time must be before end time.".

Definition booked_message (r : Resource) (other_event : Event) : string :=
  ("Resource '" ++ resource_name r ++ "' is already booked by event '"
   ++ title other_event ++ "' from " ++ str (start_time other_event)
   ++ " to " ++ str (end_time other_event) ++ ".")%string.

(** The body of [for alloc in allocations]; [conflicts] is the list built so far. *)
Definition check_alloc (event : Event) (alloc : EventResourceAllocation)
    (conflicts : list string) : M (list string) :=
  other_event <- alloc_event alloc ;;
  other_event <- attr_of other_event ;;
  if id_eqb (event_id other_event) (event_id event) then
    ret conflicts                                     (* skip self when editing *)
  else if lt (start_time event) (end_time other_event)
          && gt (end_time event) (start_time other_event) then
    r <- alloc_resource alloc ;;
    r <- attr_of r ;;
    ret (conflicts ++ [booked_message r other_event])
  else ret conflicts.

Definition check_conflicts (event : Event) (resource_ids : list Z) : M (list string) :=
  let conflicts := [] in
  if ge (start_time event) (end_time event) then
    let conflicts := conflicts ++ [invalid_range_message] in
    ret conflicts
  else
    for_each resource_ids (fun resource_id conflicts =>
      allocations <- query_allocations_by_resource resource_id ;;
      for_each allocations (check_alloc event) conflicts) conflicts.

(** ** Routes: events *)

Inductive add_event_response :=
| Redirect (endpoint : string)
| EventForm (action : string) (all_resources : list Resource)
            (event : option Event) (selected_resource_ids : list Z).

(** [[int(rid) for rid in selected_resource_ids]] *)
Definition ints_of (selected_resource_ids : list string) : M (list Z) :=
  for_each selected_resource_ids
    (fun rid acc => i <- or_value_error (PyBuiltins.int rid) ;; ret (acc ++ [i])) [].

Definition add_event (req : request) : M add_event_response :=
  resources <- query_all_resources ;;
  match method req with
  | POST =>
      let title := form_get req "title" in
      let description := form_get req "description" in
      start_time <- parse_datetime_from_form req "start_time" ;;
      end_time <- parse_datetime_from_form req "end_time" ;;
      let selected_resource_ids := form_getlist req "resources" in
      match title, start_time, end_time with
      | Some (String c t), Some start_time, Some end_time =>
          let event := mkEvent None (String c t) start_time end_time description in
          resource_ids <- ints_of selected_resource_ids ;;
          conflicts <- check_conflicts event resource_ids ;;
          match conflicts with
          | _ :: _ =>
              for_each conflicts (fun c _ => flash c "danger") tt ;;;
              ret (EventForm "Add" resources (Some event) resource_ids)
          | [] =>
              event <- session_add_event_and_flush event ;;
              eid <- attr_of (event_id event) ;;
              for_each resource_ids (fun rid _ => session_add_allocation eid rid) tt ;;;
              commit ;;;
              flash "Event added successfully!" "success" ;;;
              ret (Redirect "list_events")
          end
      | _, _, _ =>
          flash "Title, start time, and end time are required." "danger" ;;;
          ret (Redirect "add_event")
      end
  | GET => ret (EventForm "Add" resources None [])
  end.

(** ** Route: conflict view *)

Record conflict := mkConflict {
  c_resource : string;
  c_event1 : Event;
  c_event2 : Event }.

(** [range(i, j)] *)
Definition range (i j : nat) : list nat := seq i (j - i).

(** The body of the inner loop, for the positions [i] and [j]. *)
Definition scan_pair (allocations : list EventResourceAllocation) (i j : nat)
    (conflicts : list conflict) : M (list conflict) :=
  a1 <- item allocations i ;;
  a2 <- item allocations j ;;
  if negb (alloc_resource_id a1 =? alloc_resource_id a2) then
    ret conflicts
  else
    e1 <- alloc_event a1 ;;
    e2 <- alloc_event a2 ;;
    e1 <- attr_of e1 ;;
    e2 <- attr_of e2 ;;
    if lt (start_time e1) (end_time e2) && gt (end_time e1) (start_time e2) then
      r <- alloc_resource a1 ;;
      r <- attr_of r ;;
      ret (conflicts ++ [mkConflict (resource_name r) e1 e2])
    else ret conflicts.

Definition conflict_view : M (list conflict) :=
  let conflicts := [] in
  allocations <- query_all_allocations ;;
  for_each (range 0 (List.length allocations)) (fun i conflicts =>
    for_each (range (i + 1) (List.length allocations)) (fun j conflicts =>
      scan_pair allocations i j conflicts) conflicts) conflicts.

(** ** Route: utilisation report *)

(** The float operations the report uses. *)
Class PyFloat (F : Type) := {
  float_zero : F;                   (* 0.0 *)
  float_3600 : F;                   (* 3600.0 *)
  float_add : F -> F -> F;
  float_div : F -> F -> F;
  total_seconds : timedelta -> F;   (* timedelta.total_seconds() *)
  round2 : F -> F }.                (* round(x, 2) *)

(** [sorted(l, key=lambda e: e.start_time)]: a stable sort, here by
    insertion from the right. *)
Fixpoint insert_by_start (e : Event) (l : list Event) : list Event :=
  match l with
  | [] => [e]
  | x :: l' => if le (start_time e) (start_time x) then e :: x :: l'
               else x :: insert_by_start e l'
  end.

Definition sorted_by_start (l : list Event) : list Event :=
  fold_right insert_by_start [] l.

Section Report.

Context {F : Type} `{PyFloat F}.

Record report_row := mkRow {
  r_resource : Resource;
  r_total_hours : F;
  r_upcoming : list Event }.

Record report_page := mkPage {
  p_resources : list Resource;
  p_report_data : list report_row;
  p_upcoming : list (Resource * Event);
  p_start_date : option string;
  p_end_date : option string }.

(** The body of [for alloc in allocations] with its two local variables. *)
Definition report_alloc (start_date end_date : datetime) (alloc : EventResourceAllocation)
    (acc : F * list Event) : M (F * list Event) :=
  let '(total_hours, resource_upcoming) := acc in
  event <- alloc_event alloc ;;
  event <- attr_of event ;;
  if le (start_time event) end_date && ge (end_time event) start_date then
    let overlap_start := max (start_time event) start_date in
    let overlap_end := min (end_time event) end_date in
    let total_hours :=
      if lt overlap_start overlap_end then
        let hours := float_div (total_seconds (sub overlap_end overlap_start)) float_3600 in
        float_add total_hours hours
      else total_hours in
    t <- now ;;
    if ge (start_time event) t then ret (total_hours, resource_upcoming ++ [event])
    else ret (total_hours, resource_upcoming)
  else ret (total_hours, resource_upcoming).

(** The body of [for resource in resources]. *)
Definition report_resource (start_date end_date : datetime) (resource : Resource)
    (report_data : list report_row) : M (list report_row) :=
  allocations <- resource_allocations resource ;;
  acc <- for_each allocations (report_alloc start_date end_date) (float_zero, []) ;;
  let '(total_hours, resource_upcoming) := acc in
  ret (report_data ++ [mkRow resource (round2 total_hours) (sorted_by_start resource_upcoming)]).

Definition flatten_upcoming (report_data : list report_row) : list (Resource * Event) :=
  flat_map (fun r => map (fun ev => (r_resource r, ev)) (r_upcoming r)) report_data.

Definition utilisation_report (req : request) : M report_page :=
  resources <- query_all_resources ;;
  let report_data := [] in
  let upcoming := [] in
  match method req with
  | POST =>
      let start_str := form_get req "start_date" in
      let end_str := form_get req "end_date" in
      match start_str, end_str with
      | Some (String c1 s1), Some (String c2 s2) =>
          start_date <- or_value_error (strptime_date (String c1 s1)) ;;
          end_date <- or_value_error (strptime_date (String c2 s2)) ;;
          let end_date := combine_max_time end_date in
          report_data <- for_each resources (report_resource start_date end_date) report_data ;;
          let upcoming := upcoming ++ flatten_upcoming report_data in
          ret (mkPage resources report_data upcoming start_str end_str)
      | _, _ =>
          flash "Start date and end date are required." "danger" ;;;
          ret (mkPage resources report_data upcoming start_str end_str)
      end
  | GET => ret (mkPage resources report_data upcoming None None)
  end.

End Report.

Arguments report_row F : clear implicits.
Arguments report_page F : clear implicits.

(** *** Binary64 floats

    The instance of [PyFloat] on IEEE 754 double precision.
    [total_seconds] is the true division of the microsecond count by
    [10**6], rounded once; [round(x, 2)] rounds the exact value of [x] to
    the nearest hundredth, ties to even, and returns the nearest float. *)

Module Binary64.

(** The float nearest to [n / d], for [0 < d]. *)
Definition of_ratio (n d : Z) : float :=
  match n, d with
  | Z.pos p, Z.pos q =>
      SF2Prim (SFdiv prec emax (S754_finite false p 0) (S754_finite false q 0))
  | Z.neg p, Z.pos q =>
      SF2Prim (SFdiv prec emax (S754_finite true p 0) (S754_finite false q 0))
  | _, _ => 0%float
  end.

(** The integer nearest to [n / d], ties to even, for [0 < d]. *)
Definition round_half_even (n d : Z) : Z :=
  let q := n / d in
  let r := n mod d in
  if 2 * r <? d then q
  else if 2 * r >? d then q + 1
  else if Z.even q then q else q + 1.

Definition round_2_digits (x : float) : float :=
  match Prim2SF x with
  | S754_finite s m e =>
      let n := if 0 <=? e then Z.pos m * 100 * 2 ^ e
               else round_half_even (Z.pos m * 100) (2 ^ (- e)) in
      if n =? 0 then SF2Prim (S754_zero s)
      else of_ratio (if s then - n else n) 100
  | _ => x
  end.

#[export] Instance binary64 : PyFloat float := {|
  float_zero := 0%float;
  float_3600 := 3600%float;
  float_add := PrimFloat.add;
  float_div := PrimFloat.div;
  total_seconds := fun d => of_ratio d 1000000;
  round2 := round_2_digits |}.

End Binary64.


(** ** The specification's vocabulary

    Definitions that follow the specification's words, to be compared with
    the handlers above. *)

Module Spec.

(** Interval overlap: [startA < endB AND startB < endA]. *)
Definition overlaps (startA endA startB endB : datetime) : bool :=
  (startA <? endB) && (startB <? endA).

(** The allocation's event is the candidate itself (matching identifier). *)
Definition same_event (db : database) (event : Event) (a : EventResourceAllocation) : bool :=
  match event_of db a with
  | Some other => id_eqb (event_id other) (event_id event)
  | None => false
  end.

(** The description emitted for an allocation whose event overlaps the candidate. *)
Definition reported (db : database) (event : Event) (a : EventResourceAllocation) : list string :=
  match event_of db a, resource_of db a with
  | Some other, Some r =>
      if overlaps (start_time event) (end_time event) (start_time other) (end_time other)
      then [booked_message r other] else []
  | _, _ => []
  end.

(** The conflict checker on a valid range: for each requested resource, in
    order, the descriptions of its allocations that are not the candidate's own. *)
Definition conflict_descriptions (db : database) (event : Event) (resource_ids : list Z)
  : list string :=
  flat_map (fun rid =>
    flat_map (reported db event)
      (filter (fun a => negb (same_event db event a)) (allocations_on db rid)))
    resource_ids.

(** The positions [(i, j)], [i < j < n], each once, in the scan's order. *)
Definition index_pairs (n : nat) : list (nat * nat) :=
  flat_map (fun i => map (pair i) (range (i + 1) n)) (range 0 n).

(** The scanner's verdict on two allocations. *)
Definition pair_verdict (db : database) (a1 a2 : EventResourceAllocation) : list conflict :=
  if alloc_resource_id a1 =? alloc_resource_id a2 then
    match event_of db a1, event_of db a2, resource_of db a1 with
    | Some e1, Some e2, Some r =>
        if overlaps (start_time e1) (end_time e1) (start_time e2) (end_time e2)
        then [mkConflict (resource_name r) e1 e2] else []
    | _, _, _ => []
    end
  else [].

Definition verdict_at (db : database) (ij : nat * nat) : list conflict :=
  match nth_error (allocations db) (fst ij), nth_error (allocations db) (snd ij) with
  | Some a1, Some a2 => pair_verdict db a1 a2
  | _, _ => []
  end.

Definition scan_all_conflicts (db : database) : list conflict :=
  flat_map (verdict_at db) (index_pairs (List.length (allocations db))).

(** The events of a resource's allocations that meet the report window
    [windowStart, windowEnd], boundaries included. *)
Definition events_in_window (db : database) (windowStart windowEnd : datetime) (rid : Z)
  : list Event :=
  flat_map (fun a => match event_of db a with
                     | Some e => if (start_time e <=? windowEnd) && (end_time e >=? windowStart)
                                 then [e] else []
                     | None => []
                     end) (allocations_on db rid).

(** The width, in microseconds, of an event clipped to the window. *)
Definition clipped_width (windowStart windowEnd : datetime) (e : Event) : Z :=
  Z.min (end_time e) windowEnd - Z.max (start_time e) windowStart.

Section Hours.
Context {F : Type} `{PyFloat F}.

Definition hours_of (us : timedelta) : F := float_div (total_seconds us) float_3600.

(** The sum, from 0.0 and in allocation order, of the positive clipped
    widths in hours; a width that is not positive adds nothing. *)
Definition total_hours (db : database) (windowStart windowEnd : datetime) (rid : Z) : F :=
  fold_left float_add
    (flat_map (fun e => if 0 <? clipped_width windowStart windowEnd e
                        then [hours_of (clipped_width windowStart windowEnd e)] else [])
              (events_in_window db windowStart windowEnd rid))
    float_zero.

End Hours.

(** The upcoming bookings of a resource at the moment [t], before sorting. *)
Definition upcoming_events (db : database) (windowStart windowEnd t : datetime) (rid : Z)
  : list Event :=
  filter (fun e => start_time e >=? t) (events_in_window db windowStart windowEnd rid).

(** The exact wire pattern [YYYY-MM-DDTHH:MM]. *)
Definition exact_timestamp_pattern (s : string) : bool :=
  match match_groups
          [[[digit; digit; digit; digit]]; re_lit (exactly "-"); [[digit; digit]];
           re_lit (exactly "-"); [[digit; digit]]; re_lit (exactly "T");
           [[digit; digit]]; re_lit (exactly ":"); [[digit; digit]]] s with
  | Some (_, EmptyString) => true
  | _ => false
  end.

(** The exact wire pattern [YYYY-MM-DD]. *)
Definition exact_date_pattern (s : string) : bool :=
  match match_groups
          [[[digit; digit; digit; digit]]; re_lit (exactly "-"); [[digit; digit]];
           re_lit (exactly "-"); [[digit; digit]]] s with
  | Some (_, EmptyString) => true
  | _ => false
  end.

End Spec.

(** ** Specifications of handlers

    [hoare P m Q E]: from a world satisfying [P], the handler [m] either
    returns [a] in a world satisfying [Q a], or raises [e] in a world
    satisfying [E e]. *)

Definition hoare {A} (P : world -> Prop) (m : M A)
    (Q : A -> world -> Prop) (E : exn -> world -> Prop) : Prop :=
  forall w, P w ->
    match m w with
    | (Returns a, w') => Q a w'
    | (Raises e, w') => E e w'
    end.

(** No exception is allowed. *)
Definition never : exn -> world -> Prop := fun _ _ => False.

(** A predicate on worlds that reading rows keeps. *)
Definition log_stable (P : world -> Prop) : Prop :=
  forall w rs, P w ->
    P (mkWorld (session w) (committed w) (flashes w) rs (clock w) (ticks w)).

(** A predicate on worlds that reading the clock keeps. *)
Definition tick_stable (P : world -> Prop) : Prop :=
  forall w t, P w ->
    P (mkWorld (session w) (committed w) (flashes w) (reads w) (clock w) t).

(** The session holds the rows [db]. *)
Definition sees (db : database) (w : world) : Prop := session w = db.

(** Everything but the read log is as in [w0]. *)
Definition untouched (w0 w : world) : Prop :=
  session w = session w0 /\ committed w = committed w0
  /\ flashes w = flashes w0 /\ clock w = clock w0 /\ ticks w = ticks w0.

(** The world after [Resource.query.all()]. *)
Definition after_resources_query (w : world) : world :=
  mkWorld (session w) (committed w) (flashes w) (reads w ++ [ReadResources])
          (clock w) (ticks w).

(** The world after one more flashed message. *)
Definition flashed (message category : string) (w : world) : world :=
  mkWorld (session w) (committed w) (flashes w ++ [(message, category)])
          (reads w) (clock w) (ticks w).

(** What a form field holds. *)
Inductive field := Missing | Malformed | WellFormed (d : datetime).

Definition timestamp_field (v : option string) : field :=
  match v with
  | Some (String c r) =>
      match strptime_datetime_local (String c r) with
      | Some d => WellFormed d
      | None => Malformed
      end
  | _ => Missing
  end.

Definition date_field (v : option string) : field :=
  match v with
  | Some (String c r) =>
      match strptime_date (String c r) with
      | Some d => WellFormed d
      | None => Malformed
      end
  | _ => Missing
  end.

Definition is_malformed (f : field) : bool :=
  match f with Malformed => true | _ => false end.

Definition is_missing (f : field) : bool :=
  match f with Missing => true | _ => false end.

(** Events in ascending order of start time. *)
Definition by_start (a b : Event) : Prop := start_time a <= start_time b.

(** A description is called for by an allocation on a requested resource
    whose event, another one than the candidate, strictly overlaps it and
    whose resource is stored. *)
Definition called_for (db : database) (event : Event) (resource_ids : list Z)
    (message : string) : Prop :=
  exists rid a other r,
    In rid resource_ids /\ In a (allocations_on db rid)
    /\ event_of db a = Some other /\ event_id other <> event_id event
    /\ resource_of db a = Some r
    /\ message = booked_message r other
    /\ start_time event < end_time other /\ start_time other < end_time event.

(** A scan record is justified by two allocations at positions [i < j] on
    one resource whose events strictly overlap. *)
Definition scanned (db : database) (c : conflict) : Prop :=
  exists i j a1 a2 r,
    (i < j)%nat /\ nth_error (allocations db) i = Some a1
    /\ nth_error (allocations db) j = Some a2
    /\ alloc_resource_id a1 = alloc_resource_id a2
    /\ event_of db a1 = Some (c_event1 c) /\ event_of db a2 = Some (c_event2 c)
    /\ resource_of db a1 = Some r /\ c_resource c = resource_name r
    /\ start_time (c_event1 c) < end_time (c_event2 c)
    /\ start_time (c_event2 c) < end_time (c_event1 c).

(** ** What a handler has to find

    [alloc.event] and [alloc.resource] are [None] when the referenced row
    is not stored, and the attribute access that follows raises
    [AttributeError]. *)

Definition stored {A} (o : option A) : bool :=
  match o with Some _ => true | None => false end.

(** [check_conflicts] can judge the allocation [a]: its event is stored
    and, when that event is another one than the candidate and overlaps
    it, so is its resource. *)
Definition can_check (db : database) (event : Event) (a : EventResourceAllocation) : bool :=
  match event_of db a with
  | Some other =>
      id_eqb (event_id other) (event_id event)
      || negb (Spec.overlaps (start_time event) (end_time event)
                             (start_time other) (end_time other))
      || stored (resource_of db a)
  | None => false
  end.

Definition can_check_all (db : database) (event : Event) (resource_ids : list Z) : bool :=
  forallb (fun rid => forallb (can_check db event) (allocations_on db rid)) resource_ids.

(** [conflict_view] can judge two allocations: when they share a resource
    identifier their events are stored and, when these overlap, so is the
    resource. *)
Definition can_scan_pair (db : database) (a1 a2 : EventResourceAllocation) : bool :=
  negb (alloc_resource_id a1 =? alloc_resource_id a2)
  || match event_of db a1, event_of db a2 with
     | Some e1, Some e2 =>
         negb (Spec.overlaps (start_time e1) (end_time e1) (start_time e2) (end_time e2))
         || stored (resource_of db a1)
     | _, _ => false
     end.

Definition can_scan_at (db : database) (ij : nat * nat) : bool :=
  match nth_error (allocations db) (fst ij), nth_error (allocations db) (snd ij) with
  | Some a1, Some a2 => can_scan_pair db a1 a2
  | _, _ => true
  end.

Definition can_scan (db : database) : bool :=
  forallb (can_scan_at db) (Spec.index_pairs (List.length (allocations db))).

(** [utilisation_report] can read the event of every allocation of a
    stored resource. *)
Definition can_report (db : database) : bool :=
  forallb (fun r => forallb (fun a => stored (event_of db a))
                            (allocations_on db (resource_id r)))
          (resources db).

(** The events of [l] that start at or after the clock reading taken for
    them: the [i]-th event is compared with the reading number [k + i]. *)
Fixpoint upcoming_at (clk : nat -> datetime) (k : nat) (l : list Event) : list Event :=
  match l with
  | [] => []
  | e :: l' => (if start_time e >=? clk k then [e] else []) ++ upcoming_at clk (S k) l'
  end.

(** The upcoming lists of the resources [rs], the clock being read once
    for every event that meets the window, from the reading number [k]. *)
Fixpoint upcoming_rows (db : database) (windowStart windowEnd : datetime)
    (clk : nat -> datetime) (k : nat) (rs : list Resource) : list (Resource * list Event) :=
  match rs with
  | [] => []
  | r :: rs' =>
      let l := Spec.events_in_window db windowStart windowEnd (resource_id r) in
      (r, sorted_by_start (upcoming_at clk k l))
      :: upcoming_rows db windowStart windowEnd clk (k + List.length l) rs'
  end.

(** The event of an allocation, when it is stored and meets the window
    [windowStart, windowEnd], boundaries included. *)
Definition window_term (db : database) (windowStart windowEnd : datetime)
    (a : EventResourceAllocation) : list Event :=
  match event_of db a with
  | Some e => if (start_time e <=? windowEnd) && (end_time e >=? windowStart) then [e] else []
  | None => []
  end.

(** What one allocation's event adds to the running total of its resource. *)
Definition hours_term {F : Type} `{PyFloat F} (db : database)
    (windowStart windowEnd : datetime) (a : EventResourceAllocation) : list F :=
  flat_map (fun e => if 0 <? Spec.clipped_width windowStart windowEnd e
                     then [Spec.hours_of (Spec.clipped_width windowStart windowEnd e)] else [])
    (match event_of db a with
     | Some e => if (start_time e <=? windowEnd) && (end_time e >=? windowStart) then [e] else []
     | None => []
     end).

(** Two views of a report row. *)
Definition totals {F : Type} (row : report_row F) : Resource * F :=
  (r_resource row, r_total_hours row).
Definition upcomings {F : Type} (row : report_row F) : Resource * list Event :=
  (r_resource row, r_upcoming row).

(** [[int(rid) for rid in l]] as a function: [None] when some item is not a number. *)
Fixpoint all_ints (l : list string) : option (list Z) :=
  match l with
  | [] => Some []
  | s :: l' =>
      match PyBuiltins.int s with
      | Some i => option_map (cons i) (all_ints l')
      | None => None
      end
  end.

(** The allocation rows after adding one row per requested resource, in order. *)
Fixpoint add_allocations (rows : list EventResourceAllocation) (eid : Z) (rids : list Z)
  : list EventResourceAllocation :=
  match rids with
  | [] => rows
  | rid :: rest =>
      add_allocations
        (rows ++ [mkAllocation (next_id (map allocation_id rows)) eid rid]) eid rest
  end.

(** The world with the session's rows replaced. *)
Definition with_session (db : database) (w : world) : world :=
  mkWorld db (committed w) (flashes w) (reads w) (clock w) (ticks w).

(** Every allocation references a stored event. *)
Definition event_integrity (db : database) : bool :=
  forallb (fun a => match event_of db a with Some _ => true | None => false end)
          (allocations db).

(** ** Sample data

    A small store and a few requests, used to run the handlers. *)

Module Sample.

Definition at_ (y m d H M : Z) : datetime := mk_datetime y m d H M 0 0.

Definition room : Resource := mkResource 1 "Room A" "room".
Definition projector : Resource := mkResource 2 "Projector" "equipment".

Definition standup : Event :=
  mkEvent (Some 1) "Standup" (at_ 2025 1 1 9 0) (at_ 2025 1 1 10 0) None.
Definition review : Event :=
  mkEvent (Some 2) "Review" (at_ 2025 1 1 10 0) (at_ 2025 1 1 14 0) None.
Definition night_shift : Event :=
  mkEvent (Some 3) "Night shift" (at_ 2025 1 1 22 0) (at_ 2025 1 2 2 0) None.
Definition launch : Event :=
  mkEvent (Some 4) "Launch" (at_ 2030 6 1 9 0) (at_ 2030 6 1 12 0) None.

(** The room holds the standup and the review, which touch at 10:00; the
    projector holds the review, the night shift and the launch. *)
Definition db : database :=
  mkDatabase [standup; review; night_shift; launch] [room; projector]
    [mkAllocation 1 1 1; mkAllocation 2 2 1; mkAllocation 3 2 2;
     mkAllocation 4 3 2; mkAllocation 5 4 2].

(** The standup is allocated twice to the room. *)
Definition db_duplicate : database :=
  mkDatabase [standup; review] [room; projector]
    [mkAllocation 1 1 1; mkAllocation 2 2 2; mkAllocation 3 1 1].

(** The duplicate allocation of the standup, and the review allocated
    twice to a resource that is not stored. *)
Definition db_duplicate_unstored : database :=
  mkDatabase [standup; review] [room; projector]
    [mkAllocation 1 1 1; mkAllocation 2 2 2; mkAllocation 3 1 1;
     mkAllocation 4 2 7; mkAllocation 5 2 7].

(** The first integer that SQLite cannot hold. *)
Definition oversized : Z := 2 ^ 63.

(** The world at the start of a request: nothing pending, the clock at [t]. *)
Definition world_at (db : database) (t : datetime) : world :=
  mkWorld db db [] [] (fun _ => t) 0.

Definition today : datetime := at_ 2026 11 4 12 0.

(** A candidate that ends before it starts. *)
Definition backwards : Event :=
  mkEvent None "Backwards" (at_ 2025 1 1 14 0) (at_ 2025 1 1 13 0) None.

(** A new event in the room from 09:30 to 10:30: it overlaps both bookings. *)
Definition workshop : Event :=
  mkEvent None "Workshop" (at_ 2025 1 1 9 30) (at_ 2025 1 1 10 30) None.

(** The standup, edited to run from 09:00 to 09:45. *)
Definition standup_edited : Event :=
  mkEvent (Some 1) "Standup" (at_ 2025 1 1 9 0) (at_ 2025 1 1 9 45) None.

Definition report_request : request :=
  mkRequest POST [("start_date", "2025-01-01"); ("end_date", "2025-01-01")].

Definition report_request_short_date : request :=
  mkRequest POST [("start_date", "2025-1-1"); ("end_date", "2025-1-1")].

Definition report_request_no_end : request :=
  mkRequest POST [("start_date", "2025-01-01")].

Definition report_request_bad_end : request :=
  mkRequest POST [("start_date", "2025-01-01"); ("end_date", "01/02/2025")].

(** A report over the first half of 2030, read in November 2026. *)
Definition report_request_2030 : request :=
  mkRequest POST [("start_date", "2030-01-01"); ("end_date", "2030-06-30")].

Definition add_request : request :=
  mkRequest POST [("title", "Retro"); ("start_time", "2025-02-01T09:00");
                  ("end_time", "2025-02-01T10:00"); ("resources", "1"); ("resources", "2")].

(** A form that selects twice a resource that is not stored. *)
Definition add_request_unstored_twice : request :=
  mkRequest POST [("title", "Retro"); ("start_time", "2025-02-01T09:00");
                  ("end_time", "2025-02-01T10:00"); ("resources", "7"); ("resources", "7")].

(** A clock that advances by one microsecond at every reading. *)
Definition running_clock (t : datetime) : nat -> datetime := fun k => t + Z.of_nat k.

Definition add_request_twice_the_room : request :=
  mkRequest POST [("title", "Retro"); ("start_time", "2025-02-01T09:00");
                  ("end_time", "2025-02-01T10:00"); ("resources", "1"); ("resources", "1")].

Definition add_request_lenient : request :=
  mkRequest POST [("title", "Retro"); ("start_time", "2025-2-1t9:05");
                  ("end_time", "2025-02-01T10:00"); ("resources", "1")].

Definition add_request_bad_start : request :=
  mkRequest POST [("title", "Retro"); ("start_time", "2025-02-01 09:00");
                  ("end_time", "2025-02-01T10:00"); ("resources", "1")].

Definition add_request_no_end : request :=
  mkRequest POST [("title", "Retro"); ("start_time", "2025-02-01T09:00");
                  ("resources", "1")].

End Sample.

(** ** Further vocabulary for the routes *)

(** The world after [for c in messages: flash(c, category)]. *)
Definition flashed_all (messages : list string) (category : string) (w : world) : world :=
  mkWorld (session w) (committed w)
          (flashes w ++ map (fun c => (c, category)) messages)
          (reads w) (clock w) (ticks w).

(** The event as it is stored: the object with the key the flush gave it. *)
Definition with_id (eid : Z) (e : Event) : Event :=
  mkEvent (Some eid) (title e) (start_time e) (end_time e) (description e).

(** The rows after a new event and one allocation per selected resource. *)
Definition with_new_event (db : database) (e : Event) (rids : list Z) : database :=
  mkDatabase (events db ++ [with_id (next_id (event_ids db)) e]) (resources db)
             (add_allocations (allocations db) (next_id (event_ids db)) rids).

(** The world after a commit of the rows [db] and the success message. *)
Definition committed_with (db : database) (message : string) (w : world) : world :=
  mkWorld db db (flashes w ++ [(message, "success")]) (reads w) (clock w) (ticks w).

(** The event object [add_event] builds from a form. *)
Definition event_of_form (req : request) (t : string) (ds de : datetime) : Event :=
  mkEvent None t ds de (form_get req "description").

(** The keys of the stored resources. *)
Definition resource_ids (db : database) : list Z := map resource_id (resources db).

(** More sample requests. *)
Module MoreSamples.

(** A workshop in the room from 09:30 to 10:30 on 2025-01-01. *)
Definition add_request_clash : request :=
  mkRequest POST [("title", "Workshop"); ("start_time", "2025-01-01T09:30");
                  ("end_time", "2025-01-01T10:30"); ("resources", "1")].

(** An event that would end an hour before it starts. *)
Definition add_request_backwards : request :=
  mkRequest POST [("title", "Backwards"); ("start_time", "2025-01-01T14:00");
                  ("end_time", "2025-01-01T13:00"); ("resources", "1")].

Definition start_world : world := Sample.world_at Sample.db Sample.today.

End MoreSamples.

(** A store with an allocation whose event is not stored. *)
Definition db_dangling : database :=
  mkDatabase [Sample.standup] [Sample.room] [mkAllocation 1 1 1; mkAllocation 2 9 1].

(** The session's rows, the committed rows and the clock are as in [w0]. *)
Definition rows_kept (w0 w : world) : Prop :=
  session w = session w0 /\ committed w = committed w0 /\ clock w = clock w0.

(** [Event.duration_hours] *)
Definition duration_hours {F : Type} `{PyFloat F} (self : Event) : F :=
  let delta := sub (end_time self) (start_time self) in
  float_div (total_seconds delta) float_3600.

(** The events booked on a resource, in allocation order. *)
Definition events_on (db : database) (rid : Z) : list Event :=
  flat_map (fun a => match event_of db a with Some e => [e] | None => [] end)
           (allocations_on db rid).

(** ** The other routes

    Their responses.  [abort(404)] of [get_or_404] ends the request with
    the response [NotFound404]. *)

Inductive page :=
| RedirectTo (endpoint : string) (arg : option Z)
| NotFound404
| HomePage (upcoming_events : list Event) (events_count resources_count : nat)
| ResourcesPage (all_resources : list Resource)
| ResourceFormPage (action : string) (resource : option Resource)
| EventsPage (all_events : list Event) (all_resources : list Resource)
| EventFormPage (action : string) (all_resources : list Resource)
                (event : option Event) (selected_resource_ids : list Z).

(** The row of [resources] with the key [rid], and the row of [events]
    with the key [eid], if there is one. *)
Definition get_resource (db : database) (rid : Z) : option Resource :=
  find (fun r => resource_id r =? rid) (resources db).

Definition get_event (db : database) (eid : Z) : option Event :=
  find (fun e => id_eqb (event_id e) (Some eid)) (events db).

(** The world after one more read. *)
Definition logged (r : read) (w : world) : world :=
  mkWorld (session w) (committed w) (flashes w) (reads w ++ [r]) (clock w) (ticks w).

(** [Resource.query.get_or_404(rid)]: a SELECT by primary key, [None]
    standing for [abort(404)].  The keys of the stored rows are SQLite
    integers, so the key of a stored row binds and its row is found; a key
    that no row has is answered by [None] when it is a SQLite integer, and
    by [OverflowError], the statement not run, when it is not. *)
Definition resource_get_or_404 (rid : Z) : M (option Resource) :=
  db <- get_session ;;
  match get_resource db rid with
  | Some resource => log (ReadResource rid) ;;; ret (Some resource)
  | None => bind_parameter rid ;;; log (ReadResource rid) ;;; ret None
  end.

(** [Event.query.get_or_404(eid)], in the same way. *)
Definition event_get_or_404 (eid : Z) : M (option Event) :=
  db <- get_session ;;
  match get_event db eid with
  | Some event => log (ReadEvent eid) ;;; ret (Some event)
  | None => bind_parameter eid ;;; log (ReadEvent eid) ;;; ret None
  end.

(** The one-to-many relationship [event.allocations], loaded with the key
    of a stored event. *)
Definition event_allocations (eid : Z) : M (list EventResourceAllocation) :=
  log (ReadAllocationsOf eid) ;;; db <- get_session ;; ret (allocations_of_event db eid).

(** The rows of [events] in ascending order of start time; rows with equal
    start times are taken in primary-key order. *)
Definition events_by_start (db : database) : list Event := sorted_by_start (events db).

(** [Event.query.order_by(Event.start_time).all()] *)
Definition query_events_by_start : M (list Event) :=
  log ReadEvents ;;; db <- get_session ;; ret (events_by_start db).

(** [Event.query.order_by(Event.start_time).limit(3).all()] *)
Definition query_first_events_by_start (n : nat) : M (list Event) :=
  log ReadEvents ;;; db <- get_session ;; ret (firstn n (events_by_start db)).

(** [Event.query.count()] and [Resource.query.count()] *)
Definition count_events : M nat :=
  log CountEvents ;;; db <- get_session ;; ret (List.length (events db)).

Definition count_resources : M nat :=
  log CountResources ;;; db <- get_session ;; ret (List.length (resources db)).

(** *** Home *)

Definition index : M page :=
  upcoming_events <- query_first_events_by_start 3 ;;
  events_count <- count_events ;;
  resources_count <- count_resources ;;
  ret (HomePage upcoming_events events_count resources_count).

(** *** Resources *)

Definition list_resources : M page :=
  resources <- query_all_resources ;;
  ret (ResourcesPage resources).

(** [db.session.add(Resource(resource_name=name, resource_type=rtype))] *)
Definition session_add_resource (name rtype : string) : M unit :=
  db <- get_session ;;
  let r := mkResource (next_id (map resource_id (resources db))) name rtype in
  put_session (mkDatabase (events db) (resources db ++ [r]) (allocations db)).

Definition add_resource (req : request) : M page :=
  match method req with
  | POST =>
      let name := form_get req "resource_name" in
      let rtype := form_get req "resource_type" in
      match name, rtype with
      | Some (String c1 n), Some (String c2 t) =>
          session_add_resource (String c1 n) (String c2 t) ;;;
          commit ;;;
          flash "Resource added successfully!" "success" ;;;
          ret (RedirectTo "list_resources" None)
      | _, _ =>
          flash "Resource name and type are required." "danger" ;;;
          ret (RedirectTo "add_resource" None)
      end
  | GET => ret (ResourceFormPage "Add" None)
  end.

(** The resource row with key [rid] rewritten, the other rows kept. *)
Definition update_resource (rid : Z) (name rtype : string) (rows : list Resource)
  : list Resource :=
  map (fun r => if resource_id r =? rid then mkResource (resource_id r) name rtype else r) rows.

(** The assignments to [resource.resource_name] and [resource.resource_type]
    reach the rows when the session is flushed, at [commit]. *)
Definition session_update_resource (rid : Z) (name rtype : string) : M unit :=
  db <- get_session ;;
  put_session (mkDatabase (events db) (update_resource rid name rtype (resources db))
                          (allocations db)).

Definition edit_resource (req : request) (resource_id : Z) : M page :=
  resource <- resource_get_or_404 resource_id ;;
  match resource with
  | None => ret NotFound404
  | Some resource =>
      match method req with
      | POST =>
          let name := form_get req "resource_name" in
          let rtype := form_get req "resource_type" in
          match name, rtype with
          | Some (String c1 n), Some (String c2 t) =>
              session_update_resource resource_id (String c1 n) (String c2 t) ;;;
              commit ;;;
              flash "Resource updated successfully!" "success" ;;;
              ret (RedirectTo "list_resources" None)
          | _, _ =>
              flash "Resource name and type are required." "danger" ;;;
              ret (RedirectTo "edit_resource" (Some resource_id))
          end
      | GET => ret (ResourceFormPage "Edit" (Some resource))
      end
  end.

(** *** Events *)

Definition list_events : M page :=
  events <- query_events_by_start ;;
  resources <- query_all_resources ;;
  ret (EventsPage events resources).

(** The event row with key [eid] rewritten, the other rows kept. *)
Definition update_event (e : Event) (rows : list Event) : list Event :=
  map (fun x => if id_eqb (event_id x) (event_id e) then e else x) rows.

(** The assignments to the event's attributes reach the rows when the
    session is flushed, before its next query. *)
Definition session_update_event (e : Event) : M unit :=
  db <- get_session ;;
  put_session (mkDatabase (update_event e (events db)) (resources db) (allocations db)).

(** [EventResourceAllocation.query.filter_by(event_id=eid).delete()] *)
Definition session_delete_allocations_of (eid : Z) : M unit :=
  db <- get_session ;;
  put_session (mkDatabase (events db) (resources db)
                          (filter (fun a => negb (alloc_event_id a =? eid)) (allocations db))).

Definition edit_event (req : request) (event_id : Z) : M page :=
  event <- event_get_or_404 event_id ;;
  match event with
  | None => ret NotFound404
  | Some event =>
      resources <- query_all_resources ;;
      match method req with
      | POST =>
          let title := form_get req "title" in
          let description := form_get req "description" in
          start_time <- parse_datetime_from_form req "start_time" ;;
          end_time <- parse_datetime_from_form req "end_time" ;;
          selected_resource_ids <- ints_of (form_getlist req "resources") ;;
          match title, start_time, end_time with
          | Some (String c t), Some start_time, Some end_time =>
              let event := mkEvent (Some event_id) (String c t) start_time end_time description in
              session_update_event event ;;;
              conflicts <- check_conflicts event selected_resource_ids ;;
              match conflicts with
              | _ :: _ =>
                  for_each conflicts (fun c _ => flash c "danger") tt ;;;
                  ret (EventFormPage "Edit" resources (Some event) selected_resource_ids)
              | [] =>
                  session_delete_allocations_of event_id ;;;
                  for_each selected_resource_ids
                    (fun rid _ => session_add_allocation event_id rid) tt ;;;
                  commit ;;;
                  flash "Event updated successfully!" "success" ;;;
                  ret (RedirectTo "list_events" None)
              end
          | _, _, _ =>
              flash "Title, start time, and end time are required." "danger" ;;;
              ret (RedirectTo "edit_event" (Some event_id))
          end
      | GET =>
          allocations <- event_allocations event_id ;;
          let selected_resource_ids := map alloc_resource_id allocations in
          ret (EventFormPage "Edit" resources (Some event) selected_resource_ids)
      end
  end.

(** The resource row [add_resource] stores, and the rows after it. *)
Definition new_resource (db : database) (name rtype : string) : Resource :=
  mkResource (next_id (map resource_id (resources db))) name rtype.

Definition with_new_resource (db : database) (name rtype : string) : database :=
  mkDatabase (events db) (resources db ++ [new_resource db name rtype]) (allocations db).

(** The rows after [edit_resource] rewrote the row with key [rid]. *)
Definition with_resource (db : database) (rid : Z) (name rtype : string) : database :=
  mkDatabase (events db) (update_resource rid name rtype (resources db)) (allocations db).

Module ResourceSamples.

Definition add_request : request :=
  mkRequest POST [("resource_name", "Room B"); ("resource_type", "room")].

Definition add_request_no_type : request :=
  mkRequest POST [("resource_name", "Room B"); ("resource_type", EmptyString)].

Definition rename_request : request :=
  mkRequest POST [("resource_name", "Beamer"); ("resource_type", "equipment")].

End ResourceSamples.

(** The event object [edit_event] holds after the assignments from the form. *)
Definition edited_event (req : request) (eid : Z) (t : string) (ds de : datetime) : Event :=
  mkEvent (Some eid) t ds de (form_get req "description").

(** The rows with the event's row rewritten. *)
Definition with_event (db : database) (e : Event) : database :=
  mkDatabase (update_event e (events db)) (resources db) (allocations db).

(** The rows with the allocations of the event [eid] replaced by one per
    selected resource. *)
Definition with_allocations_replaced (db : database) (eid : Z) (rids : list Z) : database :=
  mkDatabase (events db) (resources db)
             (add_allocations (filter (fun a => negb (alloc_event_id a =? eid)) (allocations db))
                              eid rids).

(** The allocations on a resource that belong to other events than [eid]. *)
Definition others_on (db : database) (eid rid : Z) : list EventResourceAllocation :=
  filter (fun a => negb (alloc_event_id a =? eid)) (allocations_on db rid).

(** The bookings an edit of the event [eid] runs into: for each selected
    resource, in order, the descriptions of the other events' allocations
    that overlap the new times. *)
Definition edit_conflicts (db : database) (e : Event) (eid : Z) (rids : list Z) : list string :=
  flat_map (fun rid => flat_map (Spec.reported db e) (others_on db eid rid)) rids.

(** What [edit_event] does once [check_conflicts] has answered. *)
Definition edit_event_after_check (e : Event) (eid : Z) (rids : list Z)
    (all_resources : list Resource) (checked : outcome (list string) * world)
  : outcome page * world :=
  match checked with
  | (Raises x, w2) => (Raises x, w2)
  | (Returns (m :: ms), w2) =>
      (Returns (EventFormPage "Edit" all_resources (Some e) rids),
       flashed_all (m :: ms) "danger" w2)
  | (Returns [], w2) =>
      (Returns (RedirectTo "list_events" None),
       committed_with (with_allocations_replaced (session w2) eid rids)
                      "Event updated successfully!" w2)
  end.

Module EventSamples.

(** The review moved to 11:00-12:00, in the room only. *)
Definition move_review : request :=
  mkRequest POST [("title", "Review"); ("start_time", "2025-01-01T11:00");
                  ("end_time", "2025-01-01T12:00"); ("resources", "1")].

(** The review moved onto the standup. *)
Definition move_review_onto_standup : request :=
  mkRequest POST [("title", "Review"); ("start_time", "2025-01-01T09:30");
                  ("end_time", "2025-01-01T12:00"); ("resources", "1")].

Definition show_form : request := mkRequest GET [].

End EventSamples.

(** * Proofs *)

(** ** Rules of the handler logic *)

Section Rules.

Context {A B : Type}.

Lemma hoare_ret (P : world -> Prop) (a : A) Q E :
  (forall w, P w -> Q a w) -> hoare P (ret a) Q E.
Proof. intros HQ w Hw. cbn. auto. Qed.

Lemma hoare_raise (P : world -> Prop) (e : exn) (Q : A -> world -> Prop) (E : exn -> world -> Prop) :
  (forall w, P w -> E e w) -> hoare P (raise e) Q E.
Proof. intros HE w Hw. cbn. auto. Qed.

Lemma hoare_bind P (m : M A) (k : A -> M B) R Q E :
  hoare P m R E -> (forall a, hoare (R a) (k a) Q E) -> hoare P (bind m k) Q E.
Proof.
  intros Hm Hk w Hw. unfold bind. specialize (Hm w Hw).
  destruct (m w) as [[a|e] w1]; [ exact (Hk a w1 Hm) | exact Hm ].
Qed.

Lemma hoare_weaken (P P' : world -> Prop) (m : M A) (Q Q' : A -> world -> Prop) (E E' : exn -> world -> Prop) :
  hoare P m Q E ->
  (forall w, P' w -> P w) -> (forall a w, Q a w -> Q' a w) -> (forall e w, E e w -> E' e w) ->
  hoare P' m Q' E'.
Proof.
  intros Hm HP HQ HE w Hw. specialize (Hm w (HP w Hw)).
  destruct (m w) as [[a|e] w1]; auto.
Qed.

Lemma hoare_pure (phi : Prop) (P : world -> Prop) (m : M A) Q E :
  (phi -> hoare P m Q E) -> hoare (fun w => phi /\ P w) m Q E.
Proof. intros Hm w [Hphi Hw]. exact (Hm Hphi w Hw). Qed.

End Rules.

(** The loop rule: the invariant [I] speaks of the items already visited. *)
Lemma hoare_for_each {A S} (body : A -> S -> M S) E :
  forall (l : list A) (I : list A -> S -> world -> Prop),
    (forall visited x s, (exists rest, l = visited ++ x :: rest) ->
        hoare (I visited s) (body x s) (I (visited ++ [x])) E) ->
    forall s, hoare (I [] s) (for_each l body s) (I l) E.
Proof.
  induction l as [|x l IH]; intros I Hbody s.
  - apply hoare_ret. auto.
  - cbn [for_each]. eapply hoare_bind.
    + apply (Hbody [] x s). exists l. reflexivity.
    + intros s'. cbn [app].
      apply (IH (fun visited => I (x :: visited))).
      intros visited y s0 [rest Hrest].
      apply (Hbody (x :: visited) y s0). exists rest. cbn [app]. now f_equal.
Qed.

(** A loop whose body computes [f] on the local variables computes a fold. *)
Lemma hoare_for_each_fold {A S} (body : A -> S -> M S) (f : S -> A -> S) P E (l : list A) :
  (forall x s, In x l -> hoare P (body x s) (fun s' w' => s' = f s x /\ P w') E) ->
  forall s, hoare P (for_each l body s) (fun s' w' => s' = fold_left f l s /\ P w') E.
Proof.
  intros Hbody s.
  eapply hoare_weaken.
  - apply (hoare_for_each body E l (fun visited s' w => s' = fold_left f visited s /\ P w)).
    intros visited x s1 [rest Hl]. apply hoare_pure. intros ->.
    eapply hoare_weaken.
    + apply (Hbody x (fold_left f visited s)). rewrite Hl. apply in_or_app. right. now left.
    + auto.
    + cbn beta. intros s' w [-> Hw]. split; [ | exact Hw ].
      rewrite fold_left_app. reflexivity.
    + auto.
  - cbn beta. intros w Hw. split; [ reflexivity | exact Hw ].
  - auto.
  - auto.
Qed.

(** The same for a view [pi] of the local variables. *)
Lemma hoare_for_each_view {A S T} (body : A -> S -> M S) (pi : S -> T) (f : T -> A -> T)
    P E (l : list A) :
  (forall x s, In x l -> hoare P (body x s) (fun s' w' => pi s' = f (pi s) x /\ P w') E) ->
  forall s, hoare P (for_each l body s) (fun s' w' => pi s' = fold_left f l (pi s) /\ P w') E.
Proof.
  intros Hbody s.
  eapply hoare_weaken.
  - apply (hoare_for_each body E l (fun visited s' w => pi s' = fold_left f visited (pi s) /\ P w)).
    intros visited x s1 [rest Hl]. apply hoare_pure. intros Hpi.
    eapply hoare_weaken.
    + apply (Hbody x s1). rewrite Hl. apply in_or_app. right. now left.
    + auto.
    + cbn beta. intros s' w [Hs' Hw]. split; [ | exact Hw ].
      rewrite fold_left_app. cbn [fold_left]. rewrite Hs', Hpi. reflexivity.
    + auto.
  - cbn beta. intros w Hw. split; [ reflexivity | exact Hw ].
  - auto.
  - auto.
Qed.

(** A fold whose iterations may fail: when the loop returns, every item
    passed the test [ok]. *)
Lemma hoare_for_each_fold_if {A S} (body : A -> S -> M S) (f : S -> A -> S) (ok : A -> bool)
    P E (l : list A) :
  (forall x s, In x l ->
     hoare P (body x s) (fun s' w' => s' = f s x /\ ok x = true /\ P w') E) ->
  forall s, hoare P (for_each l body s)
              (fun s' w' => s' = fold_left f l s /\ forallb ok l = true /\ P w') E.
Proof.
  intros Hbody s.
  eapply hoare_weaken.
  - apply (hoare_for_each body E l
             (fun visited s' w => s' = fold_left f visited s /\ forallb ok visited = true /\ P w)).
    intros visited x s1 [rest Hl]. apply hoare_pure. intros ->.
    intros w [Hok Hw].
    pose proof (Hbody x (fold_left f visited s)
                  ltac:(rewrite Hl; apply in_or_app; right; now left) w Hw) as Hrun.
    destruct (body x (fold_left f visited s) w) as [[s'|e] w']; [ | exact Hrun ].
    destruct Hrun as (-> & Hx & Hw'). rewrite fold_left_app, forallb_app, Hok.
    cbn [forallb fold_left andb]. rewrite Hx. repeat split. exact Hw'.
  - cbn beta. intros w Hw. repeat split. exact Hw.
  - intros s' w Hq; exact Hq.
  - intros e w He; exact He.
Qed.

(** The same for a view [pi] of the local variables. *)
Lemma hoare_for_each_view_if {A S T} (body : A -> S -> M S) (pi : S -> T) (f : T -> A -> T)
    (ok : A -> bool) P E (l : list A) :
  (forall x s, In x l ->
     hoare P (body x s) (fun s' w' => pi s' = f (pi s) x /\ ok x = true /\ P w') E) ->
  forall s, hoare P (for_each l body s)
              (fun s' w' => pi s' = fold_left f l (pi s) /\ forallb ok l = true /\ P w') E.
Proof.
  intros Hbody s.
  eapply hoare_weaken.
  - apply (hoare_for_each body E l
             (fun visited s' w => pi s' = fold_left f visited (pi s)
                                  /\ forallb ok visited = true /\ P w)).
    intros visited x s1 [rest Hl]. apply hoare_pure. intros Hpi.
    intros w [Hok Hw].
    pose proof (Hbody x s1
                  ltac:(rewrite Hl; apply in_or_app; right; now left) w Hw) as Hrun.
    destruct (body x s1 w) as [[s'|e] w']; [ | exact Hrun ].
    destruct Hrun as (Hs' & Hx & Hw'). rewrite fold_left_app, forallb_app, Hok.
    cbn [forallb fold_left andb]. rewrite Hx, Hs', Hpi. repeat split. exact Hw'.
  - cbn beta. intros w Hw. repeat split. exact Hw.
  - intros s' w Hq; exact Hq.
  - intros e w He; exact He.
Qed.

Lemma forallb_false_in {A} (f : A -> bool) (l : list A) x :
  In x l -> f x = false -> forallb f l = false.
Proof.
  intros Hx Hf. destruct (forallb f l) eqn:Hall; [ | reflexivity ].
  rewrite forallb_forall in Hall. rewrite (Hall x Hx) in Hf. discriminate.
Qed.

(** A loop keeps what each of its iterations keeps. *)
Lemma hoare_for_each_keeps {A S} (body : A -> S -> M S) (I : S -> world -> Prop) E (l : list A) :
  (forall x s, In x l -> hoare (I s) (body x s) I E) ->
  forall s, hoare (I s) (for_each l body s) I E.
Proof.
  intros Hbody s.
  apply (hoare_for_each body E l (fun _ => I)).
  intros visited x s1 [rest Hl]. apply Hbody. rewrite Hl. apply in_or_app. right. now left.
Qed.

(** ** The primitive operations *)

Lemma log_stable_sees db : log_stable (sees db).
Proof. intros w rs Hw. exact Hw. Qed.

Lemma tick_stable_sees db : tick_stable (sees db).
Proof. intros w t Hw. exact Hw. Qed.

Lemma log_stable_untouched w0 : log_stable (untouched w0).
Proof. intros w rs Hw. exact Hw. Qed.

Section Primitives.

Variable P : world -> Prop.
Hypothesis P_stable : log_stable P.
Variable E : exn -> world -> Prop.

Lemma hoare_query_all_resources :
  hoare P query_all_resources (fun rs w => rs = resources (session w) /\ P w) E.
Proof. intros w Hw. cbn. split; [ reflexivity | apply (P_stable w); exact Hw ]. Qed.

Lemma hoare_query_all_allocations :
  hoare P query_all_allocations (fun l w => l = allocations (session w) /\ P w) E.
Proof. intros w Hw. cbn. split; [ reflexivity | apply (P_stable w); exact Hw ]. Qed.

Lemma hoare_query_allocations_by_resource rid :
  sqlite_integer rid = true ->
  hoare P (query_allocations_by_resource rid)
        (fun l w => l = allocations_on (session w) rid /\ P w) E.
Proof.
  intros Hrid w Hw. unfold query_allocations_by_resource, bind_parameter. rewrite Hrid.
  cbn. split; [ reflexivity | apply (P_stable w); exact Hw ].
Qed.

(** The same query for any identifier: it answers for a SQLite integer
    and raises [OverflowError], nothing read, for any other. *)
Lemma hoare_query_allocations_by_resource_any rid :
  hoare P (query_allocations_by_resource rid)
        (fun l w => l = allocations_on (session w) rid /\ sqlite_integer rid = true /\ P w)
        (fun e w => e = OverflowError /\ sqlite_integer rid = false /\ P w).
Proof.
  intros w Hw. unfold query_allocations_by_resource, bind_parameter.
  destruct (sqlite_integer rid); cbn.
  - split; [ reflexivity | split; [ reflexivity | apply (P_stable w); exact Hw ] ].
  - split; [ reflexivity | split; [ reflexivity | exact Hw ] ].
Qed.

Lemma hoare_resource_allocations r :
  hoare P (resource_allocations r)
        (fun l w => l = allocations_on (session w) (resource_id r) /\ P w) E.
Proof. intros w Hw. cbn. split; [ reflexivity | apply (P_stable w); exact Hw ]. Qed.

Lemma hoare_alloc_event a :
  hoare P (alloc_event a) (fun o w => o = event_of (session w) a /\ P w) E.
Proof. intros w Hw. cbn. split; [ reflexivity | apply (P_stable w); exact Hw ]. Qed.

Lemma hoare_alloc_resource a :
  hoare P (alloc_resource a) (fun o w => o = resource_of (session w) a /\ P w) E.
Proof. intros w Hw. cbn. split; [ reflexivity | apply (P_stable w); exact Hw ]. Qed.

End Primitives.

Lemma hoare_now P E :
  tick_stable P -> hoare P now (fun t w => (exists k, t = clock w k) /\ P w) E.
Proof.
  intros HP w Hw. cbn. split; [ exists (ticks w); reflexivity | apply (HP w); exact Hw ].
Qed.

Lemma hoare_bind_ret {A B} P (a : A) (k : A -> M B) Q E :
  hoare P (k a) Q E -> hoare P (bind (ret a) k) Q E.
Proof. intros Hk w Hw. exact (Hk w Hw). Qed.

Lemma hoare_bind_raise {A B} (P : world -> Prop) (e : exn) (k : A -> M B) (Q : B -> world -> Prop) (E : exn -> world -> Prop) :
  (forall w, P w -> E e w) -> hoare P (bind (raise e) k) Q E.
Proof. intros HE w Hw. cbn. auto. Qed.

Lemma hoare_forget {A} P (m : M A) (Q : A -> world -> Prop) E :
  hoare P m (fun a w => Q a w /\ P w) E -> hoare P m (fun _ => P) E.
Proof.
  intros Hm. eapply hoare_weaken; [ exact Hm | auto | | auto ].
  cbn beta. intros a w [_ Hw]. exact Hw.
Qed.

(** Reads through a session known to hold [db]. *)
Section Reads.

Variable db : database.
Variable P : world -> Prop.
Hypothesis P_stable : log_stable P.
Hypothesis P_sees : forall w, P w -> session w = db.
Variable E : exn -> world -> Prop.

Lemma reads_allocations_by_resource rid :
  sqlite_integer rid = true ->
  hoare P (query_allocations_by_resource rid) (fun l w => l = allocations_on db rid /\ P w) E.
Proof.
  intros Hrid.
  eapply hoare_weaken;
    [ apply (hoare_query_allocations_by_resource P P_stable E rid Hrid) | auto | | auto ].
  cbn beta. intros l w [-> Hw]. rewrite (P_sees w Hw). auto.
Qed.

Lemma reads_resource_allocations r :
  hoare P (resource_allocations r)
        (fun l w => l = allocations_on db (resource_id r) /\ P w) E.
Proof.
  eapply hoare_weaken; [ apply (hoare_resource_allocations P P_stable E) | auto | | auto ].
  cbn beta. intros l w [-> Hw]. rewrite (P_sees w Hw). auto.
Qed.

Lemma reads_all_allocations :
  hoare P query_all_allocations (fun l w => l = allocations db /\ P w) E.
Proof.
  eapply hoare_weaken; [ apply (hoare_query_all_allocations P P_stable E) | auto | | auto ].
  cbn beta. intros l w [-> Hw]. rewrite (P_sees w Hw). auto.
Qed.

Lemma reads_all_resources :
  hoare P query_all_resources (fun l w => l = resources db /\ P w) E.
Proof.
  eapply hoare_weaken; [ apply (hoare_query_all_resources P P_stable E) | auto | | auto ].
  cbn beta. intros l w [-> Hw]. rewrite (P_sees w Hw). auto.
Qed.

Lemma reads_alloc_event a :
  hoare P (alloc_event a) (fun o w => o = event_of db a /\ P w) E.
Proof.
  eapply hoare_weaken; [ apply (hoare_alloc_event P P_stable E) | auto | | auto ].
  cbn beta. intros l w [-> Hw]. rewrite (P_sees w Hw). auto.
Qed.

Lemma reads_alloc_resource a :
  hoare P (alloc_resource a) (fun o w => o = resource_of db a /\ P w) E.
Proof.
  eapply hoare_weaken; [ apply (hoare_alloc_resource P P_stable E) | auto | | auto ].
  cbn beta. intros l w [-> Hw]. rewrite (P_sees w Hw). auto.
Qed.

End Reads.

(** One step of a handler: run the first operation, name its result. *)
Ltac step lem :=
  eapply hoare_bind; [ apply lem; auto | cbn beta; intros ?; apply hoare_pure; intros -> ].

(** ** Lists and the comparison operators *)

Lemma fold_left_append {A B} (g : A -> list B) (l : list A) (acc : list B) :
  fold_left (fun acc a => acc ++ g a) l acc = acc ++ flat_map g l.
Proof.
  revert acc. induction l as [|a l IH]; intros acc; cbn.
  - now rewrite app_nil_r.
  - rewrite IH, app_assoc. reflexivity.
Qed.

Lemma flat_map_filter {A B} (p : A -> bool) (g : A -> list B) (l : list A) :
  flat_map g (filter p l) = flat_map (fun a => if p a then g a else []) l.
Proof.
  induction l as [|a l IH]; cbn; [ reflexivity | ].
  destruct (p a); cbn; now rewrite IH.
Qed.

Lemma flat_map_ext_in {A B} (f g : A -> list B) (l : list A) :
  (forall a, In a l -> f a = g a) -> flat_map f l = flat_map g l.
Proof.
  induction l as [|a l IH]; intros Hfg; cbn; [ reflexivity | ].
  rewrite (Hfg a (or_introl eq_refl)), IH; [ reflexivity | ].
  intros b Hb. apply Hfg. now right.
Qed.

Lemma flat_map_nil {A B} (f : A -> list B) (l : list A) :
  (forall a, In a l -> f a = []) -> flat_map f l = [].
Proof.
  induction l as [|a l IH]; intros Hf; cbn; [ reflexivity | ].
  rewrite (Hf a (or_introl eq_refl)), IH; [ reflexivity | ].
  intros b Hb. apply Hf. now right.
Qed.

Lemma overlap_test_spec (s1 e1 s2 e2 : datetime) :
  lt s1 e2 && gt e1 s2 = Spec.overlaps s1 e1 s2 e2.
Proof. unfold lt, gt, Spec.overlaps. now rewrite Z.gtb_ltb. Qed.

Lemma overlaps_iff (s1 e1 s2 e2 : datetime) :
  Spec.overlaps s1 e1 s2 e2 = true <-> s1 < e2 /\ s2 < e1.
Proof. unfold Spec.overlaps. rewrite andb_true_iff, !Z.ltb_lt. tauto. Qed.

Lemma ge_false_iff (a b : datetime) : ge a b = false <-> a < b.
Proof. unfold ge. rewrite Z.geb_leb, Z.leb_gt. tauto. Qed.

Lemma ge_true_iff (a b : datetime) : ge a b = true <-> a >= b.
Proof. unfold ge. rewrite Z.geb_leb, Z.leb_le. lia. Qed.

(** ** Referential integrity *)

Lemma integrity_event db a :
  integrity db = true -> In a (allocations db) -> exists e, event_of db a = Some e.
Proof.
  unfold integrity. rewrite forallb_forall. intros H Ha. specialize (H a Ha).
  destruct (event_of db a) as [e|]; [ now exists e | discriminate ].
Qed.

Lemma integrity_resource db a :
  integrity db = true -> In a (allocations db) -> exists r, resource_of db a = Some r.
Proof.
  unfold integrity. rewrite forallb_forall. intros H Ha. specialize (H a Ha).
  destruct (event_of db a); [ | discriminate ].
  destruct (resource_of db a) as [r|]; [ now exists r | discriminate ].
Qed.

Lemma event_of_id db a e : event_of db a = Some e -> event_id e = Some (alloc_event_id a).
Proof.
  unfold event_of. intros H. apply find_some in H. destruct H as [_ H].
  destruct (event_id e) as [i|]; cbn in H; [ | discriminate ].
  apply Z.eqb_eq in H. now subst.
Qed.

Lemma event_of_stored db a e : event_of db a = Some e -> In e (events db).
Proof. unfold event_of. intros H. now apply find_some in H. Qed.

Lemma allocations_on_in db rid a :
  In a (allocations_on db rid) <-> In a (allocations db) /\ alloc_resource_id a = rid.
Proof. unfold allocations_on. rewrite filter_In, Z.eqb_eq. tauto. Qed.

(** ** [check_conflicts] *)

(** ** [check_conflicts] *)

Lemma same_event_spec db event a e :
  event_of db a = Some e -> Spec.same_event db event a = id_eqb (event_id e) (event_id event).
Proof. unfold Spec.same_event. now intros ->. Qed.

Lemma reported_spec db event a e r :
  event_of db a = Some e -> resource_of db a = Some r ->
  Spec.reported db event a =
  if lt (start_time event) (end_time e) && gt (end_time event) (start_time e)
  then [booked_message r e] else [].
Proof. unfold Spec.reported. intros -> ->. now rewrite overlap_test_spec. Qed.

Section Computes.

Variable db : database.
Variable P : world -> Prop.
Hypothesis P_stable : log_stable P.
Hypothesis P_sees : forall w, P w -> session w = db.

(** What one allocation adds to the list, when its event and resource are stored. *)
Lemma check_alloc_computes event a conflicts :
  (exists e, event_of db a = Some e) -> (exists r, resource_of db a = Some r) ->
  hoare P (check_alloc event a conflicts)
    (fun c w => c = conflicts ++ (if Spec.same_event db event a then []
                                  else Spec.reported db event a) /\ P w)
    never.
Proof.
  intros [e He] [r Hr]. unfold check_alloc.
  step (reads_alloc_event db P P_stable P_sees).
  rewrite He. cbn [attr_of]. apply hoare_bind_ret.
  rewrite (same_event_spec db event a e He), (reported_spec db event a e r He Hr).
  destruct (id_eqb (event_id e) (event_id event)).
  - apply hoare_ret. intros w Hw. now rewrite app_nil_r.
  - destruct (lt (start_time event) (end_time e) && gt (end_time event) (start_time e)).
    + step (reads_alloc_resource db P P_stable P_sees).
      rewrite Hr. cbn [attr_of]. apply hoare_bind_ret.
      apply hoare_ret. auto.
    + apply hoare_ret. intros w Hw. now rewrite app_nil_r.
Qed.

(** What one allocation adds to the list, and when the checker cannot
    judge it. *)
Lemma check_alloc_outcome event a conflicts :
  hoare P (check_alloc event a conflicts)
    (fun c w => c = conflicts ++ (if Spec.same_event db event a then []
                                  else Spec.reported db event a)
                /\ can_check db event a = true /\ P w)
    (fun e w => e = AttributeError /\ can_check db event a = false /\ P w).
Proof.
  unfold check_alloc.
  step (reads_alloc_event db P P_stable P_sees).
  unfold can_check, Spec.same_event, Spec.reported.
  destruct (event_of db a) as [e|] eqn:He; cbn [attr_of].
  - apply hoare_bind_ret.
    destruct (id_eqb (event_id e) (event_id event)); cbn [orb].
    + apply hoare_ret. intros w Hw. now rewrite app_nil_r.
    + rewrite overlap_test_spec.
      destruct (Spec.overlaps (start_time event) (end_time event) (start_time e) (end_time e));
        cbn [negb orb].
      * step (reads_alloc_resource db P P_stable P_sees).
        destruct (resource_of db a) as [r|]; cbn [attr_of stored].
        -- apply hoare_bind_ret. apply hoare_ret. auto.
        -- apply hoare_bind_raise. auto.
      * apply hoare_ret. intros w Hw.
        destruct (resource_of db a); rewrite app_nil_r; auto.
  - apply hoare_bind_raise. auto.
Qed.

Lemma conflict_descriptions_fold event resource_ids :
  fold_left (fun acc rid =>
               acc ++ flat_map (fun a => if Spec.same_event db event a then []
                                         else Spec.reported db event a)
                               (allocations_on db rid)) resource_ids []
  = Spec.conflict_descriptions db event resource_ids.
Proof.
  rewrite (fold_left_append (fun rid => flat_map _ (allocations_on db rid))). cbn [app].
  unfold Spec.conflict_descriptions. apply flat_map_ext_in. intros rid _.
  rewrite flat_map_filter. apply flat_map_ext_in. intros a _.
  now destruct (Spec.same_event db event a).
Qed.

Lemma can_check_all_split event resource_ids :
  forallb (fun rid => sqlite_integer rid
                      && forallb (can_check db event) (allocations_on db rid)) resource_ids
  = forallb sqlite_integer resource_ids && can_check_all db event resource_ids.
Proof.
  unfold can_check_all. induction resource_ids as [|rid l IH]; cbn [forallb]; [ reflexivity | ].
  rewrite IH.
  destruct (sqlite_integer rid), (forallb (can_check db event) (allocations_on db rid)),
           (forallb sqlite_integer l); reflexivity.
Qed.

(** The checker on a valid range, over any store and for any identifiers:
    it returns the descriptions when every identifier is a SQLite integer
    and every allocation met can be judged, and raises otherwise. *)
Lemma check_conflicts_outcome event resource_ids :
  start_time event < end_time event ->
  hoare P (check_conflicts event resource_ids)
    (fun c w => c = Spec.conflict_descriptions db event resource_ids
                /\ forallb sqlite_integer resource_ids = true
                /\ can_check_all db event resource_ids = true /\ P w)
    (fun e w => ((e = OverflowError /\ forallb sqlite_integer resource_ids = false)
                 \/ (e = AttributeError /\ can_check_all db event resource_ids = false))
                /\ P w).
Proof.
  intros Hvalid. unfold check_conflicts.
  apply ge_false_iff in Hvalid. rewrite Hvalid.
  eapply hoare_weaken.
  - apply (hoare_for_each_fold_if _
             (fun acc rid => acc ++ flat_map (fun a => if Spec.same_event db event a then []
                                                       else Spec.reported db event a)
                                             (allocations_on db rid))
             (fun rid => sqlite_integer rid
                         && forallb (can_check db event) (allocations_on db rid))
             P
             (fun e w => ((e = OverflowError /\ forallb sqlite_integer resource_ids = false)
                          \/ (e = AttributeError
                              /\ can_check_all db event resource_ids = false))
                         /\ P w)).
    intros rid acc Hrid w Hw. unfold bind at 1.
    pose proof (hoare_query_allocations_by_resource_any P P_stable rid w Hw) as Hq.
    destruct (query_allocations_by_resource rid w) as [[l|e] w1].
    + destruct Hq as (-> & Hr & Hw1). rewrite (P_sees w1 Hw1).
      pose proof (hoare_for_each_fold_if (check_alloc event)
                    (fun acc a => acc ++ (if Spec.same_event db event a then []
                                          else Spec.reported db event a))
                    (can_check db event) P
                    (fun e w => ((e = OverflowError
                                  /\ forallb sqlite_integer resource_ids = false)
                                 \/ (e = AttributeError
                                     /\ can_check_all db event resource_ids = false))
                                /\ P w)
                    (allocations_on db rid)) as Hloop.
      assert (Hbody : forall a s, In a (allocations_on db rid) ->
                hoare P (check_alloc event a s)
                  (fun s' w' => s' = s ++ (if Spec.same_event db event a then []
                                           else Spec.reported db event a)
                                /\ can_check db event a = true /\ P w')
                  (fun e w => ((e = OverflowError
                                /\ forallb sqlite_integer resource_ids = false)
                               \/ (e = AttributeError
                                   /\ can_check_all db event resource_ids = false))
                              /\ P w)).
      { intros a s Ha. eapply hoare_weaken.
        - apply check_alloc_outcome.
        - intros w' Hw'; exact Hw'.
        - intros c w' Hc; exact Hc.
        - cbn beta. intros e w' (-> & Hbad & Hw'). split; [ right | exact Hw' ].
          split; [ reflexivity | ]. unfold can_check_all.
          apply (forallb_false_in _ _ rid Hrid).
          now apply (forallb_false_in _ _ a Ha). }
      specialize (Hloop Hbody acc w1 Hw1).
      destruct (for_each (allocations_on db rid) (check_alloc event) acc w1) as [[c|e] w2];
        [ | exact Hloop ].
      destruct Hloop as (-> & Hok & Hw2). rewrite Hr, Hok.
      split; [ apply fold_left_append | split; [ reflexivity | exact Hw2 ] ].
    + destruct Hq as (-> & Hr & Hw1). split; [ left | exact Hw1 ].
      split; [ reflexivity | ]. now apply (forallb_false_in _ _ rid Hrid).
  - intros w Hw; exact Hw.
  - cbn beta. intros c w (-> & Hok & Hw). rewrite can_check_all_split in Hok.
    apply andb_true_iff in Hok. destruct Hok as [Hr Hc].
    split; [ apply conflict_descriptions_fold | auto ].
  - intros e w He; exact He.
Qed.

(** Over a store with referential integrity every allocation can be judged. *)
Lemma integrity_can_check event a :
  integrity db = true -> In a (allocations db) -> can_check db event a = true.
Proof.
  intros Hint Ha. unfold can_check.
  destruct (integrity_event db a Hint Ha) as [e ->].
  destruct (integrity_resource db a Hint Ha) as [r ->]. cbn [stored].
  now rewrite !orb_true_r.
Qed.

Lemma integrity_can_check_all event resource_ids :
  integrity db = true -> can_check_all db event resource_ids = true.
Proof.
  intros Hint. unfold can_check_all. apply forallb_forall. intros rid _.
  apply forallb_forall. intros a Ha. apply allocations_on_in in Ha.
  apply integrity_can_check; tauto.
Qed.

(** The checker returns when nothing stands in its way. *)
Lemma check_conflicts_returns event resource_ids :
  start_time event < end_time event ->
  forallb sqlite_integer resource_ids = true ->
  can_check_all db event resource_ids = true ->
  hoare P (check_conflicts event resource_ids)
    (fun c w => c = Spec.conflict_descriptions db event resource_ids /\ P w) never.
Proof.
  intros Hvalid Hrange Hcan. eapply hoare_weaken.
  - apply (check_conflicts_outcome event resource_ids Hvalid).
  - intros w Hw; exact Hw.
  - cbn beta. intros c w (Hc & _ & _ & Hw). auto.
  - cbn beta. intros e w ([[_ Hbad] | [_ Hbad]] & _); congruence.
Qed.

End Computes.

(** The checker only reads: whatever it returns or raises, nothing but the
    read log differs from the world [w0] it started in. *)
Lemma check_alloc_untouched w0 event a conflicts :
  hoare (untouched w0) (check_alloc event a conflicts)
        (fun _ => untouched w0) (fun _ => untouched w0).
Proof.
  unfold check_alloc.
  eapply hoare_bind.
  { eapply hoare_forget. apply hoare_alloc_event. apply log_stable_untouched. }
  intros [e|]; cbn [attr_of].
  - apply hoare_bind_ret.
    destruct (id_eqb (event_id e) (event_id event)); [ now apply hoare_ret | ].
    destruct (lt (start_time event) (end_time e) && gt (end_time event) (start_time e));
      [ | now apply hoare_ret ].
    eapply hoare_bind.
    { eapply hoare_forget. apply hoare_alloc_resource. apply log_stable_untouched. }
    intros [r|]; cbn [attr_of].
    + apply hoare_bind_ret. now apply hoare_ret.
    + now apply hoare_bind_raise.
  - now apply hoare_bind_raise.
Qed.

Lemma check_conflicts_untouched w0 event resource_ids :
  hoare (untouched w0) (check_conflicts event resource_ids)
        (fun _ => untouched w0) (fun _ => untouched w0).
Proof.
  unfold check_conflicts.
  destruct (ge (start_time event) (end_time event)); [ now apply hoare_ret | ].
  apply (hoare_for_each_keeps _ (fun _ => untouched w0)).
  intros rid acc _.
  eapply hoare_bind.
  { eapply hoare_weaken.
    - apply (hoare_query_allocations_by_resource_any (untouched w0)
               (log_stable_untouched w0) rid).
    - intros w Hw; exact Hw.
    - cbn beta. intros l w (_ & _ & Hw). exact Hw.
    - cbn beta. intros e w (_ & _ & Hw). exact Hw. }
  intros l. apply (hoare_for_each_keeps _ (fun _ => untouched w0)).
  intros a acc' _. apply check_alloc_untouched.
Qed.

Lemma untouched_refl w : untouched w w.
Proof. repeat split. Qed.

(** ** [conflict_view] *)

Lemma in_range x i j : In x (range i j) <-> (i <= x < j)%nat.
Proof. unfold range. rewrite in_seq. lia. Qed.

Lemma flat_map_flat_map {A B C} (f : B -> list C) (g : A -> list B) (l : list A) :
  flat_map f (flat_map g l) = flat_map (fun x => flat_map f (g x)) l.
Proof.
  induction l as [|a l IH]; cbn; [ reflexivity | ].
  now rewrite flat_map_app, IH.
Qed.

Lemma flat_map_map {A B C} (f : B -> list C) (g : A -> B) (l : list A) :
  flat_map f (map g l) = flat_map (fun x => f (g x)) l.
Proof. induction l as [|a l IH]; cbn; [ reflexivity | now rewrite IH ]. Qed.

(** The scan visits the positions [i < j < n], each of them once. *)
Lemma index_pairs_in n i j : In (i, j) (Spec.index_pairs n) <-> (i < j < n)%nat.
Proof.
  unfold Spec.index_pairs. rewrite in_flat_map. split.
  - intros [i' [Hi' Hij]]. apply in_map_iff in Hij. destruct Hij as [j' [Heq Hj']].
    inversion Heq; subst. apply in_range in Hi'. apply in_range in Hj'. lia.
  - intros Hij. exists i. split; [ apply in_range; lia | ].
    apply in_map_iff. exists j. split; [ reflexivity | apply in_range; lia ].
Qed.

Lemma NoDup_pairs_from (l : list nat) (g : nat -> list nat) :
  NoDup l -> (forall i, NoDup (g i)) ->
  NoDup (flat_map (fun i => map (pair i) (g i)) l).
Proof.
  intros Hl Hg. induction Hl as [|i l Hi Hl IH]; cbn; [ constructor | ].
  apply NoDup_app.
  - specialize (Hg i). induction Hg as [|b l' Hb _ IHg]; cbn; constructor; [ | exact IHg ].
    rewrite in_map_iff. intros [b' [Heq Hb']]. inversion Heq; subst. contradiction.
  - exact IH.
  - intros [a b] Hab Hab'. apply in_map_iff in Hab. destruct Hab as [b' [Heq _]].
    inversion Heq; subst. apply in_flat_map in Hab'. destruct Hab' as [i' [Hi' Hin]].
    apply in_map_iff in Hin. destruct Hin as [b'' [Heq' _]]. inversion Heq'; subst.
    contradiction.
Qed.

Lemma index_pairs_NoDup n : NoDup (Spec.index_pairs n).
Proof.
  unfold Spec.index_pairs. apply NoDup_pairs_from.
  - unfold range. apply seq_NoDup.
  - intros i. unfold range. apply seq_NoDup.
Qed.

Lemma index_pairs_length_twice n : (2 * List.length (Spec.index_pairs n) = n * (n - 1))%nat.
Proof.
  unfold Spec.index_pairs, range. rewrite Nat.sub_0_r.
  assert (G : forall k m, (m + k = n)%nat ->
            (2 * List.length (flat_map (fun i => map (pair i) (seq (i + 1) (n - (i + 1)))) (seq m k))
             = k * (k - 1))%nat).
  { induction k as [|k IH]; intros m Hm; cbn [seq flat_map]; [ reflexivity | ].
    rewrite length_app, length_map, length_seq.
    specialize (IH (S m) ltac:(lia)). nia. }
  apply (G n 0%nat). lia.
Qed.

Section Scan.

Variable db : database.
Variable P : world -> Prop.
Hypothesis P_stable : log_stable P.
Hypothesis P_sees : forall w, P w -> session w = db.

Lemma pair_verdict_spec a1 a2 e1 e2 r :
  alloc_resource_id a1 = alloc_resource_id a2 ->
  event_of db a1 = Some e1 -> event_of db a2 = Some e2 -> resource_of db a1 = Some r ->
  Spec.pair_verdict db a1 a2 =
  if lt (start_time e1) (end_time e2) && gt (end_time e1) (start_time e2)
  then [mkConflict (resource_name r) e1 e2] else [].
Proof.
  intros Hr He1 He2 Hr1. unfold Spec.pair_verdict.
  rewrite Hr, Z.eqb_refl, He1, He2, Hr1.
  rewrite overlap_test_spec. unfold Spec.overlaps.
  destruct (start_time e1 <? end_time e2) eqn:H1, (start_time e2 <? end_time e1) eqn:H2;
    cbn; try reflexivity.
Qed.

(** What one pair of positions adds to the list, and when the scan cannot
    judge it. *)
Lemma scan_pair_outcome i j conflicts :
  (i < List.length (allocations db))%nat -> (j < List.length (allocations db))%nat ->
  hoare P (scan_pair (allocations db) i j conflicts)
    (fun c w => c = conflicts ++ Spec.verdict_at db (i, j)
                /\ can_scan_at db (i, j) = true /\ P w)
    (fun e w => e = AttributeError /\ can_scan_at db (i, j) = false /\ P w).
Proof.
  intros Hi Hj. unfold scan_pair, item, Spec.verdict_at, can_scan_at. cbn [fst snd].
  destruct (nth_error (allocations db) i) as [a1|] eqn:H1;
    [ | apply nth_error_None in H1; lia ].
  destruct (nth_error (allocations db) j) as [a2|] eqn:H2;
    [ | apply nth_error_None in H2; lia ].
  do 2 apply hoare_bind_ret.
  unfold Spec.pair_verdict, can_scan_pair.
  destruct (alloc_resource_id a1 =? alloc_resource_id a2) eqn:Hr; cbn [negb orb].
  - step (reads_alloc_event db P P_stable P_sees).
    step (reads_alloc_event db P P_stable P_sees).
    destruct (event_of db a1) as [e1|]; cbn [attr_of];
      [ apply hoare_bind_ret | apply hoare_bind_raise; auto ].
    destruct (event_of db a2) as [e2|]; cbn [attr_of];
      [ apply hoare_bind_ret | apply hoare_bind_raise; auto ].
    rewrite overlap_test_spec.
    destruct (Spec.overlaps (start_time e1) (end_time e1) (start_time e2) (end_time e2));
      cbn [negb orb].
    + step (reads_alloc_resource db P P_stable P_sees).
      destruct (resource_of db a1) as [r|]; cbn [attr_of stored].
      * apply hoare_bind_ret. apply hoare_ret. auto.
      * apply hoare_bind_raise. auto.
    + apply hoare_ret. intros w Hw.
      destruct (resource_of db a1); rewrite app_nil_r; auto.
  - apply hoare_ret. intros w Hw. now rewrite app_nil_r.
Qed.

Lemma forallb_flat_map {A B} (f : B -> bool) (g : A -> list B) (l : list A) :
  forallb f (flat_map g l) = forallb (fun x => forallb f (g x)) l.
Proof.
  induction l as [|a l IH]; cbn [flat_map forallb]; [ reflexivity | ].
  now rewrite forallb_app, IH.
Qed.

Lemma forallb_map {A B} (f : B -> bool) (g : A -> B) (l : list A) :
  forallb f (map g l) = forallb (fun x => f (g x)) l.
Proof. induction l as [|a l IH]; cbn [map forallb]; [ reflexivity | now rewrite IH ]. Qed.

Lemma can_scan_rows :
  can_scan db
  = forallb (fun i => forallb (fun j => can_scan_at db (i, j))
                              (range (i + 1) (List.length (allocations db))))
            (range 0 (List.length (allocations db))).
Proof.
  unfold can_scan, Spec.index_pairs. rewrite forallb_flat_map.
  induction (range 0 (List.length (allocations db))) as [|i l IH]; cbn [forallb];
    [ reflexivity | ].
  now rewrite forallb_map, IH.
Qed.

Lemma scan_all_conflicts_fold :
  fold_left (fun acc i =>
               acc ++ flat_map (fun j => Spec.verdict_at db (i, j))
                               (range (i + 1) (List.length (allocations db))))
            (range 0 (List.length (allocations db))) []
  = Spec.scan_all_conflicts db.
Proof.
  rewrite (fold_left_append
             (fun i => flat_map _ (range (i + 1) (List.length (allocations db))))).
  cbn [app]. unfold Spec.scan_all_conflicts, Spec.index_pairs.
  rewrite flat_map_flat_map. apply flat_map_ext_in. intros i _.
  now rewrite flat_map_map.
Qed.

(** The scan over any store: it returns the verdicts of all pairs of
    positions when every pair can be judged, and raises [AttributeError]
    otherwise. *)
Lemma conflict_view_outcome :
  hoare P conflict_view
    (fun c w => c = Spec.scan_all_conflicts db /\ can_scan db = true /\ P w)
    (fun e w => e = AttributeError /\ can_scan db = false /\ P w).
Proof.
  unfold conflict_view.
  step (reads_all_allocations db P P_stable P_sees).
  set (n := List.length (allocations db)).
  eapply hoare_weaken.
  - apply (hoare_for_each_fold_if _
             (fun acc i => acc ++ flat_map (fun j => Spec.verdict_at db (i, j)) (range (i + 1) n))
             (fun i => forallb (fun j => can_scan_at db (i, j)) (range (i + 1) n))
             P (fun e w => e = AttributeError /\ can_scan db = false /\ P w)).
    intros i acc Hi.
    eapply hoare_weaken.
    + apply (hoare_for_each_fold_if _ (fun acc j => acc ++ Spec.verdict_at db (i, j))
               (fun j => can_scan_at db (i, j))
               P (fun e w => e = AttributeError /\ can_scan db = false /\ P w)).
      intros j acc' Hj. apply in_range in Hi. apply in_range in Hj.
      eapply hoare_weaken.
      * apply (scan_pair_outcome i j acc'); unfold n in *; lia.
      * intros w Hw; exact Hw.
      * intros c w Hc; exact Hc.
      * cbn beta. intros e w (-> & Hbad & Hw). split; [ reflexivity | split; [ | exact Hw ] ].
        unfold can_scan. apply (forallb_false_in _ _ (i, j)); [ | exact Hbad ].
        apply index_pairs_in. fold n. lia.
    + intros w Hw; exact Hw.
    + cbn beta. intros c w (-> & Hok & Hw). split; [ | auto ].
      apply (fold_left_append (fun j => Spec.verdict_at db (i, j))).
    + intros e w He; exact He.
  - intros w Hw; exact Hw.
  - cbn beta. intros c w (-> & Hok & Hw). fold n in Hok.
    split; [ apply scan_all_conflicts_fold | ].
    split; [ rewrite can_scan_rows; exact Hok | exact Hw ].
  - intros e w He; exact He.
Qed.

(** Over a store with referential integrity every pair can be judged. *)
Lemma integrity_can_scan : integrity db = true -> can_scan db = true.
Proof.
  intros Hint. unfold can_scan. apply forallb_forall. intros [i j] _.
  unfold can_scan_at. cbn [fst snd].
  destruct (nth_error (allocations db) i) as [a1|] eqn:H1; [ | reflexivity ].
  destruct (nth_error (allocations db) j) as [a2|] eqn:H2; [ | reflexivity ].
  assert (Ha1 : In a1 (allocations db)) by (eapply nth_error_In; eassumption).
  assert (Ha2 : In a2 (allocations db)) by (eapply nth_error_In; eassumption).
  unfold can_scan_pair.
  destruct (integrity_event db a1 Hint Ha1) as [e1 ->].
  destruct (integrity_event db a2 Hint Ha2) as [e2 ->].
  destruct (integrity_resource db a1 Hint Ha1) as [r ->]. cbn [stored].
  now rewrite !orb_true_r.
Qed.

(** The scan returns when every pair can be judged. *)
Lemma conflict_view_returns :
  can_scan db = true ->
  hoare P conflict_view (fun c w => c = Spec.scan_all_conflicts db /\ P w) never.
Proof.
  intros Hcan. eapply hoare_weaken.
  - apply conflict_view_outcome.
  - intros w Hw; exact Hw.
  - cbn beta. intros c w (Hc & _ & Hw). auto.
  - cbn beta. intros e w (_ & Hbad & _). congruence.
Qed.

(** The scan over a store with referential integrity. *)
Lemma conflict_view_computes :
  integrity db = true ->
  hoare P conflict_view (fun c w => c = Spec.scan_all_conflicts db /\ P w) never.
Proof. intros Hint. apply conflict_view_returns. now apply integrity_can_scan. Qed.

End Scan.

(** The verdict on a pair of positions is a record exactly when the two
    allocations share a resource and their events strictly overlap. *)
Lemma verdict_at_in db i j c :
  (i < j)%nat -> In c (Spec.verdict_at db (i, j)) ->
  Spec.verdict_at db (i, j) = [c] /\ scanned db c.
Proof.
  intros Hij. unfold Spec.verdict_at, Spec.pair_verdict. cbn [fst snd].
  destruct (nth_error (allocations db) i) as [a1|] eqn:H1; [ | intros [] ].
  destruct (nth_error (allocations db) j) as [a2|] eqn:H2; [ | intros [] ].
  destruct (alloc_resource_id a1 =? alloc_resource_id a2) eqn:Hr; [ | intros [] ].
  destruct (event_of db a1) as [e1|] eqn:He1; [ | intros [] ].
  destruct (event_of db a2) as [e2|] eqn:He2; [ | intros [] ].
  destruct (resource_of db a1) as [r|] eqn:Hr1; [ | intros [] ].
  destruct (Spec.overlaps _ _ _ _) eqn:Hov; [ | intros [] ].
  intros [<- | []]. split; [ reflexivity | ].
  apply overlaps_iff in Hov. apply Z.eqb_eq in Hr.
  exists i, j, a1, a2, r. cbn. tauto.
Qed.

Lemma scan_all_conflicts_in db c :
  In c (Spec.scan_all_conflicts db) -> scanned db c.
Proof.
  unfold Spec.scan_all_conflicts. rewrite in_flat_map. intros [[i j] [Hij Hc]].
  apply index_pairs_in in Hij. apply (verdict_at_in db i j c); [ lia | exact Hc ].
Qed.

Lemma scanned_in db c :
  scanned db c -> In c (Spec.scan_all_conflicts db).
Proof.
  intros (i & j & a1 & a2 & r & Hij & H1 & H2 & Hr & He1 & He2 & Hr1 & Hname & Hlt1 & Hlt2).
  unfold Spec.scan_all_conflicts. apply in_flat_map. exists (i, j). split.
  - apply index_pairs_in. split; [ exact Hij | ].
    apply nth_error_Some. congruence.
  - unfold Spec.verdict_at, Spec.pair_verdict. cbn [fst snd].
    rewrite H1, H2, Hr, Z.eqb_refl, He1, He2, Hr1.
    assert (Hov : Spec.overlaps (start_time (c_event1 c)) (end_time (c_event1 c))
                    (start_time (c_event2 c)) (end_time (c_event2 c)) = true)
      by (apply overlaps_iff; tauto).
    rewrite Hov. left. destruct c as [n e1 e2]. cbn in *. now subst.
Qed.

(** ** [utilisation_report] *)

Lemma py_max_spec (a b : datetime) : max a b = Z.max a b.
Proof. unfold max, gt. rewrite Z.gtb_ltb. destruct (Z.ltb_spec a b); lia. Qed.

Lemma py_min_spec (a b : datetime) : min a b = Z.min a b.
Proof. unfold min, lt. destruct (Z.ltb_spec b a); lia. Qed.

Lemma fold_left_flat_map {A B C} (f : C -> B -> C) (g : A -> list B) (l : list A) (c : C) :
  fold_left f (flat_map g l) c = fold_left (fun c a => fold_left f (g a) c) l c.
Proof.
  revert c. induction l as [|a l IH]; intros c; cbn; [ reflexivity | ].
  now rewrite fold_left_app, IH.
Qed.

(** The sorted list is a rearrangement in ascending order of start time. *)
Lemma insert_by_start_perm e l : Permutation (insert_by_start e l) (e :: l).
Proof.
  induction l as [|x l IH]; cbn; [ reflexivity | ].
  destruct (le (start_time e) (start_time x)); [ reflexivity | ].
  rewrite IH. apply perm_swap.
Qed.

Lemma sorted_by_start_perm l : Permutation (sorted_by_start l) l.
Proof.
  induction l as [|e l IH]; cbn; [ constructor | ].
  rewrite insert_by_start_perm. now constructor.
Qed.

Lemma insert_by_start_sorted e l :
  StronglySorted by_start l -> StronglySorted by_start (insert_by_start e l).
Proof.
  induction 1 as [|x l Hl IH Hx]; cbn.
  - constructor; constructor.
  - unfold le. destruct (Z.leb_spec (start_time e) (start_time x)) as [Hle|Hgt].
    + constructor; [ now constructor | ].
      constructor; [ exact Hle | ].
      eapply Forall_impl; [ | exact Hx ]. unfold by_start. intros y Hy. lia.
    + constructor; [ exact IH | ].
      eapply Permutation_Forall; [ symmetry; apply insert_by_start_perm | ].
      constructor; [ unfold by_start; lia | exact Hx ].
Qed.

Lemma sorted_by_start_sorted l : StronglySorted by_start (sorted_by_start l).
Proof.
  induction l as [|e l IH]; cbn; [ constructor | now apply insert_by_start_sorted ].
Qed.

Section ReportRun.

Context {F : Type} `{PyFloat F}.
Variables windowStart windowEnd : datetime.

Lemma clipped_positive e :
  (Z.max (start_time e) windowStart <? Z.min (end_time e) windowEnd)
  = (0 <? Spec.clipped_width windowStart windowEnd e).
Proof.
  unfold Spec.clipped_width.
  destruct (Z.ltb_spec (Z.max (start_time e) windowStart) (Z.min (end_time e) windowEnd)),
           (Z.ltb_spec 0 (Z.min (end_time e) windowEnd - Z.max (start_time e) windowStart));
    try reflexivity; lia.
Qed.

Lemma report_alloc_run a acc w :
  match report_alloc windowStart windowEnd a acc w with
  | (Returns acc', w') =>
      stored (event_of (session w) a) = true
      /\ fst acc' = fold_left float_add (hours_term (session w) windowStart windowEnd a) (fst acc)
      /\ snd acc' = snd acc ++ upcoming_at (clock w) (ticks w)
                                 (window_term (session w) windowStart windowEnd a)
      /\ session w' = session w /\ committed w' = committed w /\ flashes w' = flashes w
      /\ clock w' = clock w
      /\ ticks w' = (ticks w + List.length (window_term (session w) windowStart windowEnd a))%nat
  | (Raises e, w') => e = AttributeError /\ stored (event_of (session w) a) = false
  end.
Proof.
  destruct acc as [th ru]. destruct w as [s cm fl rd ck tk].
  unfold report_alloc, alloc_event, bind, log, get_session, ret. cbn [session].
  unfold hours_term, window_term. cbn [session clock ticks].
  destruct (event_of s a) as [e|]; cbn [attr_of stored].
  - unfold ret, le, ge.
    destruct ((start_time e <=? windowEnd) && (end_time e >=? windowStart)).
    + unfold now. cbn [clock ticks session committed flashes reads].
      rewrite py_max_spec, py_min_spec. unfold lt, sub. rewrite clipped_positive.
      fold (Spec.clipped_width windowStart windowEnd e).
      cbn [flat_map app upcoming_at List.length].
      destruct (start_time e >=? ck tk); cbn [fst snd session committed flashes clock ticks];
        rewrite ?app_nil_r;
        (repeat split; try lia);
        destruct (0 <? Spec.clipped_width windowStart windowEnd e); reflexivity.
    + cbn [fst snd session committed flashes clock ticks flat_map upcoming_at List.length].
      rewrite app_nil_r. repeat split. lia.
  - split; reflexivity.
Qed.


Lemma upcoming_at_app clk k (l1 l2 : list Event) :
  upcoming_at clk k (l1 ++ l2)
  = upcoming_at clk k l1 ++ upcoming_at clk (k + List.length l1) l2.
Proof.
  revert k. induction l1 as [|e l1 IH]; intros k; cbn [app upcoming_at List.length].
  - now rewrite Nat.add_0_r.
  - rewrite IH, <- app_assoc. now rewrite Nat.add_succ_comm.
Qed.

Lemma report_allocs_run l acc w :
  match for_each l (report_alloc windowStart windowEnd) acc w with
  | (Returns acc', w') =>
      forallb (fun a => stored (event_of (session w) a)) l = true
      /\ fst acc'
         = fold_left (fun th a =>
                        fold_left float_add (hours_term (session w) windowStart windowEnd a) th)
                     l (fst acc)
      /\ snd acc' = snd acc ++ upcoming_at (clock w) (ticks w)
                                 (flat_map (window_term (session w) windowStart windowEnd) l)
      /\ session w' = session w /\ committed w' = committed w /\ flashes w' = flashes w
      /\ clock w' = clock w
      /\ ticks w'
         = (ticks w + List.length (flat_map (window_term (session w) windowStart windowEnd) l))%nat
  | (Raises e, w') =>
      e = AttributeError /\ forallb (fun a => stored (event_of (session w) a)) l = false
  end.
Proof.
  revert acc w. induction l as [|a l IH]; intros acc w.
  - cbn. rewrite app_nil_r. repeat split. lia.
  - cbn [for_each]. unfold bind at 1.
    pose proof (report_alloc_run a acc w) as Ha.
    destruct (report_alloc windowStart windowEnd a acc w) as [[acc1|e] w1].
    + destruct Ha as (Hst & Hth & Hup & Hs & Hc & Hf & Hck & Htk).
      specialize (IH acc1 w1). rewrite Hs, Hck, Htk in IH.
      destruct (for_each l (report_alloc windowStart windowEnd) acc1 w1) as [[acc2|e] w2].
      * destruct IH as (Hall & Hth2 & Hup2 & Hs2 & Hc2 & Hf2 & Hck2 & Htk2).
        cbn [forallb fold_left flat_map]. rewrite Hst, Hall, Hth2, Hth, Hup2, Hup.
        rewrite upcoming_at_app, <- app_assoc, length_app.
        repeat split; try congruence. lia.
      * destruct IH as (-> & Hall). cbn [forallb]. rewrite Hst, Hall. split; reflexivity.
    + destruct Ha as (-> & Hst). cbn [forallb]. rewrite Hst. split; reflexivity.
Qed.

Lemma total_hours_terms db rid :
  Spec.total_hours db windowStart windowEnd rid
  = fold_left (fun th a => fold_left float_add (hours_term db windowStart windowEnd a) th)
              (allocations_on db rid) float_zero.
Proof.
  unfold Spec.total_hours, Spec.events_in_window.
  rewrite flat_map_flat_map, fold_left_flat_map. reflexivity.
Qed.

Lemma report_resource_run r rows w :
  match report_resource windowStart windowEnd r rows w with
  | (Returns rows', w') =>
      forallb (fun a => stored (event_of (session w) a))
              (allocations_on (session w) (resource_id r)) = true
      /\ rows'
         = rows ++ [mkRow r (round2 (Spec.total_hours (session w) windowStart windowEnd
                                                      (resource_id r)))
                           (sorted_by_start
                              (upcoming_at (clock w) (ticks w)
                                 (Spec.events_in_window (session w) windowStart windowEnd
                                                        (resource_id r))))]
      /\ session w' = session w /\ committed w' = committed w /\ flashes w' = flashes w
      /\ clock w' = clock w
      /\ ticks w'
         = (ticks w + List.length (Spec.events_in_window (session w) windowStart windowEnd
                                                         (resource_id r)))%nat
  | (Raises e, w') =>
      e = AttributeError
      /\ forallb (fun a => stored (event_of (session w) a))
                 (allocations_on (session w) (resource_id r)) = false
  end.
Proof.
  unfold report_resource. unfold bind at 1.
  destruct w as [s cm fl rd ck tk]. cbn [resource_allocations log bind get_session ret session].
  unfold bind at 1.
  match goal with
  | |- context [for_each ?l ?b ?acc ?w1] =>
      pose proof (report_allocs_run l acc w1) as Hl;
      destruct (for_each l b acc w1) as [[[th ru]|e] w2]
  end; cbn [session clock ticks fst snd app] in Hl.
  - destruct Hl as (Hall & Hth & Hup & Hs & Hc & Hf & Hck & Htk).
    cbn [ret session committed flashes clock ticks]. rewrite Hall, Hth, Hup.
    rewrite total_hours_terms.
    repeat split; assumption.
  - destruct Hl as (-> & Hall). rewrite Hall. split; reflexivity.
Qed.


Lemma report_rows_run rs rows w :
  match for_each rs (report_resource windowStart windowEnd) rows w with
  | (Returns rows', w') =>
      forallb (fun r => forallb (fun a => stored (event_of (session w) a))
                                (allocations_on (session w) (resource_id r))) rs = true
      /\ map totals rows'
         = map totals rows
           ++ map (fun r => (r, round2 (Spec.total_hours (session w) windowStart windowEnd
                                                         (resource_id r)))) rs
      /\ map upcomings rows'
         = map upcomings rows
           ++ upcoming_rows (session w) windowStart windowEnd (clock w) (ticks w) rs
      /\ session w' = session w /\ committed w' = committed w /\ flashes w' = flashes w
      /\ clock w' = clock w
      /\ ticks w'
         = (ticks w
            + List.length (flat_map (fun r => Spec.events_in_window (session w) windowStart
                                                windowEnd (resource_id r)) rs))%nat
  | (Raises e, w') =>
      e = AttributeError
      /\ forallb (fun r => forallb (fun a => stored (event_of (session w) a))
                                   (allocations_on (session w) (resource_id r))) rs = false
  end.
Proof.
  revert rows w. induction rs as [|r rs IH]; intros rows w.
  - cbn. rewrite !app_nil_r. repeat split. lia.
  - cbn [for_each]. unfold bind at 1.
    pose proof (report_resource_run r rows w) as Hr.
    destruct (report_resource windowStart windowEnd r rows w) as [[rows1|e] w1].
    + destruct Hr as (Hst & -> & Hs & Hc & Hf & Hck & Htk).
      specialize (IH (rows ++ [mkRow r (round2 (Spec.total_hours (session w) windowStart
                                                   windowEnd (resource_id r)))
                                 (sorted_by_start
                                    (upcoming_at (clock w) (ticks w)
                                       (Spec.events_in_window (session w) windowStart
                                          windowEnd (resource_id r))))]) w1).
      rewrite Hs, Hck, Htk in IH.
      destruct (for_each rs (report_resource windowStart windowEnd) _ w1) as [[rows2|e] w2].
      * destruct IH as (Hall & Ht & Hu & Hs2 & Hc2 & Hf2 & Hck2 & Htk2).
        cbn [forallb map flat_map upcoming_rows]. rewrite Hst, Hall, Ht, Hu.
        rewrite !map_app, <- !app_assoc, length_app. cbn [map app totals upcomings
          r_resource r_total_hours r_upcoming].
        repeat split; try congruence. lia.
      * destruct IH as (-> & Hall). cbn [forallb]. rewrite Hst, Hall. split; reflexivity.
    + destruct Hr as (-> & Hst). cbn [forallb]. rewrite Hst. split; reflexivity.
Qed.

End ReportRun.

Lemma flat_map_singleton {A B} (g : A -> B) (l : list A) :
  flat_map (fun x => [g x]) l = map g l.
Proof. induction l as [|a l IH]; cbn; [ reflexivity | now rewrite IH ]. Qed.

Lemma date_field_well_formed v d :
  date_field v = WellFormed d ->
  exists c r, v = Some (String c r) /\ strptime_date (String c r) = Some d.
Proof.
  unfold date_field. destruct v as [[|c r]|]; try discriminate.
  destruct (strptime_date (String c r)) eqn:Hp; try discriminate.
  intros Hd. inversion Hd; subst. now exists c, r.
Qed.

Lemma timestamp_field_well_formed v d :
  timestamp_field v = WellFormed d ->
  exists c r, v = Some (String c r) /\ strptime_datetime_local (String c r) = Some d.
Proof.
  unfold timestamp_field. destruct v as [[|c r]|]; try discriminate.
  destruct (strptime_datetime_local (String c r)) eqn:Hp; try discriminate.
  intros Hd. inversion Hd; subst. now exists c, r.
Qed.

Section ReportPage.

Context {F : Type} `{PyFloat F}.

(** A report request with two well-formed dates, over any store: the page
    when every allocation of a stored resource has its event, and
    [AttributeError] otherwise. *)
Lemma utilisation_report_run req w ds de :
  method req = POST ->
  date_field (form_get req "start_date") = WellFormed ds ->
  date_field (form_get req "end_date") = WellFormed de ->
  match utilisation_report req w with
  | (Returns page, w') =>
      can_report (session w) = true
      /\ map totals (p_report_data page)
         = map (fun r => (r, round2 (Spec.total_hours (session w) ds (combine_max_time de)
                                                       (resource_id r))))
               (resources (session w))
      /\ map upcomings (p_report_data page)
         = upcoming_rows (session w) ds (combine_max_time de) (clock w) (ticks w)
                         (resources (session w))
      /\ p_resources page = resources (session w)
      /\ p_upcoming page = flatten_upcoming (p_report_data page)
      /\ session w' = session w /\ committed w' = committed w /\ flashes w' = flashes w
      /\ clock w' = clock w
      /\ ticks w'
         = (ticks w
            + List.length (flat_map (fun r => Spec.events_in_window (session w) ds
                                                (combine_max_time de) (resource_id r))
                                    (resources (session w))))%nat
  | (Raises e, w') => e = AttributeError /\ can_report (session w) = false
  end.
Proof.
  intros Hpost Hs He. unfold utilisation_report. unfold bind at 1.
  destruct w as [s cm fl rd ck tk].
  cbn [query_all_resources log bind get_session ret session]. rewrite Hpost.
  destruct (date_field_well_formed _ _ Hs) as (c1 & s1 & -> & Hp1).
  destruct (date_field_well_formed _ _ He) as (c2 & s2 & -> & Hp2).
  rewrite Hp1, Hp2. cbn [or_value_error]. unfold bind at 1. cbn [ret]. unfold bind at 1.
  cbn [ret]. unfold bind at 1.
  match goal with
  | |- context [for_each ?l ?b ?acc ?w1] =>
      pose proof (report_rows_run ds (combine_max_time de) l acc w1) as Hl;
      destruct (for_each l b acc w1) as [[rows|e] w2]
  end; cbn [session clock ticks map app] in Hl.
  - destruct Hl as (Hall & Ht & Hu & Hs2 & Hc2 & Hf2 & Hck2 & Htk2).
    cbn [ret p_report_data p_resources p_upcoming app session committed flashes clock ticks].
    unfold can_report. repeat split; assumption.
  - destruct Hl as (-> & Hall). unfold can_report. cbn [session]. split; [ reflexivity | exact Hall ].
Qed.

End ReportPage.

(** The window of a report: a parsed date is the first instant of its day,
    and [combine_max_time] moves it to the last microsecond of that day. *)
Lemma strptime_date_midnight s d :
  strptime_date s = Some d ->
  exists y m dd, valid_date y m dd = true /\ d = mk_datetime y m dd 0 0 0 0
                 /\ combine_max_time d = mk_datetime y m dd 23 59 59 999999.
Proof.
  unfold strptime_date.
  destruct (match_groups _ s) as [[caps rest]|]; [ | discriminate ].
  destruct caps as [|Y [|c1 [|m [|c2 [|dd [|x caps]]]]]]; try discriminate.
  destruct rest; [ | discriminate ].
  destruct (valid_date (int_of_group Y) (int_of_group m) (int_of_group dd)) eqn:Hv;
    [ | discriminate ].
  intros Hd. inversion Hd; subst. clear Hd.
  exists (int_of_group Y), (int_of_group m), (int_of_group dd).
  split; [ exact Hv | split; [ reflexivity | ] ].
  unfold combine_max_time, mk_datetime, US_PER_DAY, US_PER_SECOND.
  set (o := ymd2ord (int_of_group Y) (int_of_group m) (int_of_group dd)).
  replace ((o * 86400 + 0 * 3600 + 0 * 60 + 0) * 1000000 + 0) with (o * (86400 * 1000000)) by ring.
  rewrite Z.div_mul by lia. lia.
Qed.

(** ** [add_event] *)

Lemma ints_of_spec l w :
  ints_of l w = match all_ints l with
                | Some zs => (Returns zs, w)
                | None => (Raises ValueError, w)
                end.
Proof.
  unfold ints_of.
  assert (G : forall acc,
             for_each l (fun rid acc => i <- or_value_error (PyBuiltins.int rid) ;; ret (acc ++ [i]))
                      acc w
             = match all_ints l with
               | Some zs => (Returns (acc ++ zs), w)
               | None => (Raises ValueError, w)
               end).
  { induction l as [|s l IH]; intros acc; cbn [for_each all_ints].
    - cbn. now rewrite app_nil_r.
    - unfold bind at 1. unfold bind at 1.
      destruct (PyBuiltins.int s) as [i|]; cbn [or_value_error ret raise]; [ | reflexivity ].
      rewrite IH. destruct (all_ints l) as [zs|]; cbn [option_map]; [ | reflexivity ].
      now rewrite <- app_assoc. }
  apply (G []).
Qed.

Lemma parse_datetime_from_form_spec req name w :
  parse_datetime_from_form req name w
  = match timestamp_field (form_get req name) with
    | Missing => (Returns None, w)
    | Malformed => (Raises ValueError, w)
    | WellFormed d => (Returns (Some d), w)
    end.
Proof.
  unfold parse_datetime_from_form, timestamp_field.
  destruct (form_get req name) as [[|c r]|]; try reflexivity.
  destruct (strptime_datetime_local (String c r)); reflexivity.
Qed.

(** A malformed timestamp aborts the request before anything else is read. *)
Lemma add_event_malformed req w :
  method req = POST ->
  is_malformed (timestamp_field (form_get req "start_time")) = true
  \/ is_malformed (timestamp_field (form_get req "end_time")) = true ->
  add_event req w = (Raises ValueError, after_resources_query w).
Proof.
  intros Hpost Hbad. unfold add_event. rewrite Hpost.
  unfold bind at 1. cbn [query_all_resources].
  change (query_all_resources w) with (Returns (resources (session w)), after_resources_query w).
  cbn iota. unfold bind at 1. rewrite parse_datetime_from_form_spec.
  destruct (timestamp_field (form_get req "start_time")) as [| |ds]; try reflexivity.
  - unfold bind at 1. rewrite parse_datetime_from_form_spec.
    destruct (timestamp_field (form_get req "end_time")) as [| |de]; try reflexivity;
      destruct Hbad; discriminate.
  - unfold bind at 1. rewrite parse_datetime_from_form_spec.
    destruct (timestamp_field (form_get req "end_time")) as [| |de]; try reflexivity;
      destruct Hbad; discriminate.
Qed.

(** A missing timestamp sends the user back with the validation message. *)
Lemma add_event_missing req w :
  method req = POST ->
  is_malformed (timestamp_field (form_get req "start_time")) = false ->
  is_malformed (timestamp_field (form_get req "end_time")) = false ->
  is_missing (timestamp_field (form_get req "start_time")) = true
  \/ is_missing (timestamp_field (form_get req "end_time")) = true ->
  add_event req w
  = (Returns (Redirect "add_event"),
     flashed "Title, start time, and end time are required." "danger"
             (after_resources_query w)).
Proof.
  intros Hpost Hs He Hmiss. unfold add_event. rewrite Hpost.
  unfold bind at 1.
  change (query_all_resources w) with (Returns (resources (session w)), after_resources_query w).
  cbn iota. unfold bind at 1. rewrite parse_datetime_from_form_spec.
  destruct (timestamp_field (form_get req "start_time")) as [| |ds]; try discriminate;
    unfold bind at 1; rewrite parse_datetime_from_form_spec;
    destruct (timestamp_field (form_get req "end_time")) as [| |de]; try discriminate;
    try (destruct Hmiss; discriminate);
    destruct (form_get req "title") as [[|c t]|]; reflexivity.
Qed.

Lemma add_allocations_loop eid rids w :
  for_each rids (fun rid _ => session_add_allocation eid rid) tt w
  = (Returns tt,
     with_session (mkDatabase (events (session w)) (resources (session w))
                              (add_allocations (allocations (session w)) eid rids)) w).
Proof.
  revert w. induction rids as [|rid rids IH]; intros w.
  - destruct w as [[evs res als] com fl rd ck tk]. reflexivity.
  - cbn [for_each add_allocations]. unfold bind at 1.
    destruct w as [[evs res als] com fl rd ck tk]. cbn.
    rewrite IH. reflexivity.
Qed.

Lemma add_allocations_spec rows eid rids :
  exists new,
    add_allocations rows eid rids = rows ++ new
    /\ map alloc_resource_id new = rids
    /\ Forall (fun a => alloc_event_id a = eid) new.
Proof.
  revert rows. induction rids as [|rid rids IH]; intros rows; cbn [add_allocations].
  - exists []. rewrite app_nil_r. repeat split. constructor.
  - destruct (IH (rows ++ [mkAllocation (next_id (map allocation_id rows)) eid rid]))
      as (new & Hnew & Hmap & Hall).
    exists (mkAllocation (next_id (map allocation_id rows)) eid rid :: new).
    rewrite Hnew, <- app_assoc. cbn. rewrite Hmap. repeat split.
    constructor; [ reflexivity | exact Hall ].
Qed.

Lemma fold_max_upper (ids : list Z) (y x : Z) :
  In x (y :: ids) -> x <= fold_right Z.max y ids.
Proof.
  induction ids as [|z ids IH]; cbn [fold_right In].
  - intros [-> | []]. lia.
  - intros [-> | [-> | Hx]].
    + specialize (IH (or_introl eq_refl)). lia.
    + lia.
    + specialize (IH (or_intror Hx)). lia.
Qed.

Lemma next_id_fresh ids x : In x ids -> x < next_id ids.
Proof.
  destruct ids as [|y ids]; [ intros [] | ].
  intros Hx. apply fold_max_upper in Hx. unfold next_id. lia.
Qed.

Lemma event_integrity_fresh db a :
  event_integrity db = true -> In a (allocations db) ->
  alloc_event_id a <> next_id (event_ids db).
Proof.
  unfold event_integrity. rewrite forallb_forall. intros Hint Ha. specialize (Hint a Ha).
  destruct (event_of db a) as [e|] eqn:He; [ | discriminate ].
  assert (Hin : In (alloc_event_id a) (event_ids db)).
  { unfold event_ids. apply in_flat_map. exists e. split; [ now apply event_of_stored in He | ].
    rewrite (event_of_id db a e He). now left. }
  apply next_id_fresh in Hin. lia.
Qed.

Lemma filter_none {A} (p : A -> bool) (l : list A) :
  (forall a, In a l -> p a = false) -> filter p l = [].
Proof.
  induction l as [|a l IH]; intros Hp; cbn; [ reflexivity | ].
  rewrite (Hp a (or_introl eq_refl)). apply IH. intros b Hb. apply Hp. now right.
Qed.

(** The allocations of a new event: exactly the rows just added. *)
Lemma allocations_of_new_event db ev eid rids :
  (forall a, In a (allocations db) -> alloc_event_id a <> eid) ->
  exists new,
    allocations_of_event
      (mkDatabase (events db ++ [ev]) (resources db) (add_allocations (allocations db) eid rids))
      eid = new
    /\ map alloc_resource_id new = rids
    /\ Forall (fun a => alloc_event_id a = eid) new.
Proof.
  intros Hfresh.
  destruct (add_allocations_spec (allocations db) eid rids) as (new & Hnew & Hmap & Hall).
  exists new. split; [ | split; assumption ].
  unfold allocations_of_event. cbn [allocations]. rewrite Hnew, filter_app.
  assert (Hold : filter (fun a => alloc_event_id a =? eid) (allocations db) = []).
  { apply filter_none. intros a Ha. apply Z.eqb_neq. now apply Hfresh. }
  rewrite Hold. cbn [app].
  clear Hnew Hmap. induction Hall as [|a l Ha _ IH]; cbn; [ reflexivity | ].
  rewrite Ha, Z.eqb_refl. now rewrite IH.
Qed.

(** What a request that ends in the redirect to the event list has done. *)
Lemma add_event_committed req w w' :
  add_event req w = (Returns (Redirect "list_events"), w') ->
  exists rids event,
    all_ints (form_getlist req "resources") = Some rids
    /\ event_id event = Some (next_id (event_ids (session w)))
    /\ committed w'
       = mkDatabase (events (session w) ++ [event]) (resources (session w))
                    (add_allocations (allocations (session w))
                                     (next_id (event_ids (session w))) rids).
Proof.
  unfold add_event. unfold bind at 1.
  change (query_all_resources w) with (Returns (resources (session w)), after_resources_query w).
  cbn iota. destruct (method req); [ discriminate | ].
  unfold bind at 1. rewrite parse_datetime_from_form_spec.
  destruct (timestamp_field (form_get req "start_time")) as [| |ds]; try discriminate;
    unfold bind at 1; rewrite parse_datetime_from_form_spec;
    destruct (timestamp_field (form_get req "end_time")) as [| |de]; try discriminate;
    destruct (form_get req "title") as [[|c t]|]; try discriminate.
  unfold bind at 1. rewrite ints_of_spec.
  destruct (all_ints (form_getlist req "resources")) as [rids|]; [ | discriminate ].
  unfold bind at 1.
  set (event := mkEvent None (String c t) ds de (form_get req "description")).
  pose proof (check_conflicts_untouched (after_resources_query w) event rids
                (after_resources_query w) (untouched_refl _)) as Hframe.
  destruct (check_conflicts event rids (after_resources_query w)) as [[[|m ms]|x] w2];
    [ | | discriminate ].
  - destruct Hframe as (Hsess & _). cbn [session after_resources_query] in Hsess.
    unfold bind at 1. unfold session_add_event_and_flush.
    unfold bind at 1. cbn [get_session]. unfold bind at 1. cbn [put_session ret].
    cbn [event_id attr_of]. unfold bind at 1. cbn [ret].
    unfold bind at 1. rewrite add_allocations_loop.
    cbn. intros Heq. inversion Heq; subst w'. clear Heq.
    cbn [committed]. rewrite Hsess.
    exists rids, (mkEvent (Some (next_id (event_ids (session w)))) (String c t) ds de
                          (form_get req "description")).
    repeat split.
  - unfold bind at 1.
    destruct (for_each (m :: ms) (fun c0 _ => flash c0 "danger") tt w2) as [[u|x] w3];
      discriminate.
Qed.

(** ** From specifications to runs *)

Lemma hoare_run {A} (P : world -> Prop) (m : M A) (Q : A -> world -> Prop) w :
  hoare P m Q never -> P w -> exists a w', m w = (Returns a, w') /\ Q a w'.
Proof.
  intros Hm Hw. specialize (Hm w Hw).
  destruct (m w) as [[a|e] w']; [ eauto | destruct Hm ].
Qed.

Lemma filter_all {A} (p : A -> bool) (l : list A) :
  (forall a, In a l -> p a = true) -> filter p l = l.
Proof.
  induction l as [|a l IH]; intros Hp; cbn; [ reflexivity | ].
  rewrite (Hp a (or_introl eq_refl)). f_equal. apply IH. intros b Hb. apply Hp. now right.
Qed.

Lemma id_eqb_eq a b : id_eqb a b = true <-> a = b.
Proof.
  destruct a as [x|], b as [y|]; cbn; try (split; congruence).
  rewrite Z.eqb_eq. split; congruence.
Qed.

Lemma all_ints_length l zs : all_ints l = Some zs -> List.length zs = List.length l.
Proof.
  revert zs. induction l as [|s l IH]; intros zs; cbn.
  - intros Hz. now inversion Hz.
  - destruct (PyBuiltins.int s); [ | discriminate ].
    destruct (all_ints l) as [zs'|]; cbn; [ | discriminate ].
    intros Hz. inversion Hz; subst. cbn. now rewrite (IH zs' eq_refl).
Qed.

Lemma integrity_event_integrity db : integrity db = true -> event_integrity db = true.
Proof.
  unfold integrity, event_integrity. rewrite !forallb_forall. intros H a Ha.
  specialize (H a Ha). destruct (event_of db a); [ reflexivity | discriminate ].
Qed.

(** Rejected report dates: nothing but the resource list is read. *)
Lemma utilisation_report_missing {F : Type} `{PyFloat F} req w :
  method req = POST ->
  is_missing (date_field (form_get req "start_date")) = true
  \/ is_missing (date_field (form_get req "end_date")) = true ->
  utilisation_report req w
  = (Returns (mkPage (resources (session w)) [] [] (form_get req "start_date")
                     (form_get req "end_date")),
     flashed "Start date and end date are required." "danger" (after_resources_query w)).
Proof.
  intros Hpost Hmiss. unfold utilisation_report. rewrite Hpost.
  unfold bind at 1.
  change (query_all_resources w) with (Returns (resources (session w)), after_resources_query w).
  cbn iota. unfold date_field in Hmiss.
  destruct (form_get req "start_date") as [[|c1 s1]|];
    destruct (form_get req "end_date") as [[|c2 s2]|]; try reflexivity.
  destruct (strptime_date (String c1 s1)), (strptime_date (String c2 s2));
    destruct Hmiss; discriminate.
Qed.

Lemma utilisation_report_malformed {F : Type} `{PyFloat F} req w :
  method req = POST ->
  is_missing (date_field (form_get req "start_date")) = false ->
  is_missing (date_field (form_get req "end_date")) = false ->
  is_malformed (date_field (form_get req "start_date")) = true
  \/ is_malformed (date_field (form_get req "end_date")) = true ->
  utilisation_report req w = (Raises ValueError, after_resources_query w).
Proof.
  intros Hpost Hs He Hbad. unfold utilisation_report. rewrite Hpost.
  unfold bind at 1.
  change (query_all_resources w) with (Returns (resources (session w)), after_resources_query w).
  cbn iota. unfold date_field in *.
  destruct (form_get req "start_date") as [[|c1 s1]|]; try discriminate.
  destruct (form_get req "end_date") as [[|c2 s2]|]; try discriminate.
  unfold bind at 1.
  destruct (strptime_date (String c1 s1)); cbn [or_value_error ret raise]; [ | reflexivity ].
  unfold bind at 1.
  destruct (strptime_date (String c2 s2)); cbn [or_value_error ret raise]; [ | reflexivity ].
  destruct Hbad; discriminate.
Qed.

(** ** The model at work *)

Example strptime_local_ex :
  strptime_datetime_local "2025-12-10T14:30" = Some (mk_datetime 2025 12 10 14 30 0 0).
Proof. vm_compute. reflexivity. Qed.

Example strptime_local_short : strptime_datetime_local "2025-1-5t9:5" = Some (mk_datetime 2025 1 5 9 5 0 0).
Proof. vm_compute. reflexivity. Qed.

Example strptime_local_bad : strptime_datetime_local "2025-13-05T09:05" = None.
Proof. vm_compute. reflexivity. Qed.

Example strptime_local_trailing : strptime_datetime_local "2025-12-10T14:30:00" = None.
Proof. vm_compute. reflexivity. Qed.

Example strptime_date_feb30 : strptime_date "2025-02-30" = None.
Proof. vm_compute. reflexivity. Qed.

Example str_ex : str (mk_datetime 2025 1 1 10 0 0 0) = "2025-01-01 10:00:00".
Proof. vm_compute. reflexivity. Qed.

Example str_leap : str (mk_datetime 2024 2 29 23 59 59 999999) = "2024-02-29 23:59:59.999999".
Proof. vm_compute. reflexivity. Qed.

Example str_end_of_year : str (mk_datetime 2024 12 31 0 0 0 0) = "2024-12-31 00:00:00".
Proof. vm_compute. reflexivity. Qed.

Example int_plain : PyBuiltins.int "42" = Some 42.
Proof. reflexivity. Qed.

Example int_padded : PyBuiltins.int " +1_000 " = Some 1000.
Proof. reflexivity. Qed.

Example int_bad : PyBuiltins.int "4 2" = None /\ PyBuiltins.int "1__0" = None /\ PyBuiltins.int "_1" = None.
Proof. repeat split; reflexivity. Qed.

(** The separator FS (code 28) is not a blank for [int], NBSP (160) is. *)
Example int_separator :
  PyBuiltins.int (String (ascii_of_nat 28) "2") = None
  /\ PyBuiltins.int (String (ascii_of_nat 160) "2") = Some 2.
Proof. split; reflexivity. Qed.

(** The key after the largest one, whatever its sign. *)
Example next_id_after_largest :
  next_id [] = 1 /\ next_id [-5] = -4 /\ next_id [3; 7; 5] = 8.
Proof. repeat split; reflexivity. Qed.

Example round_half_even_tie :
  Binary64.round_2_digits (Binary64.of_ratio 125 1000) = Binary64.of_ratio 12 100.
Proof. vm_compute. reflexivity. Qed.

Example round_inexact :
  Binary64.round_2_digits (Binary64.of_ratio 2675 1000) = Binary64.of_ratio 267 100.
Proof. vm_compute. reflexivity. Qed.

Example str_first_of_march : str (mk_datetime 2024 3 1 0 0 0 0) = "2024-03-01 00:00:00".
Proof. vm_compute. reflexivity. Qed.

Example str_first_day : str (mk_datetime 1 1 1 0 0 0 0) = "0001-01-01 00:00:00".
Proof. vm_compute. reflexivity. Qed.

Example str_last_day : str (mk_datetime 9999 12 31 23 59 59 0) = "9999-12-31 23:59:59".
Proof. vm_compute. reflexivity. Qed.

(** A workshop from 09:30 to 10:30 in the room meets both of its bookings. *)
Example check_conflicts_workshop :
  fst (check_conflicts Sample.workshop [1] (Sample.world_at Sample.db Sample.today))
  = Returns
      ["Resource 'Room A' is already booked by event 'Standup' from 2025-01-01 09:00:00 to 2025-01-01 10:00:00.";
       "Resource 'Room A' is already booked by event 'Review' from 2025-01-01 10:00:00 to 2025-01-01 14:00:00."].
Proof. vm_compute. reflexivity. Qed.

(** The standup ends when the review starts: the scan of the sample store
    reports nothing, and checking the review against the room reports nothing. *)
Example touching_bookings_do_not_conflict :
  fst (conflict_view (Sample.world_at Sample.db Sample.today)) = Returns []
  /\ fst (check_conflicts Sample.review [1] (Sample.world_at Sample.db Sample.today)) = Returns [].
Proof. split; vm_compute; reflexivity. Qed.

(** The night shift runs from 22:00 to 02:00 of the next day: a report on
    its first day counts it up to 23:59:59.999999. *)
Example night_shift_is_clipped :
  Spec.clipped_width (Sample.at_ 2025 1 1 0 0) (combine_max_time (Sample.at_ 2025 1 1 0 0))
                     Sample.night_shift
  = 2 * 3600 * 1000000 - 1.
Proof. vm_compute. reflexivity. Qed.


(** ** The handlers, run *)

(** The checker run from a world [w], on a valid range. *)
Lemma check_conflicts_run event resource_ids w :
  start_time event < end_time event ->
  match check_conflicts event resource_ids w with
  | (Returns c, w') =>
      c = Spec.conflict_descriptions (session w) event resource_ids
      /\ forallb sqlite_integer resource_ids = true
      /\ can_check_all (session w) event resource_ids = true
      /\ untouched w w'
  | (Raises e, w') =>
      ((e = OverflowError /\ forallb sqlite_integer resource_ids = false)
       \/ (e = AttributeError /\ can_check_all (session w) event resource_ids = false))
      /\ untouched w w'
  end.
Proof.
  intros Hvalid.
  exact (check_conflicts_outcome (session w) (untouched w) (log_stable_untouched w)
           (fun w' Hw' => proj1 Hw') event resource_ids Hvalid w (untouched_refl w)).
Qed.

(** The checker returns when nothing stands in its way. *)
Lemma check_conflicts_total event resource_ids w :
  start_time event < end_time event ->
  forallb sqlite_integer resource_ids = true ->
  can_check_all (session w) event resource_ids = true ->
  exists w',
    check_conflicts event resource_ids w
    = (Returns (Spec.conflict_descriptions (session w) event resource_ids), w')
    /\ untouched w w'.
Proof.
  intros Hvalid Hrange Hcan.
  pose proof (check_conflicts_run event resource_ids w Hvalid) as Hrun.
  destruct (check_conflicts event resource_ids w) as [[c|x] w'].
  - destruct Hrun as (-> & _ & _ & Hw). now exists w'.
  - destruct Hrun as ([[_ Hbad] | [_ Hbad]] & _); congruence.
Qed.

(** The scan run from a world [w]. *)
Lemma conflict_view_run w :
  match conflict_view w with
  | (Returns c, w') =>
      c = Spec.scan_all_conflicts (session w) /\ can_scan (session w) = true /\ untouched w w'
  | (Raises e, w') =>
      e = AttributeError /\ can_scan (session w) = false /\ untouched w w'
  end.
Proof.
  exact (conflict_view_outcome (session w) (untouched w) (log_stable_untouched w)
           (fun w' Hw' => proj1 Hw') w (untouched_refl w)).
Qed.

(** What the body of the checker's inner loop answers. *)
Lemma check_alloc_result event a conflicts w :
  fst (check_alloc event a conflicts w)
  = match event_of (session w) a with
    | None => Raises AttributeError
    | Some other =>
        if id_eqb (event_id other) (event_id event) then Returns conflicts
        else if Spec.overlaps (start_time event) (end_time event)
                              (start_time other) (end_time other)
        then match resource_of (session w) a with
             | Some r => Returns (conflicts ++ [booked_message r other])
             | None => Raises AttributeError
             end
        else Returns conflicts
    end.
Proof.
  destruct w as [s cm fl rd ck tk].
  unfold check_alloc, alloc_event, alloc_resource, bind, log, get_session, ret. cbn [session].
  destruct (event_of s a) as [other|]; cbn [attr_of]; [ | reflexivity ].
  unfold ret. destruct (id_eqb (event_id other) (event_id event)); [ reflexivity | ].
  rewrite overlap_test_spec.
  destruct (Spec.overlaps (start_time event) (end_time event)
                          (start_time other) (end_time other)); [ | reflexivity ].
  cbn [session]. destruct (resource_of s a); reflexivity.
Qed.

(** What the body of the scan's inner loop answers. *)
Lemma scan_pair_result allocations i j a1 a2 conflicts w :
  nth_error allocations i = Some a1 -> nth_error allocations j = Some a2 ->
  fst (scan_pair allocations i j conflicts w)
  = if negb (alloc_resource_id a1 =? alloc_resource_id a2) then Returns conflicts
    else match event_of (session w) a1, event_of (session w) a2 with
         | Some e1, Some e2 =>
             if Spec.overlaps (start_time e1) (end_time e1) (start_time e2) (end_time e2)
             then match resource_of (session w) a1 with
                  | Some r => Returns (conflicts ++ [mkConflict (resource_name r) e1 e2])
                  | None => Raises AttributeError
                  end
             else Returns conflicts
         | _, _ => Raises AttributeError
         end.
Proof.
  intros H1 H2. destruct w as [s cm fl rd ck tk].
  unfold scan_pair, item. rewrite H1, H2.
  unfold alloc_event, alloc_resource, bind, log, get_session, ret.
  lazy beta iota zeta delta [session committed flashes reads clock ticks].
  destruct (negb (alloc_resource_id a1 =? alloc_resource_id a2)); [ reflexivity | ].
  destruct (event_of s a1) as [e1|], (event_of s a2) as [e2|]; cbn [attr_of raise ret];
    try reflexivity.
  unfold ret. rewrite overlap_test_spec.
  destruct (Spec.overlaps (start_time e1) (end_time e1) (start_time e2) (end_time e2));
    [ | reflexivity ].
  cbn [session]. destruct (resource_of s a1); reflexivity.
Qed.

Lemma app_one_neq {A} (l : list A) (x : A) : l ++ [x] <> l.
Proof.
  intros Heq. apply (f_equal (@List.length A)) in Heq.
  rewrite length_app in Heq. cbn in Heq. lia.
Qed.

Lemma id_eqb_false a b : id_eqb a b = false <-> a <> b.
Proof.
  split.
  - intros Hf Heq. apply id_eqb_eq in Heq. congruence.
  - intros Hne. destruct (id_eqb a b) eqn:Hid; [ | reflexivity ].
    apply id_eqb_eq in Hid. contradiction.
Qed.

(** The descriptions of the checker are those that are called for. *)
Lemma conflict_descriptions_in db event resource_ids message :
  In message (Spec.conflict_descriptions db event resource_ids)
  <-> called_for db event resource_ids message.
Proof.
  unfold Spec.conflict_descriptions, called_for. rewrite in_flat_map. split.
  - intros (rid & Hrid & Hm). apply in_flat_map in Hm. destruct Hm as (a & Ha & Hm).
    apply filter_In in Ha. destruct Ha as [Ha Hself].
    unfold Spec.reported in Hm. unfold Spec.same_event in Hself.
    destruct (event_of db a) as [other|] eqn:He; [ | destruct Hm ].
    destruct (resource_of db a) as [r|] eqn:Hr; [ | destruct Hm ].
    destruct (Spec.overlaps _ _ _ _) eqn:Hov; [ | destruct Hm ].
    destruct Hm as [<- | []]. apply overlaps_iff in Hov.
    apply negb_true_iff, id_eqb_false in Hself.
    exists rid, a, other, r. tauto.
  - intros (rid & a & other & r & Hrid & Ha & He & Hne & Hr & -> & H1 & H2).
    exists rid. split; [ exact Hrid | ]. apply in_flat_map. exists a. split.
    + apply filter_In. split; [ exact Ha | ].
      unfold Spec.same_event. rewrite He. now apply negb_true_iff, id_eqb_false.
    + unfold Spec.reported. rewrite He, Hr.
      assert (Hov : Spec.overlaps (start_time event) (end_time event)
                                  (start_time other) (end_time other) = true)
        by (apply overlaps_iff; tauto).
      rewrite Hov. now left.
Qed.

(** An identifier that is not a SQLite integer stops the checker at its query. *)
Lemma check_conflicts_oversized_first event rid rest w :
  start_time event < end_time event -> sqlite_integer rid = false ->
  fst (check_conflicts event (rid :: rest) w) = Raises OverflowError.
Proof.
  intros Hvalid Hrid. unfold check_conflicts. apply ge_false_iff in Hvalid. rewrite Hvalid.
  cbn [for_each]. unfold bind at 1. unfold query_allocations_by_resource.
  unfold bind at 1. unfold bind_parameter. rewrite Hrid. reflexivity.
Qed.

(** ** The upcoming lists *)

Lemma upcoming_at_in clk k (l : list Event) e :
  In e (upcoming_at clk k l) ->
  In e l /\ exists i, (k <= i < k + List.length l)%nat /\ start_time e >= clk i.
Proof.
  revert k. induction l as [|x l IH]; intros k; cbn [upcoming_at List.length]; [ intros [] | ].
  intros Hin. apply in_app_or in Hin. destruct Hin as [Hin | Hin].
  - destruct (Z.geb_spec (start_time x) (clk k)) as [Hge|]; [ | destruct Hin ].
    destruct Hin as [<- | []]. split; [ now left | ].
    exists k. split; [ lia | lia ].
  - destruct (IH (S k) Hin) as (Hl & i & Hi & Hge). split; [ now right | ].
    exists i. split; [ lia | exact Hge ].
Qed.

Lemma upcoming_at_all clk k (l : list Event) e :
  In e l -> (forall i, (k <= i < k + List.length l)%nat -> start_time e >= clk i) ->
  In e (upcoming_at clk k l).
Proof.
  revert k. induction l as [|x l IH]; intros k; cbn [upcoming_at List.length]; [ intros [] | ].
  intros [<- | Hin] Hall; apply in_or_app.
  - left. specialize (Hall k ltac:(lia)).
    destruct (Z.geb_spec (start_time x) (clk k)); [ now left | lia ].
  - right. apply IH; [ exact Hin | ]. intros i Hi. apply Hall. lia.
Qed.

Lemma upcoming_at_frozen clk k (l : list Event) t :
  (forall i, (k <= i < k + List.length l)%nat -> clk i = t) ->
  upcoming_at clk k l = filter (fun e => start_time e >=? t) l.
Proof.
  revert k. induction l as [|x l IH]; intros k Hclk; cbn [upcoming_at filter List.length] in *;
    [ reflexivity | ].
  rewrite (Hclk k ltac:(lia)), (IH (S k)); [ | intros i Hi; apply Hclk; lia ].
  destruct (start_time x >=? t); reflexivity.
Qed.

Lemma upcoming_rows_resources db ws we clk k rs :
  map fst (upcoming_rows db ws we clk k rs) = rs.
Proof.
  revert k. induction rs as [|r rs IH]; intros k; cbn [upcoming_rows map fst];
    [ reflexivity | now rewrite IH ].
Qed.

Lemma upcoming_rows_in db ws we clk k rs r l :
  In (r, l) (upcoming_rows db ws we clk k rs) ->
  exists k',
    (k <= k')%nat
    /\ (k' + List.length (Spec.events_in_window db ws we (resource_id r))
        <= k + List.length (flat_map (fun r => Spec.events_in_window db ws we (resource_id r))
                                     rs))%nat
    /\ l = sorted_by_start (upcoming_at clk k' (Spec.events_in_window db ws we (resource_id r))).
Proof.
  revert k. induction rs as [|x rs IH]; intros k; cbn [upcoming_rows flat_map]; [ intros [] | ].
  rewrite length_app. intros [Heq | Hin].
  - inversion Heq; subst. exists k. split; [ lia | split; [ lia | reflexivity ] ].
  - destruct (IH _ Hin) as (k' & Hk & Hlen & Hl). exists k'.
    split; [ lia | split; [ lia | exact Hl ] ].
Qed.

Lemma event_integrity_can_report db : event_integrity db = true -> can_report db = true.
Proof.
  unfold event_integrity, can_report. rewrite forallb_forall. intros Hint.
  apply forallb_forall. intros r _. apply forallb_forall. intros a Ha.
  apply allocations_on_in in Ha. destruct Ha as [Ha _].
  specialize (Hint a Ha). unfold stored. now destruct (event_of db a).
Qed.

(** * Properties of the specification *)

(** C1. The overlap test, as the checker and the scan apply it.  For an
    allocation of another stored event than the candidate, the body of the
    checker's loop leaves the list as it was exactly when the two ranges do
    not strictly overlap ([start < other.end] and [other.start < end]), and
    appends the description when they do; the body of the scan's loop does
    the same for two allocations of one resource.  Hence events that merely
    touch at a boundary add nothing.  For the whole functions: what the
    checker returns on a valid range holds a description exactly when an
    allocation on a requested resource calls for it, and what the scan
    returns holds a record exactly when two allocations of one resource
    have strictly overlapping events; no returned record pairs events that
    touch. *)
Theorem overlap_test_strict :
  (forall event alloc conflicts other w,
     event_of (session w) alloc = Some other ->
     event_id other <> event_id event ->
     (fst (check_alloc event alloc conflicts w) = Returns conflicts
      <-> ~ (start_time event < end_time other /\ start_time other < end_time event))
     /\ (forall r, resource_of (session w) alloc = Some r ->
           start_time event < end_time other /\ start_time other < end_time event ->
           fst (check_alloc event alloc conflicts w)
           = Returns (conflicts ++ [booked_message r other]))
     /\ (end_time other = start_time event \/ end_time event = start_time other ->
         fst (check_alloc event alloc conflicts w) = Returns conflicts))
  /\ (forall allocations i j a1 a2 e1 e2 conflicts w,
        nth_error allocations i = Some a1 -> nth_error allocations j = Some a2 ->
        alloc_resource_id a1 = alloc_resource_id a2 ->
        event_of (session w) a1 = Some e1 -> event_of (session w) a2 = Some e2 ->
        (fst (scan_pair allocations i j conflicts w) = Returns conflicts
         <-> ~ (start_time e1 < end_time e2 /\ start_time e2 < end_time e1))
        /\ (forall r, resource_of (session w) a1 = Some r ->
              start_time e1 < end_time e2 /\ start_time e2 < end_time e1 ->
              fst (scan_pair allocations i j conflicts w)
              = Returns (conflicts ++ [mkConflict (resource_name r) e1 e2]))
        /\ (end_time e1 = start_time e2 \/ end_time e2 = start_time e1 ->
            fst (scan_pair allocations i j conflicts w) = Returns conflicts))
  /\ (forall event resource_ids w c w',
        start_time event < end_time event ->
        check_conflicts event resource_ids w = (Returns c, w') ->
        forall message, In message c <-> called_for (session w) event resource_ids message)
  /\ (forall w c w',
        conflict_view w = (Returns c, w') ->
        (forall record, In record c <-> scanned (session w) record)
        /\ forall record, In record c ->
             end_time (c_event1 record) <> start_time (c_event2 record)
             /\ end_time (c_event2 record) <> start_time (c_event1 record)).
Proof.
  split; [ | split; [ | split ] ].
  - intros event alloc conflicts other w He Hne.
    rewrite check_alloc_result, He.
    apply id_eqb_false in Hne. rewrite Hne.
    destruct (Spec.overlaps (start_time event) (end_time event)
                            (start_time other) (end_time other)) eqn:Hov.
    + apply overlaps_iff in Hov. split; [ | split ].
      * split; [ | tauto ].
        destruct (resource_of (session w) alloc); [ | discriminate ].
        intros Heq. inversion Heq as [Hl]. now apply app_one_neq in Hl.
      * intros r -> _. reflexivity.
      * intros Htouch. lia.
    + assert (Hno : ~ (start_time event < end_time other
                       /\ start_time other < end_time event)).
      { intros Hyes. apply overlaps_iff in Hyes. congruence. }
      split; [ tauto | split; [ tauto | reflexivity ] ].
  - intros allocations i j a1 a2 e1 e2 conflicts w H1 H2 Hr He1 He2.
    rewrite (scan_pair_result allocations i j a1 a2 conflicts w H1 H2), He1, He2.
    apply Z.eqb_eq in Hr. rewrite Hr. cbn [negb].
    destruct (Spec.overlaps (start_time e1) (end_time e1) (start_time e2) (end_time e2))
      eqn:Hov.
    + apply overlaps_iff in Hov. split; [ | split ].
      * split; [ | tauto ].
        destruct (resource_of (session w) a1); [ | discriminate ].
        intros Heq. inversion Heq as [Hl]. now apply app_one_neq in Hl.
      * intros r -> _. reflexivity.
      * intros Htouch. lia.
    + assert (Hno : ~ (start_time e1 < end_time e2 /\ start_time e2 < end_time e1)).
      { intros Hyes. apply overlaps_iff in Hyes. congruence. }
      split; [ tauto | split; [ tauto | reflexivity ] ].
  - intros event rids w c w' Hvalid Hrun message.
    pose proof (check_conflicts_run event rids w Hvalid) as Hc.
    rewrite Hrun in Hc. destruct Hc as (-> & _).
    apply conflict_descriptions_in.
  - intros w c w' Hrun.
    pose proof (conflict_view_run w) as Hc. rewrite Hrun in Hc. destruct Hc as (-> & _).
    assert (Hiff : forall record,
              In record (Spec.scan_all_conflicts (session w)) <-> scanned (session w) record).
    { intros record. split; [ apply scan_all_conflicts_in | apply scanned_in ]. }
    split; [ exact Hiff | ].
    intros record Hin. apply Hiff in Hin.
    destruct Hin as (i & j & a1 & a2 & r0 & _ & _ & _ & _ & _ & _ & _ & _ & H1 & H2).
    split; intros Heq; rewrite Heq in *; lia.
Qed.


(** C2. For a candidate whose start time is not before its end time,
    [check_conflicts] returns the invalid-range description alone and
    leaves the world as it was, read log included: no resource and no
    allocation is read, and the result is the same for every list of
    resource identifiers and every store. *)
Theorem check_conflicts_invalid_range event resource_ids w :
  start_time event >= end_time event ->
  check_conflicts event resource_ids w = (Returns [invalid_range_message], w)
  /\ forall resource_ids' w',
       fst (check_conflicts event resource_ids' w') = Returns [invalid_range_message].
Proof.
  intros Hbad. apply ge_true_iff in Hbad.
  unfold check_conflicts. rewrite Hbad. split; reflexivity.
Qed.

Lemma check_conflicts_invalid_range_witness :
  check_conflicts Sample.backwards [1; 2] (Sample.world_at Sample.db Sample.today)
  = (Returns [invalid_range_message], Sample.world_at Sample.db Sample.today).
Proof.
  apply (check_conflicts_invalid_range Sample.backwards [1; 2]
           (Sample.world_at Sample.db Sample.today)).
  vm_compute. discriminate.
Defined.

(** C3, as the code has it.  On a valid range, [check_conflicts] leaves
    out exactly the allocations whose stored event has the candidate's
    identifier: the body of its loop passes such an allocation over
    whatever its times, and never passes over an overlapping allocation of
    an event with another identifier; what the checker returns is the list
    of the overlapping allocations on the requested resources without the
    candidate's own.  For a candidate with an identifier and resource
    identifiers that are SQLite integers, when every allocation on the
    requested resources references a stored event with that identifier
    the result is the empty list.  For a candidate without an identifier no
    allocation of a stored event is left out. *)
Theorem check_conflicts_self_exclusion event resource_ids w :
  start_time event < end_time event ->
  (forall alloc conflicts other w0,
     event_of (session w0) alloc = Some other ->
     (event_id other = event_id event ->
      fst (check_alloc event alloc conflicts w0) = Returns conflicts)
     /\ (event_id other <> event_id event ->
         start_time event < end_time other /\ start_time other < end_time event ->
         fst (check_alloc event alloc conflicts w0) <> Returns conflicts))
  /\ (forall c w',
        check_conflicts event resource_ids w = (Returns c, w') ->
        c = Spec.conflict_descriptions (session w) event resource_ids)
  /\ (forall a e, event_of (session w) a = Some e ->
        (Spec.same_event (session w) event a = true <-> event_id e = event_id event))
  /\ (forall id, event_id event = Some id ->
        forallb sqlite_integer resource_ids = true ->
        (forall a, In a (allocations (session w)) -> In (alloc_resource_id a) resource_ids ->
                   exists e, event_of (session w) a = Some e /\ event_id e = Some id) ->
        fst (check_conflicts event resource_ids w) = Returns [])
  /\ (event_id event = None ->
        (forall a e, event_of (session w) a = Some e ->
                     Spec.same_event (session w) event a = false)
        /\ forall c w',
             check_conflicts event resource_ids w = (Returns c, w') ->
             c = flat_map (fun rid => flat_map (Spec.reported (session w) event)
                                               (allocations_on (session w) rid))
                          resource_ids)
  /\ (forall rid rest, sqlite_integer rid = false ->
        fst (check_conflicts event (rid :: rest) w) = Raises OverflowError).
Proof.
  intros Hvalid. set (db := session w).
  pose proof (check_conflicts_run event resource_ids w Hvalid) as Hrun. fold db in Hrun.
  split; [ | split; [ | split; [ | split; [ | split ] ] ] ];
    [ | | | | | intros rid rest Hrid; now apply check_conflicts_oversized_first ].
  - intros alloc conflicts other w0 He. rewrite check_alloc_result, He. split.
    + intros Heq. apply id_eqb_eq in Heq. now rewrite Heq.
    + intros Hne Hov. apply id_eqb_false in Hne. rewrite Hne.
      apply overlaps_iff in Hov. rewrite Hov.
      destruct (resource_of (session w0) alloc); [ | discriminate ].
      intros Heq. inversion Heq as [Hl]. now apply app_one_neq in Hl.
  - intros c w' Hc. rewrite Hc in Hrun. tauto.
  - intros a e He. rewrite (same_event_spec db event a e He). apply id_eqb_eq.
  - intros id Hid Hrange Hown.
    assert (Hcan : can_check_all db event resource_ids = true).
    { unfold can_check_all. apply forallb_forall. intros rid Hrid.
      apply forallb_forall. intros a Ha. apply allocations_on_in in Ha.
      destruct Ha as [Ha Hr]. destruct (Hown a Ha ltac:(now rewrite Hr)) as (e & He & Hide).
      unfold can_check. rewrite He, Hide, Hid. cbn [id_eqb]. now rewrite Z.eqb_refl. }
    destruct (check_conflicts event resource_ids w) as [[c|x] w'].
    + destruct Hrun as (-> & _). cbn [fst]. f_equal.
      unfold Spec.conflict_descriptions. apply flat_map_nil. intros rid Hrid.
      rewrite filter_none; [ reflexivity | ].
      intros a Ha. apply allocations_on_in in Ha. destruct Ha as [Ha Hr].
      destruct (Hown a Ha ltac:(now rewrite Hr)) as (e & He & Hide).
      rewrite (same_event_spec db event a e He), Hide, Hid.
      cbn. now rewrite Z.eqb_refl.
    + destruct Hrun as ([[_ Hbad] | [_ Hbad]] & _); congruence.
  - intros Hnew. split.
    + intros a e He. rewrite (same_event_spec db event a e He), (event_of_id db a e He), Hnew.
      reflexivity.
    + intros c w' Hc. rewrite Hc in Hrun. destruct Hrun as (-> & _).
      unfold Spec.conflict_descriptions. apply flat_map_ext_in. intros rid _.
      f_equal. apply filter_all. intros a _. unfold Spec.same_event.
      destruct (event_of db a) as [e|] eqn:He; [ | reflexivity ].
      now rewrite (event_of_id db a e He), Hnew.
Qed.

Lemma check_conflicts_self_exclusion_witness :
  fst (check_conflicts Sample.standup_edited [1] (Sample.world_at Sample.db_duplicate Sample.today))
  = Returns [].
Proof.
  refine (proj1 (proj2 (proj2 (proj2
            (check_conflicts_self_exclusion Sample.standup_edited [1]
               (Sample.world_at Sample.db_duplicate Sample.today) _)))) 1 eq_refl eq_refl _).
  - vm_compute. reflexivity.
  - intros a Ha Hr. cbn in Ha.
    destruct Ha as [<- | [<- | [<- | []]]]; cbn in Hr;
      try (destruct Hr as [Hr | []]; discriminate);
      exists Sample.standup; split; reflexivity.
Defined.

(** The candidate is the standup, the only event allocated to resource
    [2^63], which has no allocation at all: every allocation there is the
    candidate's own, yet the query raises [OverflowError] and the checker
    returns nothing. *)
Lemma oversized_identifier_raises :
  start_time Sample.standup_edited < end_time Sample.standup_edited
  /\ event_id Sample.standup_edited = Some 1
  /\ allocations_on Sample.db_duplicate Sample.oversized = []
  /\ fst (check_conflicts Sample.standup_edited [Sample.oversized]
            (Sample.world_at Sample.db_duplicate Sample.today))
     = Raises OverflowError.
Proof. repeat split; vm_compute; reflexivity. Qed.


(** C9. [check_conflicts] only reads: whatever it returns or raises, the
    session's rows, the committed rows, the flashed messages and the clock
    are after the call what they were before it; the list it returns is
    its only output. *)
Theorem check_conflicts_read_only event resource_ids w :
  untouched w (snd (check_conflicts event resource_ids w)).
Proof.
  pose proof (check_conflicts_untouched w event resource_ids w (untouched_refl w)) as Hf.
  destruct (check_conflicts event resource_ids w) as [[c|e] w']; exact Hf.
Qed.

(** C5, as the code has it.  The conflict scan visits the pairs of
    positions [i < j] of the allocation list, each pair once.  When every
    pair can be judged (two allocations of one resource identifier have
    their events stored and, when these overlap, their resource stored),
    it returns, in that order, one record for every pair whose allocations
    reference the same resource and whose events strictly overlap, and
    nothing else, the record carrying the name of the shared resource and
    the two events; a store with referential integrity is such a store.
    When some pair cannot be judged the scan raises [AttributeError] and
    returns nothing. *)
Theorem conflict_view_pairwise w :
  NoDup (Spec.index_pairs (List.length (allocations (session w))))
  /\ (forall i j, In (i, j) (Spec.index_pairs (List.length (allocations (session w))))
                  <-> (i < j < List.length (allocations (session w)))%nat)
  /\ (can_scan (session w) = true ->
        fst (conflict_view w)
        = Returns (flat_map (Spec.verdict_at (session w))
                            (Spec.index_pairs (List.length (allocations (session w))))))
  /\ (can_scan (session w) = false -> fst (conflict_view w) = Raises AttributeError)
  /\ (integrity (session w) = true -> can_scan (session w) = true)
  /\ (forall i j a1 a2 e1 e2 r,
        nth_error (allocations (session w)) i = Some a1 ->
        nth_error (allocations (session w)) j = Some a2 ->
        event_of (session w) a1 = Some e1 -> event_of (session w) a2 = Some e2 ->
        resource_of (session w) a1 = Some r ->
        Spec.verdict_at (session w) (i, j)
        = if (alloc_resource_id a1 =? alloc_resource_id a2)
             && ((start_time e1 <? end_time e2) && (start_time e2 <? end_time e1))
          then [mkConflict (resource_name r) e1 e2] else [])
  /\ (forall c w', conflict_view w = (Returns c, w') ->
        forall record, In record c <-> scanned (session w) record).
Proof.
  set (db := session w).
  pose proof (conflict_view_run w) as Hrun. fold db in Hrun.
  split; [ apply index_pairs_NoDup | ].
  split; [ intros i j; apply index_pairs_in | ].
  split; [ | split; [ | split; [ | split ] ] ].
  - intros Hcan. destruct (conflict_view w) as [[c|x] w'].
    + destruct Hrun as (-> & _). reflexivity.
    + destruct Hrun as (_ & Hbad & _). congruence.
  - intros Hcan. destruct (conflict_view w) as [[c|x] w'].
    + destruct Hrun as (_ & Hok & _). congruence.
    + destruct Hrun as (-> & _). reflexivity.
  - apply integrity_can_scan.
  - intros i j a1 a2 e1 e2 r H1 H2 He1 He2 Hr1.
    unfold Spec.verdict_at, Spec.pair_verdict, Spec.overlaps. cbn [fst snd].
    rewrite H1, H2, He1, He2, Hr1.
    destruct (alloc_resource_id a1 =? alloc_resource_id a2); reflexivity.
  - intros c w' Hc. rewrite Hc in Hrun. destruct Hrun as (-> & _).
    intros record. split; [ apply scan_all_conflicts_in | apply scanned_in ].
Qed.

(** A form that selects the unstored resource 7 twice is accepted, and the
    two allocations it leaves make the scan raise [AttributeError]: the new
    event overlaps itself on a resource whose name cannot be read. *)
Lemma scan_fails_after_unstored_selection :
  exists w',
    add_event Sample.add_request_unstored_twice (Sample.world_at Sample.db Sample.today)
    = (Returns (Redirect "list_events"), w')
    /\ allocations (committed w')
       = allocations Sample.db ++ [mkAllocation 6 5 7; mkAllocation 7 5 7]
    /\ fst (conflict_view (Sample.world_at (committed w') Sample.today))
       = Raises AttributeError.
Proof.
  eexists. split; [ vm_compute; reflexivity | ].
  split; vm_compute; reflexivity.
Qed.

(** C10, as the code has it.  The scan has no same-event exclusion: two
    allocation rows at positions [i < j] that reference the same stored
    resource and the same stored event, an event that starts before it
    ends, are reported as that event in conflict with itself whenever the
    scan returns, and it returns when every pair of the store can be
    judged; when some pair cannot, the scan raises [AttributeError] and
    returns nothing, the duplicate included. *)
Theorem conflict_view_duplicate_allocation w i j a1 a2 e r :
  (i < j)%nat ->
  nth_error (allocations (session w)) i = Some a1 ->
  nth_error (allocations (session w)) j = Some a2 ->
  alloc_resource_id a1 = alloc_resource_id a2 ->
  alloc_event_id a1 = alloc_event_id a2 ->
  event_of (session w) a1 = Some e ->
  resource_of (session w) a1 = Some r ->
  start_time e < end_time e ->
  (forall c w', conflict_view w = (Returns c, w') ->
                In (mkConflict (resource_name r) e e) c)
  /\ (can_scan (session w) = true ->
      exists c w', conflict_view w = (Returns c, w')
                   /\ In (mkConflict (resource_name r) e e) c)
  /\ (can_scan (session w) = false -> fst (conflict_view w) = Raises AttributeError).
Proof.
  intros Hij H1 H2 Hres Hev He Hr Hvalid. set (db := session w).
  pose proof (conflict_view_run w) as Hrun. fold db in Hrun.
  assert (Hin : In (mkConflict (resource_name r) e e) (Spec.scan_all_conflicts db)).
  { apply scanned_in. exists i, j, a1, a2, r. cbn [c_event1 c_event2 c_resource].
    assert (He2 : event_of db a2 = Some e).
    { unfold event_of in *. now rewrite <- Hev. }
    repeat (split; [ assumption | ]). split; [ reflexivity | split; assumption ]. }
  split; [ | split ].
  - intros c w' Hc. rewrite Hc in Hrun. destruct Hrun as (-> & _). exact Hin.
  - intros Hcan. destruct (conflict_view w) as [[c|x] w'].
    + destruct Hrun as (-> & _). eexists. eexists. split; [ reflexivity | exact Hin ].
    + destruct Hrun as (_ & Hbad & _). congruence.
  - intros Hcan. destruct (conflict_view w) as [[c|x] w'].
    + destruct Hrun as (_ & Hok & _). congruence.
    + destruct Hrun as (-> & _). reflexivity.
Qed.

Lemma conflict_view_duplicate_allocation_witness :
  exists c w', conflict_view (Sample.world_at Sample.db_duplicate Sample.today) = (Returns c, w')
               /\ In (mkConflict "Room A" Sample.standup Sample.standup) c.
Proof.
  refine (proj1 (proj2 (conflict_view_duplicate_allocation
            (Sample.world_at Sample.db_duplicate Sample.today) 0 2
            (mkAllocation 1 1 1) (mkAllocation 3 1 1) Sample.standup Sample.room
            _ _ _ _ _ _ _ _)) _).
  - lia.
  - reflexivity.
  - reflexivity.
  - reflexivity.
  - reflexivity.
  - vm_compute. reflexivity.
  - vm_compute. reflexivity.
  - vm_compute. reflexivity.
  - vm_compute. reflexivity.
Defined.

(** Rows 1 and 3 allocate the standup, which starts before it ends, twice
    to the stored room; rows 4 and 5 allocate the review twice to a
    resource that is not stored.  The scan raises [AttributeError]: its
    output does not hold the standup paired with itself. *)
Lemma duplicate_unreported_when_scan_fails :
  nth_error (allocations Sample.db_duplicate_unstored) 0 = Some (mkAllocation 1 1 1)
  /\ nth_error (allocations Sample.db_duplicate_unstored) 2 = Some (mkAllocation 3 1 1)
  /\ event_of Sample.db_duplicate_unstored (mkAllocation 1 1 1) = Some Sample.standup
  /\ resource_of Sample.db_duplicate_unstored (mkAllocation 1 1 1) = Some Sample.room
  /\ start_time Sample.standup < end_time Sample.standup
  /\ fst (conflict_view (Sample.world_at Sample.db_duplicate_unstored Sample.today))
     = Raises AttributeError.
Proof. repeat split; vm_compute; reflexivity. Qed.


(** C4. For a report window given as two calendar dates, the window starts
    at the first instant of the start date and ends at 23:59:59.999999 of
    the end date, and the total reported for every resource is
    [round(total, 2)] of the sum, from 0.0 and in allocation order, over
    the resource's allocations whose event satisfies
    [event.start <= windowEnd and event.end >= windowStart], of
    [min(event.end, windowEnd) - max(event.start, windowStart)] in hours
    when that width is positive; a width that is not positive adds
    nothing.  This holds of every page the report returns, over any store;
    the report returns a page when every allocation of a stored resource
    references a stored event, which the routes maintain, and raises
    [AttributeError] otherwise. *)
Theorem utilisation_report_total_hours {F : Type} `{PyFloat F} req w ds de :
  method req = POST ->
  date_field (form_get req "start_date") = WellFormed ds ->
  date_field (form_get req "end_date") = WellFormed de ->
  (exists y m d, valid_date y m d = true /\ ds = mk_datetime y m d 0 0 0 0)
  /\ (exists y m d, valid_date y m d = true /\ de = mk_datetime y m d 0 0 0 0
                    /\ combine_max_time de = mk_datetime y m d 23 59 59 999999)
  /\ (forall page w',
        utilisation_report req w = (Returns page, w') ->
        map totals (p_report_data page)
        = map (fun r => (r, round2 (Spec.total_hours (session w) ds (combine_max_time de)
                                                     (resource_id r))))
              (resources (session w)))
  /\ (can_report (session w) = true ->
      exists page w', utilisation_report req w = (Returns page, w'))
  /\ (can_report (session w) = false ->
      fst (utilisation_report req w) = Raises AttributeError)
  /\ (event_integrity (session w) = true -> can_report (session w) = true).
Proof.
  intros Hpost Hs He.
  destruct (date_field_well_formed _ _ Hs) as (c1 & s1 & _ & Hp1).
  destruct (date_field_well_formed _ _ He) as (c2 & s2 & _ & Hp2).
  destruct (strptime_date_midnight _ _ Hp1) as (y1 & m1 & d1 & Hv1 & Hd1 & _).
  destruct (strptime_date_midnight _ _ Hp2) as (y2 & m2 & d2 & Hv2 & Hd2 & Hmax).
  split; [ now exists y1, m1, d1 | ].
  split; [ now exists y2, m2, d2 | ].
  pose proof (utilisation_report_run req w ds de Hpost Hs He) as Hrun.
  split; [ | split; [ | split ] ].
  - intros page w' Hp. rewrite Hp in Hrun. tauto.
  - intros Hcan. destruct (utilisation_report req w) as [[page|x] w'].
    + now exists page, w'.
    + destruct Hrun as (_ & Hbad). congruence.
  - intros Hcan. destruct (utilisation_report req w) as [[page|x] w'].
    + destruct Hrun as (Hok & _). congruence.
    + destruct Hrun as (-> & _). reflexivity.
  - apply event_integrity_can_report.
Qed.

Lemma utilisation_report_total_hours_witness :
  exists page w',
    utilisation_report (H := Binary64.binary64) Sample.report_request
                       (Sample.world_at Sample.db Sample.today) = (Returns page, w')
    /\ map totals (p_report_data page) = [(Sample.room, 5%float); (Sample.projector, 6%float)].
Proof.
  destruct (utilisation_report_total_hours (H := Binary64.binary64) Sample.report_request
              (Sample.world_at Sample.db Sample.today)
              (Sample.at_ 2025 1 1 0 0) (Sample.at_ 2025 1 1 0 0)
              eq_refl ltac:(vm_compute; reflexivity) ltac:(vm_compute; reflexivity))
    as (_ & _ & Htotals & Hreturns & _).
  destruct (Hreturns ltac:(vm_compute; reflexivity)) as (page & w' & Hrun).
  exists page, w'. split; [ exact Hrun | ].
  rewrite (Htotals page w' Hrun). vm_compute. reflexivity.
Defined.

(** C6, as the code has it.  The clock is read once for every allocation
    whose event meets the report window
    ([event.start <= windowEnd and event.end >= windowStart]), in the
    order of the resources and of their allocations, and the event is
    recorded in the upcoming list of its resource when it starts at or
    after that reading, whether or not it adds hours to the total; an
    event outside the window is not recorded.  So for every page the
    report returns: a recorded event meets the window and starts at or
    after one of the request's readings; an event that meets the window
    and starts at or after all of them is recorded; when the readings are
    one moment [t] the list is the events that meet the window and start
    at or after [t]; and every list is in ascending order of start time.
    The report returns a page when every allocation of a stored resource
    references a stored event, and raises [AttributeError] otherwise. *)
Theorem utilisation_report_upcoming {F : Type} `{PyFloat F} req w ds de :
  method req = POST ->
  date_field (form_get req "start_date") = WellFormed ds ->
  date_field (form_get req "end_date") = WellFormed de ->
  (can_report (session w) = true ->
   exists page w', utilisation_report req w = (Returns page, w'))
  /\ (can_report (session w) = false ->
      fst (utilisation_report req w) = Raises AttributeError)
  /\ (event_integrity (session w) = true -> can_report (session w) = true)
  /\ forall page w',
       utilisation_report req w = (Returns page, w') ->
       map r_resource (p_report_data page) = resources (session w)
       /\ map upcomings (p_report_data page)
          = upcoming_rows (session w) ds (combine_max_time de) (clock w) (ticks w)
                          (resources (session w))
       /\ forall row, In row (p_report_data page) ->
            StronglySorted by_start (r_upcoming row)
            /\ (forall e, In e (r_upcoming row) ->
                  In e (Spec.events_in_window (session w) ds (combine_max_time de)
                                              (resource_id (r_resource row)))
                  /\ exists k, (ticks w <= k < ticks w')%nat /\ start_time e >= clock w k)
            /\ (forall e,
                  In e (Spec.events_in_window (session w) ds (combine_max_time de)
                                              (resource_id (r_resource row))) ->
                  (forall k, (ticks w <= k < ticks w')%nat -> start_time e >= clock w k) ->
                  In e (r_upcoming row))
            /\ (forall t,
                  (forall k, (ticks w <= k < ticks w')%nat -> clock w k = t) ->
                  r_upcoming row
                  = sorted_by_start
                      (Spec.upcoming_events (session w) ds (combine_max_time de) t
                                            (resource_id (r_resource row)))).
Proof.
  intros Hpost Hs He.
  pose proof (utilisation_report_run req w ds de Hpost Hs He) as Hrun.
  split; [ | split; [ | split ] ].
  - intros Hcan. destruct (utilisation_report req w) as [[page|x] w'].
    + now exists page, w'.
    + destruct Hrun as (_ & Hbad). congruence.
  - intros Hcan. destruct (utilisation_report req w) as [[page|x] w'].
    + destruct Hrun as (Hok & _). congruence.
    + destruct Hrun as (-> & _). reflexivity.
  - apply event_integrity_can_report.
  - intros page w' Hp. rewrite Hp in Hrun.
    destruct Hrun as (_ & _ & Hup & _ & _ & _ & _ & _ & _ & Htk).
    split.
    { apply (f_equal (map fst)) in Hup. rewrite map_map, upcoming_rows_resources in Hup.
      exact Hup. }
    split; [ exact Hup | ].
    intros row Hrow.
    assert (Hin : In (upcomings row) (map upcomings (p_report_data page)))
      by (now apply in_map).
    rewrite Hup in Hin. unfold upcomings in Hin.
    apply upcoming_rows_in in Hin. destruct Hin as (k' & Hk & Hlen & Hl).
    rewrite <- Htk in Hlen. rewrite Hl.
    split; [ apply sorted_by_start_sorted | ].
    split; [ | split ].
    + intros e Hin. apply (Permutation_in _ (sorted_by_start_perm _)) in Hin.
      apply upcoming_at_in in Hin. destruct Hin as (Hwin & i & Hi & Hge).
      split; [ exact Hwin | ]. exists i. split; [ lia | exact Hge ].
    + intros e Hwin Hall.
      apply (Permutation_in _ (Permutation_sym (sorted_by_start_perm _))).
      apply upcoming_at_all; [ exact Hwin | ]. intros i Hi. apply Hall. lia.
    + intros t Hfrozen. f_equal. unfold Spec.upcoming_events.
      apply upcoming_at_frozen. intros i Hi. apply Hfrozen. lia.
Qed.

Lemma utilisation_report_upcoming_witness :
  exists page w',
    utilisation_report (H := Binary64.binary64) Sample.report_request_2030
                       (Sample.world_at Sample.db Sample.today) = (Returns page, w')
    /\ map upcomings (p_report_data page)
       = [(Sample.room, []); (Sample.projector, [Sample.launch])].
Proof.
  destruct (utilisation_report_upcoming (H := Binary64.binary64) Sample.report_request_2030
              (Sample.world_at Sample.db Sample.today)
              (Sample.at_ 2030 1 1 0 0) (Sample.at_ 2030 6 30 0 0)
              eq_refl ltac:(vm_compute; reflexivity) ltac:(vm_compute; reflexivity))
    as (Hreturns & _ & _ & Hpage).
  destruct (Hreturns ltac:(vm_compute; reflexivity)) as (page & w' & Hrun).
  exists page, w'. split; [ exact Hrun | ].
  destruct (Hpage page w' Hrun) as (_ & -> & _). vm_compute. reflexivity.
Defined.

(** The launch of 2030 is allocated to the projector and lies in the future
    of the request, yet a report over 2025-01-01 lists no upcoming booking:
    an event outside the window is not recorded. *)
Lemma upcoming_outside_window_omitted :
  exists page w',
    utilisation_report (H := Binary64.binary64) Sample.report_request
                       (Sample.world_at Sample.db Sample.today) = (Returns page, w')
    /\ In (mkAllocation 5 4 2) (allocations_on Sample.db (resource_id Sample.projector))
    /\ event_of Sample.db (mkAllocation 5 4 2) = Some Sample.launch
    /\ start_time Sample.launch >= Sample.today
    /\ map upcomings (p_report_data page) = [(Sample.room, []); (Sample.projector, [])].
Proof.
  eexists. eexists. split; [ vm_compute; reflexivity | ].
  split; [ vm_compute; tauto | ].
  split; [ vm_compute; reflexivity | ].
  split; [ vm_compute; discriminate | ].
  vm_compute. reflexivity.
Qed.

(** With a clock that advances by a microsecond at every reading and
    stands one microsecond before the review's start when the request
    begins, the review is upcoming for the room, read at its start, and not
    for the projector, read a microsecond later. *)
Example advancing_clock_splits_resources :
  exists page,
    fst (utilisation_report (H := Binary64.binary64) Sample.report_request
           (mkWorld Sample.db Sample.db [] []
                    (Sample.running_clock (start_time Sample.review - 1)) 0))
    = Returns page
    /\ map upcomings (p_report_data page)
       = [(Sample.room, [Sample.review]); (Sample.projector, [Sample.night_shift])].
Proof. eexists. split; vm_compute; reflexivity. Qed.

(** C7, as the code has it.  On a POST request: a start or end timestamp
    that [strptime] rejects for ["%Y-%m-%dT%H:%M"] makes [add_event] raise
    [ValueError]; without such a timestamp, a missing or empty one makes it
    flash the validation message and redirect to the form; a missing or
    empty report date makes [utilisation_report] flash its message and
    render an empty report; with both dates present, one that [strptime]
    rejects for ["%Y-%m-%d"] makes it raise [ValueError].  In all four
    cases only the resource list has been read (no allocation, no event:
    nothing is checked or aggregated) and no row is written. *)
Theorem rejected_input_writes_nothing {F : Type} `{PyFloat F} req w :
  method req = POST ->
  (is_malformed (timestamp_field (form_get req "start_time")) = true
   \/ is_malformed (timestamp_field (form_get req "end_time")) = true ->
   add_event req w = (Raises ValueError, after_resources_query w))
  /\ (is_malformed (timestamp_field (form_get req "start_time")) = false ->
      is_malformed (timestamp_field (form_get req "end_time")) = false ->
      is_missing (timestamp_field (form_get req "start_time")) = true
      \/ is_missing (timestamp_field (form_get req "end_time")) = true ->
      add_event req w
      = (Returns (Redirect "add_event"),
         flashed "Title, start time, and end time are required." "danger"
                 (after_resources_query w)))
  /\ (is_missing (date_field (form_get req "start_date")) = true
      \/ is_missing (date_field (form_get req "end_date")) = true ->
      utilisation_report req w
      = (Returns (mkPage (resources (session w)) [] [] (form_get req "start_date")
                         (form_get req "end_date")),
         flashed "Start date and end date are required." "danger"
                 (after_resources_query w)))
  /\ (is_missing (date_field (form_get req "start_date")) = false ->
      is_missing (date_field (form_get req "end_date")) = false ->
      is_malformed (date_field (form_get req "start_date")) = true
      \/ is_malformed (date_field (form_get req "end_date")) = true ->
      utilisation_report req w = (Raises ValueError, after_resources_query w))
  /\ session (after_resources_query w) = session w
  /\ committed (after_resources_query w) = committed w
  /\ (forall m c, session (flashed m c (after_resources_query w)) = session w
                  /\ committed (flashed m c (after_resources_query w)) = committed w
                  /\ reads (flashed m c (after_resources_query w)) = reads w ++ [ReadResources])
  /\ reads (after_resources_query w) = reads w ++ [ReadResources].
Proof.
  intros Hpost.
  split; [ now apply add_event_malformed | ].
  split; [ now apply add_event_missing | ].
  split; [ now apply utilisation_report_missing | ].
  split; [ now apply utilisation_report_malformed | ].
  repeat split.
Qed.

Lemma rejected_input_writes_nothing_witness :
  add_event Sample.add_request_bad_start (Sample.world_at Sample.db Sample.today)
  = (Raises ValueError, after_resources_query (Sample.world_at Sample.db Sample.today))
  /\ add_event Sample.add_request_no_end (Sample.world_at Sample.db Sample.today)
     = (Returns (Redirect "add_event"),
        flashed "Title, start time, and end time are required." "danger"
                (after_resources_query (Sample.world_at Sample.db Sample.today)))
  /\ fst (utilisation_report (H := Binary64.binary64) Sample.report_request_no_end
                             (Sample.world_at Sample.db Sample.today))
     = Returns (mkPage [Sample.room; Sample.projector] [] [] (Some "2025-01-01") None)
  /\ utilisation_report (H := Binary64.binary64) Sample.report_request_bad_end
                        (Sample.world_at Sample.db Sample.today)
     = (Raises ValueError, after_resources_query (Sample.world_at Sample.db Sample.today)).
Proof.
  split; [ | split; [ | split ] ].
  - apply (proj1 (rejected_input_writes_nothing (H := Binary64.binary64)
                    Sample.add_request_bad_start _ eq_refl)).
    left. vm_compute. reflexivity.
  - apply (proj1 (proj2 (rejected_input_writes_nothing (H := Binary64.binary64)
                           Sample.add_request_no_end _ eq_refl))).
    + vm_compute. reflexivity.
    + vm_compute. reflexivity.
    + right. vm_compute. reflexivity.
  - rewrite (proj1 (proj2 (proj2 (rejected_input_writes_nothing (H := Binary64.binary64)
                                    Sample.report_request_no_end
                                    (Sample.world_at Sample.db Sample.today) eq_refl)))).
    + reflexivity.
    + right. vm_compute. reflexivity.
  - apply (proj1 (proj2 (proj2 (proj2 (rejected_input_writes_nothing (H := Binary64.binary64)
                                         Sample.report_request_bad_end _ eq_refl))))).
    + vm_compute. reflexivity.
    + vm_compute. reflexivity.
    + right. vm_compute. reflexivity.
Defined.

(** A timestamp with one-digit fields and a lower-case [t], and dates with
    one-digit fields, do not have the exact patterns [YYYY-MM-DDTHH:MM] and
    [YYYY-MM-DD]; [strptime] accepts them: the event is stored with its
    allocation and the report is computed. *)
Lemma lenient_input_accepted :
  form_get Sample.add_request_lenient "start_time" = Some "2025-2-1t9:05"
  /\ Spec.exact_timestamp_pattern "2025-2-1t9:05" = false
  /\ (exists w',
        add_event Sample.add_request_lenient (Sample.world_at Sample.db Sample.today)
        = (Returns (Redirect "list_events"), w')
        /\ events (committed w')
           = events Sample.db
             ++ [mkEvent (Some 5) "Retro" (Sample.at_ 2025 2 1 9 5) (Sample.at_ 2025 2 1 10 0) None]
        /\ allocations (committed w') = allocations Sample.db ++ [mkAllocation 6 5 1])
  /\ form_get Sample.report_request_short_date "start_date" = Some "2025-1-1"
  /\ Spec.exact_date_pattern "2025-1-1" = false
  /\ (exists page w',
        utilisation_report (H := Binary64.binary64) Sample.report_request_short_date
                           (Sample.world_at Sample.db Sample.today) = (Returns page, w')
        /\ map totals (p_report_data page)
           = [(Sample.room, 5%float); (Sample.projector, 6%float)]).
Proof.
  split; [ reflexivity | ].
  split; [ vm_compute; reflexivity | ].
  split.
  { eexists. split; [ vm_compute; reflexivity | ]. split; vm_compute; reflexivity. }
  split; [ reflexivity | ].
  split; [ vm_compute; reflexivity | ].
  eexists. eexists. split; vm_compute; reflexivity.
Qed.

(** C8, as the code has it.  When [add_event] ends in the redirect to the
    event list, over a store whose allocations all reference stored events,
    the new event is stored under a fresh identifier and its allocations,
    read back, are as many as the identifiers selected in the form, all
    reference the new event, and are bound to the selected resources in the
    order of the selection, an identifier selected twice being bound twice;
    they are bound to distinct resources when the selected identifiers are
    distinct. *)
Theorem add_event_round_trip req w w' :
  event_integrity (session w) = true ->
  add_event req w = (Returns (Redirect "list_events"), w') ->
  exists rids eid,
    all_ints (form_getlist req "resources") = Some rids
    /\ ~ In eid (event_ids (session w))
    /\ (exists event, In event (events (committed w')) /\ event_id event = Some eid)
    /\ List.length (allocations_of_event (committed w') eid)
       = List.length (form_getlist req "resources")
    /\ map alloc_resource_id (allocations_of_event (committed w') eid) = rids
    /\ Forall (fun a => alloc_event_id a = eid) (allocations_of_event (committed w') eid)
    /\ (NoDup rids -> NoDup (map alloc_resource_id (allocations_of_event (committed w') eid))).
Proof.
  intros Hint Hrun.
  destruct (add_event_committed req w w' Hrun) as (rids & event & Hints & Hid & Hdb).
  set (eid := next_id (event_ids (session w))) in *.
  destruct (allocations_of_new_event (session w) event eid rids) as (new & Hnew & Hmap & Hall).
  { intros a Ha. now apply event_integrity_fresh. }
  rewrite <- Hdb in Hnew.
  exists rids, eid. split; [ exact Hints | ].
  split.
  { intros Hin. apply next_id_fresh in Hin. unfold eid in Hin. lia. }
  split.
  { exists event. split; [ | exact Hid ]. rewrite Hdb. cbn [events].
    apply in_or_app. right. now left. }
  rewrite Hnew.
  split.
  { rewrite <- (all_ints_length _ _ Hints), <- Hmap. now rewrite length_map. }
  split; [ exact Hmap | ].
  split; [ exact Hall | ].
  now rewrite Hmap.
Qed.

Lemma add_event_round_trip_witness :
  exists rids,
    all_ints (form_getlist Sample.add_request "resources") = Some rids
    /\ map alloc_resource_id
         (allocations_of_event
            (committed (snd (add_event Sample.add_request
                                       (Sample.world_at Sample.db Sample.today)))) 5)
       = rids
    /\ rids = [1; 2].
Proof.
  destruct (add_event_round_trip Sample.add_request
              (Sample.world_at Sample.db Sample.today)
              (snd (add_event Sample.add_request (Sample.world_at Sample.db Sample.today)))
              ltac:(vm_compute; reflexivity) ltac:(vm_compute; reflexivity))
    as (rids & eid & Hints & _).
  exists rids. split; [ exact Hints | ].
  assert (Hr : rids = [1; 2]).
  { vm_compute in Hints. now inversion Hints. }
  split; [ | exact Hr ]. rewrite Hr. vm_compute. reflexivity.
Defined.

(** The room selected twice in the form: the new event gets two
    allocations, both bound to the room. *)
Lemma duplicate_selection_binds_twice :
  form_getlist Sample.add_request_twice_the_room "resources" = ["1"; "1"]
  /\ exists w',
       add_event Sample.add_request_twice_the_room (Sample.world_at Sample.db Sample.today)
       = (Returns (Redirect "list_events"), w')
       /\ allocations_of_event (committed w') 5 = [mkAllocation 6 5 1; mkAllocation 7 5 1]
       /\ ~ NoDup (map alloc_resource_id (allocations_of_event (committed w') 5)).
Proof.
  split; [ reflexivity | ].
  eexists. split; [ vm_compute; reflexivity | ].
  split; [ vm_compute; reflexivity | ].
  vm_compute. intros Hnd. inversion Hnd as [|x l Hx _]. apply Hx. now left.
Qed.

(** * Further properties of the routes *)

(** ** [add_event], path by path *)

Lemma flash_all_spec cs category w :
  for_each cs (fun c _ => flash c category) tt w = (Returns tt, flashed_all cs category w).
Proof.
  revert w. induction cs as [|c cs IH]; intros w.
  - destruct w as [s cm fl rd ck tk]. unfold flashed_all. cbn. now rewrite app_nil_r.
  - cbn [for_each]. unfold bind at 1. cbn [flash]. rewrite IH.
    unfold flashed_all. cbn. now rewrite <- app_assoc.
Qed.

(** A POST request whose fields are all present and well formed: what
    [add_event] does is decided by the outcome of [check_conflicts]. *)
Lemma add_event_post req w t ds de rids :
  method req = POST ->
  form_get req "title" = Some t -> t <> EmptyString ->
  timestamp_field (form_get req "start_time") = WellFormed ds ->
  timestamp_field (form_get req "end_time") = WellFormed de ->
  all_ints (form_getlist req "resources") = Some rids ->
  add_event req w
  = match check_conflicts (event_of_form req t ds de) rids (after_resources_query w) with
    | (Raises x, w2) => (Raises x, w2)
    | (Returns (m :: ms), w2) =>
        (Returns (EventForm "Add" (resources (session w)) (Some (event_of_form req t ds de)) rids),
         flashed_all (m :: ms) "danger" w2)
    | (Returns [], w2) =>
        (Returns (Redirect "list_events"),
         committed_with (with_new_event (session w2) (event_of_form req t ds de) rids)
                        "Event added successfully!" w2)
    end.
Proof.
  intros Hpost Htitle Hne Hs He Hints. unfold add_event. rewrite Hpost.
  unfold bind at 1.
  change (query_all_resources w) with (Returns (resources (session w)), after_resources_query w).
  cbn iota. unfold bind at 1. rewrite parse_datetime_from_form_spec, Hs.
  unfold bind at 1. rewrite parse_datetime_from_form_spec, He.
  rewrite Htitle. destruct t as [|c t]; [ congruence | ].
  unfold bind at 1. rewrite ints_of_spec, Hints.
  unfold bind at 1. fold (event_of_form req (String c t) ds de).
  destruct (check_conflicts (event_of_form req (String c t) ds de) rids (after_resources_query w))
    as [[[|m ms]|x] w2]; [ | | reflexivity ].
  - unfold bind at 1. unfold session_add_event_and_flush.
    unfold bind at 1. cbn [get_session]. unfold bind at 1. cbn [put_session ret].
    cbn [event_id attr_of]. unfold bind at 1. cbn [ret].
    unfold bind at 1. rewrite add_allocations_loop.
    reflexivity.
  - unfold bind at 1. rewrite flash_all_spec. reflexivity.
Qed.

Lemma add_event_unchanged_or_committed req w o w' :
  add_event req w = (o, w') ->
  o = Returns (Redirect "list_events")
  \/ (session w' = session w /\ committed w' = committed w).
Proof.
  unfold add_event. unfold bind at 1.
  change (query_all_resources w) with (Returns (resources (session w)), after_resources_query w).
  cbn iota.
  destruct (method req);
    [ intros Hrun; inversion Hrun; subst; right; split; reflexivity | ].
  unfold bind at 1. rewrite parse_datetime_from_form_spec.
  destruct (timestamp_field (form_get req "start_time")) as [| |ds];
    try (intros Hrun; inversion Hrun; subst; right; split; reflexivity);
    unfold bind at 1; rewrite parse_datetime_from_form_spec;
    destruct (timestamp_field (form_get req "end_time")) as [| |de];
    try (intros Hrun; inversion Hrun; subst; right; split; reflexivity);
    destruct (form_get req "title") as [[|c t]|];
    try (intros Hrun; inversion Hrun; subst; right; split; reflexivity).
  unfold bind at 1. rewrite ints_of_spec.
  destruct (all_ints (form_getlist req "resources")) as [rids|];
    [ | intros Hrun; inversion Hrun; subst; right; split; reflexivity ].
  unfold bind at 1.
  set (event := mkEvent None (String c t) ds de (form_get req "description")).
  pose proof (check_conflicts_untouched (after_resources_query w) event rids
                (after_resources_query w) (untouched_refl _)) as Hframe.
  destruct (check_conflicts event rids (after_resources_query w)) as [[[|m ms]|x] w2].
  - unfold bind at 1. unfold session_add_event_and_flush.
    unfold bind at 1. cbn [get_session]. unfold bind at 1. cbn [put_session ret].
    cbn [event_id attr_of]. unfold bind at 1. cbn [ret].
    unfold bind at 1. rewrite add_allocations_loop.
    intros Hrun. inversion Hrun. now left.
  - unfold bind at 1. rewrite flash_all_spec.
    intros Hrun. inversion Hrun; subst. right.
    cbn [flashed_all session committed].
    destruct Hframe as (Hs & Hc & _). cbn [session committed after_resources_query] in Hs, Hc.
    split; assumption.
  - intros Hrun. inversion Hrun; subst. right. destruct Hframe as (Hs & Hc & _).
    cbn [session committed after_resources_query] in Hs, Hc. split; assumption.
Qed.

(** What the success path started from. *)
Lemma add_event_success req w w' :
  add_event req w = (Returns (Redirect "list_events"), w') ->
  exists t ds de rids w2,
    method req = POST
    /\ form_get req "title" = Some t /\ t <> EmptyString
    /\ timestamp_field (form_get req "start_time") = WellFormed ds
    /\ timestamp_field (form_get req "end_time") = WellFormed de
    /\ all_ints (form_getlist req "resources") = Some rids
    /\ check_conflicts (event_of_form req t ds de) rids (after_resources_query w)
       = (Returns [], w2)
    /\ w' = committed_with (with_new_event (session w2) (event_of_form req t ds de) rids)
                           "Event added successfully!" w2.
Proof.
  intros Hrun.
  destruct (method req) eqn:Hm.
  { unfold add_event in Hrun. rewrite Hm in Hrun. discriminate. }
  destruct (timestamp_field (form_get req "start_time")) as [| |ds] eqn:Hs.
  - destruct (timestamp_field (form_get req "end_time")) as [| |de] eqn:He.
    + rewrite add_event_missing in Hrun; try discriminate; try rewrite Hs; try rewrite He; auto.
    + rewrite add_event_malformed in Hrun; try discriminate; try rewrite He; auto.
    + rewrite add_event_missing in Hrun; try discriminate; try rewrite Hs; try rewrite He; auto.
  - rewrite add_event_malformed in Hrun; try discriminate; try rewrite Hs; auto.
  - destruct (timestamp_field (form_get req "end_time")) as [| |de] eqn:He.
    + rewrite add_event_missing in Hrun; try discriminate; try rewrite Hs; try rewrite He; auto.
    + rewrite add_event_malformed in Hrun; try discriminate; try rewrite He; auto.
    + destruct (form_get req "title") as [t|] eqn:Ht.
      * destruct (string_dec t EmptyString) as [->|Hne].
        { unfold add_event in Hrun. rewrite Hm in Hrun. unfold bind at 1 in Hrun.
          change (query_all_resources w)
            with (Returns (resources (session w)), after_resources_query w) in Hrun.
          cbn iota in Hrun. unfold bind at 1 in Hrun.
          rewrite parse_datetime_from_form_spec, Hs in Hrun.
          unfold bind at 1 in Hrun. rewrite parse_datetime_from_form_spec, He, Ht in Hrun.
          discriminate. }
        destruct (all_ints (form_getlist req "resources")) as [rids|] eqn:Hints.
        -- rewrite (add_event_post req w t ds de rids Hm Ht Hne Hs He Hints) in Hrun.
           destruct (check_conflicts (event_of_form req t ds de) rids (after_resources_query w))
             as [[[|m ms]|x] w2] eqn:Hcc; try discriminate.
           inversion Hrun; subst w'.
           exists t, ds, de, rids, w2. repeat (split; [ assumption || reflexivity | ]).
           reflexivity.
        -- unfold add_event in Hrun. rewrite Hm in Hrun. unfold bind at 1 in Hrun.
           change (query_all_resources w)
             with (Returns (resources (session w)), after_resources_query w) in Hrun.
           cbn iota in Hrun. unfold bind at 1 in Hrun.
           rewrite parse_datetime_from_form_spec, Hs in Hrun.
           unfold bind at 1 in Hrun. rewrite parse_datetime_from_form_spec, He, Ht in Hrun.
           destruct t as [|c t]; [ congruence | ].
           unfold bind at 1 in Hrun. rewrite ints_of_spec, Hints in Hrun. discriminate.
      * unfold add_event in Hrun. rewrite Hm in Hrun. unfold bind at 1 in Hrun.
        change (query_all_resources w)
          with (Returns (resources (session w)), after_resources_query w) in Hrun.
        cbn iota in Hrun. unfold bind at 1 in Hrun.
        rewrite parse_datetime_from_form_spec, Hs in Hrun.
        unfold bind at 1 in Hrun. rewrite parse_datetime_from_form_spec, He, Ht in Hrun.
        discriminate.
Qed.

(** ** The store after [add_event] *)

Lemma find_app_l {A} (f : A -> bool) (l l' : list A) x :
  find f l = Some x -> find f (l ++ l') = Some x.
Proof.
  induction l as [|a l IH]; cbn; [ discriminate | ].
  destruct (f a); [ auto | exact IH ].
Qed.

Lemma find_app_r {A} (f : A -> bool) (l l' : list A) :
  find f l = None -> find f (l ++ l') = find f l'.
Proof.
  induction l as [|a l IH]; cbn; [ reflexivity | ].
  destruct (f a); [ discriminate | exact IH ].
Qed.

Lemma event_ids_in db e i : In e (events db) -> event_id e = Some i -> In i (event_ids db).
Proof.
  intros He Hi. unfold event_ids. apply in_flat_map. exists e. split; [ exact He | ].
  rewrite Hi. now left.
Qed.

(** No stored event has the next key. *)
Lemma next_event_id_unused db :
  find (fun e => id_eqb (event_id e) (Some (next_id (event_ids db)))) (events db) = None.
Proof.
  destruct (find _ (events db)) as [e|] eqn:Hf; [ exfalso | reflexivity ].
  apply find_some in Hf. destruct Hf as [He Hid]. apply id_eqb_eq in Hid.
  apply (event_ids_in db e _ He) in Hid. apply next_id_fresh in Hid. lia.
Qed.

Section NewEvent.

Variable db : database.
Variable ev : Event.
Variable rids : list Z.

Let eid := next_id (event_ids db).
Let db' := with_new_event db ev rids.

Lemma new_event_old_event_of a e : event_of db a = Some e -> event_of db' a = Some e.
Proof. unfold event_of, db', with_new_event. cbn [events]. apply find_app_l. Qed.

Lemma new_event_resource_of a : resource_of db' a = resource_of db a.
Proof. reflexivity. Qed.

Lemma new_event_event_of a :
  alloc_event_id a = eid -> event_of db' a = Some (with_id eid ev).
Proof.
  intros Ha. unfold event_of, db', with_new_event. cbn [events]. rewrite Ha.
  rewrite find_app_r by apply next_event_id_unused.
  cbn. fold eid. now rewrite Z.eqb_refl.
Qed.

Lemma new_event_allocations :
  exists new,
    allocations db' = allocations db ++ new
    /\ map alloc_resource_id new = rids
    /\ Forall (fun a => alloc_event_id a = eid) new.
Proof.
  unfold db', with_new_event. cbn [allocations]. apply add_allocations_spec.
Qed.

Lemma resource_of_some a :
  In (alloc_resource_id a) (resource_ids db) -> exists r, resource_of db a = Some r.
Proof.
  unfold resource_ids, resource_of. intros Hin. apply in_map_iff in Hin.
  destruct Hin as (r & Hr & Hin).
  destruct (find (fun r0 => resource_id r0 =? alloc_resource_id a) (resources db)) as [r'|] eqn:Hf;
    [ now exists r' | ].
  exfalso. apply (find_none _ _ Hf) in Hin. rewrite Hr, Z.eqb_refl in Hin. discriminate.
Qed.

(** Referential integrity survives the new rows when every selected
    identifier is the key of a stored resource. *)
Lemma new_event_integrity :
  integrity db = true ->
  (forall rid, In rid rids -> In rid (resource_ids db)) ->
  integrity db' = true.
Proof.
  intros Hint Hrids. unfold integrity. apply forallb_forall. intros a Ha.
  destruct new_event_allocations as (new & Hnew & Hmap & Hall).
  rewrite Hnew in Ha. apply in_app_or in Ha. destruct Ha as [Ha | Ha].
  - destruct (integrity_event db a Hint Ha) as [e He].
    destruct (integrity_resource db a Hint Ha) as [r Hr].
    now rewrite (new_event_old_event_of a e He), new_event_resource_of, Hr.
  - rewrite Forall_forall in Hall.
    rewrite (new_event_event_of a (Hall a Ha)), new_event_resource_of.
    destruct (resource_of_some a) as [r ->]; [ | reflexivity ].
    apply Hrids. rewrite <- Hmap. now apply in_map.
Qed.

End NewEvent.

Section NewEventScan.

Variable db : database.
Variable ev : Event.
Variable rids : list Z.

Hypothesis db_integrity : integrity db = true.
Hypothesis ev_new : event_id ev = None.
Hypothesis rids_distinct : NoDup rids.
Hypothesis scan_clean : Spec.scan_all_conflicts db = [].
Hypothesis no_conflict : Spec.conflict_descriptions db ev rids = [].

(** An audit that was clean before a new, conflict-free event with
    distinct resources is clean after it. *)
Lemma new_event_scan_clean : Spec.scan_all_conflicts (with_new_event db ev rids) = [].
Proof.
  destruct (Spec.scan_all_conflicts (with_new_event db ev rids)) as [|c l] eqn:Hscan;
    [ reflexivity | exfalso ].
  assert (Hc : scanned (with_new_event db ev rids) c).
  { apply scan_all_conflicts_in. rewrite Hscan. now left. }
  destruct Hc as (i & j & a1 & a2 & r & Hij & H1 & H2 & Hres & He1 & He2 & Hr1 & Hname & Hlt1 & Hlt2).
  destruct (new_event_allocations db ev rids) as (new & Hnew & Hmap & Hall).
  rewrite Forall_forall in Hall.
  rewrite Hnew in H1, H2.
  set (n := List.length (allocations db)) in *.
  destruct (Nat.lt_ge_cases j n) as [Hj | Hj].
  - (* both rows were there before *)
    rewrite nth_error_app1 in H1 by (fold n; lia).
    rewrite nth_error_app1 in H2 by (fold n; lia).
    assert (Ha1 : In a1 (allocations db)) by (eapply nth_error_In; eassumption).
    assert (Ha2 : In a2 (allocations db)) by (eapply nth_error_In; eassumption).
    destruct (integrity_event db a1 db_integrity Ha1) as [e1 He1'].
    destruct (integrity_event db a2 db_integrity Ha2) as [e2 He2'].
    rewrite (new_event_old_event_of db ev rids a1 e1 He1') in He1.
    rewrite (new_event_old_event_of db ev rids a2 e2 He2') in He2.
    assert (Hin : In c (Spec.scan_all_conflicts db)).
    { apply scanned_in. exists i, j, a1, a2, r.
      rewrite He1', He2'. repeat (split; [ assumption | ]). assumption. }
    rewrite scan_clean in Hin. destruct Hin.
  - rewrite (nth_error_app2 _ _ Hj) in H2. fold n in H2.
    assert (Ha2 : In a2 new) by (eapply nth_error_In; eassumption).
    destruct (Nat.lt_ge_cases i n) as [Hi | Hi].
    + (* an old row and a new one: the checker would have reported it *)
      rewrite nth_error_app1 in H1 by (fold n; lia).
      assert (Ha1 : In a1 (allocations db)) by (eapply nth_error_In; eassumption).
      destruct (integrity_event db a1 db_integrity Ha1) as [e1 He1'].
      destruct (integrity_resource db a1 db_integrity Ha1) as [r1 Hr1'].
      rewrite (new_event_old_event_of db ev rids a1 e1 He1') in He1.
      rewrite (new_event_event_of db ev rids a2 (Hall a2 Ha2)) in He2.
      inversion He1 as [Hc1]. inversion He2 as [Hc2].
      rewrite <- Hc1, <- Hc2 in Hlt1, Hlt2. cbn [with_id start_time end_time] in Hlt1, Hlt2.
      assert (Hin : In (booked_message r1 e1) (Spec.conflict_descriptions db ev rids)).
      { unfold Spec.conflict_descriptions. apply in_flat_map.
        exists (alloc_resource_id a1). split.
        - rewrite Hres, <- Hmap. now apply in_map.
        - apply in_flat_map. exists a1. split.
          + apply filter_In. split; [ now apply allocations_on_in | ].
            rewrite (same_event_spec db ev a1 e1 He1'), (event_of_id db a1 e1 He1'), ev_new.
            reflexivity.
          + unfold Spec.reported. rewrite He1', Hr1'.
            assert (Hov : Spec.overlaps (start_time ev) (end_time ev)
                            (start_time e1) (end_time e1) = true)
              by (apply overlaps_iff; lia).
            rewrite Hov. now left. }
      rewrite no_conflict in Hin. destruct Hin.
    + (* two new rows on one resource: the selection repeats an identifier *)
      rewrite (nth_error_app2 _ _ Hi) in H1. fold n in H1.
      assert (Hk1 : nth_error rids (i - n) = Some (alloc_resource_id a1))
        by (rewrite <- Hmap; now apply map_nth_error).
      assert (Hk2 : nth_error rids (j - n) = Some (alloc_resource_id a2))
        by (rewrite <- Hmap; now apply map_nth_error).
      rewrite NoDup_nth_error in rids_distinct.
      assert (Heq : (i - n = j - n)%nat).
      { apply rids_distinct.
        - apply nth_error_Some. rewrite Hk1. discriminate.
        - rewrite Hk1, Hk2, Hres. reflexivity. }
      lia.
Qed.

End NewEventScan.

Lemma check_conflicts_empty_valid event rids w w2 :
  check_conflicts event rids w = (Returns [], w2) -> start_time event < end_time event.
Proof.
  unfold check_conflicts. destruct (ge (start_time event) (end_time event)) eqn:Hge.
  - discriminate.
  - intros _. now apply ge_false_iff.
Qed.

(** The rows a successful [add_event] leaves. *)
Lemma add_event_success_rows req w w' :
  add_event req w = (Returns (Redirect "list_events"), w') ->
  exists t ds de rids,
    form_get req "title" = Some t /\ t <> EmptyString
    /\ timestamp_field (form_get req "start_time") = WellFormed ds
    /\ timestamp_field (form_get req "end_time") = WellFormed de
    /\ all_ints (form_getlist req "resources") = Some rids
    /\ ds < de
    /\ committed w' = with_new_event (session w) (event_of_form req t ds de) rids
    /\ session w' = committed w'
    /\ (integrity (session w) = true ->
        Spec.conflict_descriptions (session w) (event_of_form req t ds de) rids = []).
Proof.
  intros Hrun.
  destruct (add_event_success req w w' Hrun)
    as (t & ds & de & rids & w2 & Hpost & Ht & Hne & Hs & He & Hints & Hcc & ->).
  exists t, ds, de, rids.
  pose proof (check_conflicts_empty_valid _ _ _ _ Hcc) as Hvalid.
  cbn [event_of_form start_time end_time] in Hvalid.
  pose proof (check_conflicts_untouched (after_resources_query w) (event_of_form req t ds de) rids
                (after_resources_query w) (untouched_refl _)) as Hframe.
  rewrite Hcc in Hframe. destruct Hframe as (Hs2 & _).
  cbn [session after_resources_query] in Hs2.
  repeat (split; [ assumption | ]).
  cbn [committed_with committed session]. rewrite Hs2.
  split; [ reflexivity | split; [ reflexivity | ] ].
  intros _.
  pose proof (check_conflicts_run (event_of_form req t ds de) rids (after_resources_query w)
                Hvalid) as Hr.
  rewrite Hcc in Hr. destruct Hr as (Hc & _). symmetry. exact Hc.
Qed.

(** ** More on [check_conflicts] and the read-only routes *)

(** The audit and the report only read. *)
Lemma scan_pair_untouched w0 l i j conflicts :
  hoare (untouched w0) (scan_pair l i j conflicts) (fun _ => untouched w0) (fun _ => untouched w0).
Proof.
  unfold scan_pair, item.
  destruct (nth_error l i) as [a1|]; [ apply hoare_bind_ret | now apply hoare_bind_raise ].
  destruct (nth_error l j) as [a2|]; [ apply hoare_bind_ret | now apply hoare_bind_raise ].
  destruct (negb (alloc_resource_id a1 =? alloc_resource_id a2)); [ now apply hoare_ret | ].
  eapply hoare_bind.
  { eapply hoare_forget. apply hoare_alloc_event. apply log_stable_untouched. }
  intros o1. eapply hoare_bind.
  { eapply hoare_forget. apply hoare_alloc_event. apply log_stable_untouched. }
  intros o2.
  destruct o1 as [e1|]; cbn [attr_of]; [ apply hoare_bind_ret | now apply hoare_bind_raise ].
  destruct o2 as [e2|]; cbn [attr_of]; [ apply hoare_bind_ret | now apply hoare_bind_raise ].
  destruct (lt (start_time e1) (end_time e2) && gt (end_time e1) (start_time e2));
    [ | now apply hoare_ret ].
  eapply hoare_bind.
  { eapply hoare_forget. apply hoare_alloc_resource. apply log_stable_untouched. }
  intros [r|]; cbn [attr_of]; [ apply hoare_bind_ret; now apply hoare_ret | now apply hoare_bind_raise ].
Qed.

Lemma conflict_view_untouched w0 :
  hoare (untouched w0) conflict_view (fun _ => untouched w0) (fun _ => untouched w0).
Proof.
  unfold conflict_view. eapply hoare_bind.
  { eapply hoare_forget. apply hoare_query_all_allocations. apply log_stable_untouched. }
  intros l. apply (hoare_for_each_keeps _ (fun _ => untouched w0)).
  intros i acc _. apply (hoare_for_each_keeps _ (fun _ => untouched w0)).
  intros j acc' _. apply scan_pair_untouched.
Qed.

Lemma log_stable_rows_kept w0 : log_stable (rows_kept w0).
Proof. intros w rs Hw. exact Hw. Qed.

Lemma tick_stable_rows_kept w0 : tick_stable (rows_kept w0).
Proof. intros w t Hw. exact Hw. Qed.

Lemma rows_kept_refl w : rows_kept w w.
Proof. repeat split. Qed.

Lemma hoare_flash_rows_kept w0 m c :
  hoare (rows_kept w0) (flash m c) (fun _ => rows_kept w0) (fun _ => rows_kept w0).
Proof. intros w Hw. exact Hw. Qed.

Section ReportReadOnly.

Context {F : Type} `{PyFloat F}.
Variable w0 : world.

Lemma report_alloc_rows_kept ws we a acc :
  hoare (rows_kept w0) (report_alloc ws we a acc) (fun _ => rows_kept w0) (fun _ => rows_kept w0).
Proof.
  destruct acc as [th ru]. unfold report_alloc.
  eapply hoare_bind.
  { eapply hoare_forget. apply hoare_alloc_event. apply log_stable_rows_kept. }
  intros [e|]; cbn [attr_of]; [ apply hoare_bind_ret | now apply hoare_bind_raise ].
  destruct (le (start_time e) we && ge (end_time e) ws); [ | now apply hoare_ret ].
  eapply hoare_bind.
  { eapply hoare_forget. apply hoare_now. apply tick_stable_rows_kept. }
  intros t. destruct (ge (start_time e) t); now apply hoare_ret.
Qed.

Lemma report_resource_rows_kept ws we r rows :
  hoare (rows_kept w0) (report_resource ws we r rows)
        (fun _ => rows_kept w0) (fun _ => rows_kept w0).
Proof.
  unfold report_resource. eapply hoare_bind.
  { eapply hoare_forget. apply hoare_resource_allocations. apply log_stable_rows_kept. }
  intros l. eapply hoare_bind.
  { apply (hoare_for_each_keeps _ (fun _ => rows_kept w0)).
    intros a acc _. apply report_alloc_rows_kept. }
  intros [th ru]. now apply hoare_ret.
Qed.

Lemma utilisation_report_rows_kept req :
  hoare (rows_kept w0) (utilisation_report req) (fun _ => rows_kept w0) (fun _ => rows_kept w0).
Proof.
  unfold utilisation_report. eapply hoare_bind.
  { eapply hoare_forget. apply hoare_query_all_resources. apply log_stable_rows_kept. }
  intros rs. destruct (method req); [ now apply hoare_ret | ].
  destruct (form_get req "start_date") as [[|c1 s1]|];
    destruct (form_get req "end_date") as [[|c2 s2]|];
    try (eapply hoare_bind;
         [ apply hoare_flash_rows_kept | intros u; apply hoare_ret; intros w Hw; exact Hw ]).
  destruct (strptime_date (String c1 s1)); cbn [or_value_error];
    [ apply hoare_bind_ret | now apply hoare_bind_raise ].
  destruct (strptime_date (String c2 s2)); cbn [or_value_error];
    [ apply hoare_bind_ret | now apply hoare_bind_raise ].
  eapply hoare_bind.
  { apply (hoare_for_each_keeps _ (fun _ => rows_kept w0)).
    intros r rows _. apply report_resource_rows_kept. }
  intros rows. now apply hoare_ret.
Qed.

End ReportReadOnly.

Lemma flat_map_length_le {A B} (f : A -> list B) (l : list A) :
  (forall a, (List.length (f a) <= 1)%nat) ->
  (List.length (flat_map f l) <= List.length l)%nat.
Proof.
  intros Hf. induction l as [|a l IH]; cbn; [ lia | ].
  rewrite length_app. specialize (Hf a). lia.
Qed.

Lemma verdict_at_length db ij : (List.length (Spec.verdict_at db ij) <= 1)%nat.
Proof.
  unfold Spec.verdict_at, Spec.pair_verdict.
  destruct (nth_error (allocations db) (fst ij)) as [a1|]; [ | cbn; lia ].
  destruct (nth_error (allocations db) (snd ij)) as [a2|]; [ | cbn; lia ].
  destruct (alloc_resource_id a1 =? alloc_resource_id a2); [ | cbn; lia ].
  destruct (event_of db a1); [ | cbn; lia ].
  destruct (event_of db a2); [ | cbn; lia ].
  destruct (resource_of db a1); [ | cbn; lia ].
  destruct (Spec.overlaps _ _ _ _); cbn; lia.
Qed.

Section ReportDurations.

Context {F : Type} `{PyFloat F}.
Variable db : database.
Variables windowStart windowEnd : datetime.

Lemma hours_term_inside a e :
  event_of db a = Some e ->
  windowStart <= start_time e -> start_time e < end_time e -> end_time e <= windowEnd ->
  hours_term db windowStart windowEnd a = [duration_hours e].
Proof.
  intros He H1 H2 H3. unfold hours_term. rewrite He.
  assert (Hin : (start_time e <=? windowEnd) && (end_time e >=? windowStart) = true).
  { apply andb_true_iff. split; [ apply Z.leb_le; lia | rewrite Z.geb_leb; apply Z.leb_le; lia ]. }
  rewrite Hin. cbn [flat_map app].
  assert (Hw : Spec.clipped_width windowStart windowEnd e = end_time e - start_time e).
  { unfold Spec.clipped_width. lia. }
  rewrite Hw.
  assert (Hpos : (0 <? end_time e - start_time e) = true) by (apply Z.ltb_lt; lia).
  rewrite Hpos. reflexivity.
Qed.

Lemma hours_term_outside a e :
  event_of db a = Some e ->
  end_time e < windowStart \/ windowEnd < start_time e ->
  hours_term db windowStart windowEnd a = [].
Proof.
  intros He Hout. unfold hours_term. rewrite He.
  assert (Hin : (start_time e <=? windowEnd) && (end_time e >=? windowStart) = false).
  { apply andb_false_iff. destruct Hout as [Hout | Hout].
    - right. rewrite Z.geb_leb. apply Z.leb_gt. lia.
    - left. apply Z.leb_gt. lia. }
  now rewrite Hin.
Qed.

Lemma events_on_in rid e :
  In e (events_on db rid) <-> exists a, In a (allocations_on db rid) /\ event_of db a = Some e.
Proof.
  unfold events_on. rewrite in_flat_map. split; intros (a & Ha & He); exists a; split; auto.
  - destruct (event_of db a) as [e'|]; [ | destruct He ].
    destruct He as [-> | []]. reflexivity.
  - rewrite He. now left.
Qed.

Lemma total_hours_inside rid :
  (forall e, In e (events_on db rid) ->
     windowStart <= start_time e /\ start_time e < end_time e /\ end_time e <= windowEnd) ->
  Spec.total_hours db windowStart windowEnd rid
  = fold_left float_add (map duration_hours (events_on db rid)) float_zero.
Proof.
  intros Hin. rewrite total_hours_terms. unfold events_on in *.
  generalize float_zero.
  induction (allocations_on db rid) as [|a l IH]; intros th; cbn [fold_left flat_map map];
    [ reflexivity | ].
  rewrite map_app, fold_left_app.
  assert (Hl : forall e, In e (flat_map (fun a => match event_of db a with
                                                  | Some e => [e] | None => [] end) l) ->
               windowStart <= start_time e /\ start_time e < end_time e
               /\ end_time e <= windowEnd).
  { intros e He. apply Hin. cbn [flat_map]. apply in_or_app. now right. }
  rewrite (IH Hl). f_equal.
  destruct (event_of db a) as [e|] eqn:He.
  - destruct (Hin e) as (H1 & H2 & H3).
    { cbn [flat_map]. rewrite He. apply in_or_app. left. now left. }
    rewrite (hours_term_inside a e He H1 H2 H3). reflexivity.
  - unfold hours_term. rewrite He. reflexivity.
Qed.

Lemma total_hours_outside rid :
  (forall e, In e (events_on db rid) -> end_time e < windowStart \/ windowEnd < start_time e) ->
  Spec.total_hours db windowStart windowEnd rid = float_zero.
Proof.
  intros Hout. rewrite total_hours_terms. unfold events_on in *.
  generalize float_zero.
  induction (allocations_on db rid) as [|a l IH]; intros th; cbn [fold_left]; [ reflexivity | ].
  assert (Hl : forall e, In e (flat_map (fun a => match event_of db a with
                                                  | Some e => [e] | None => [] end) l) ->
               end_time e < windowStart \/ windowEnd < start_time e).
  { intros e He. apply Hout. cbn [flat_map]. apply in_or_app. now right. }
  rewrite (IH Hl).
  destruct (event_of db a) as [e|] eqn:He.
  - rewrite (hours_term_outside a e He); [ reflexivity | ].
    apply Hout. cbn [flat_map]. rewrite He. apply in_or_app. left. now left.
  - unfold hours_term. rewrite He. reflexivity.
Qed.

End ReportDurations.

(** The totals of a report, row by row. *)
Lemma utilisation_report_totals {F : Type} `{PyFloat F} req w ds de :
  integrity (session w) = true ->
  method req = POST ->
  date_field (form_get req "start_date") = WellFormed ds ->
  date_field (form_get req "end_date") = WellFormed de ->
  exists page w',
    utilisation_report req w = (Returns page, w')
    /\ map totals (p_report_data page)
       = map (fun r => (r, round2 (Spec.total_hours (session w) ds (combine_max_time de)
                                                    (resource_id r))))
             (resources (session w)).
Proof.
  intros Hint Hpost Hs He.
  pose proof (utilisation_report_run req w ds de Hpost Hs He) as Hrun.
  destruct (utilisation_report req w) as [[page|x] w'].
  - exists page, w'. split; [ reflexivity | tauto ].
  - destruct Hrun as (_ & Hbad).
    rewrite (event_integrity_can_report _ (integrity_event_integrity _ Hint)) in Hbad.
    discriminate.
Qed.

(** ** The resource routes *)

Lemma add_resource_post req w n t :
  method req = POST ->
  form_get req "resource_name" = Some n -> n <> EmptyString ->
  form_get req "resource_type" = Some t -> t <> EmptyString ->
  add_resource req w
  = (Returns (RedirectTo "list_resources" None),
     committed_with (with_new_resource (session w) n t) "Resource added successfully!" w).
Proof.
  intros Hpost Hn Hne Ht Hte. unfold add_resource. rewrite Hpost, Hn, Ht.
  destruct n as [|c1 n]; [ congruence | ]. destruct t as [|c2 t]; [ congruence | ].
  reflexivity.
Qed.

Lemma add_resource_blank req w :
  method req = POST ->
  PyBuiltins.truthy (form_get req "resource_name") = false
  \/ PyBuiltins.truthy (form_get req "resource_type") = false ->
  add_resource req w
  = (Returns (RedirectTo "add_resource" None),
     flashed "Resource name and type are required." "danger" w).
Proof.
  intros Hpost Hblank. unfold add_resource. rewrite Hpost.
  destruct (form_get req "resource_name") as [[|c1 n]|];
    destruct (form_get req "resource_type") as [[|c2 t]|];
    try reflexivity.
  destruct Hblank; discriminate.
Qed.

Lemma next_resource_id_unused db :
  find (fun r => resource_id r =? next_id (map resource_id (resources db))) (resources db) = None.
Proof.
  destruct (find _ (resources db)) as [r|] eqn:Hf; [ exfalso | reflexivity ].
  apply find_some in Hf. destruct Hf as [Hr Hid]. apply Z.eqb_eq in Hid.
  assert (Hin : In (resource_id r) (map resource_id (resources db))) by (now apply in_map).
  apply next_id_fresh in Hin. lia.
Qed.

Lemma get_new_resource db n t :
  get_resource (with_new_resource db n t) (resource_id (new_resource db n t))
  = Some (new_resource db n t).
Proof.
  unfold get_resource, with_new_resource. cbn [resources new_resource resource_id].
  rewrite find_app_r by apply next_resource_id_unused.
  cbn. now rewrite Z.eqb_refl.
Qed.

Lemma with_new_resource_integrity db n t :
  integrity db = true -> integrity (with_new_resource db n t) = true.
Proof.
  intros Hint. unfold integrity. apply forallb_forall. intros a Ha.
  cbn [with_new_resource allocations] in Ha.
  destruct (integrity_event db a Hint Ha) as [e He].
  destruct (integrity_resource db a Hint Ha) as [r Hr].
  unfold event_of, resource_of in *. cbn [with_new_resource events resources].
  rewrite He, (find_app_l _ _ _ r Hr). reflexivity.
Qed.

(** Lookups in the rewritten resource table. *)
Lemma find_update_resource rid n t rows k :
  find (fun r => resource_id r =? k) (update_resource rid n t rows)
  = option_map (fun r => if resource_id r =? rid then mkResource (resource_id r) n t else r)
               (find (fun r => resource_id r =? k) rows).
Proof.
  induction rows as [|r rows IH]; cbn [update_resource map find option_map]; [ reflexivity | ].
  fold (update_resource rid n t rows).
  assert (Hid : resource_id (if resource_id r =? rid then mkResource (resource_id r) n t else r)
                = resource_id r) by (destruct (resource_id r =? rid); reflexivity).
  rewrite Hid. destruct (resource_id r =? k); [ reflexivity | exact IH ].
Qed.

Lemma with_resource_integrity db rid n t :
  integrity db = true -> integrity (with_resource db rid n t) = true.
Proof.
  intros Hint. unfold integrity. apply forallb_forall. intros a Ha.
  cbn [with_resource allocations] in Ha.
  destruct (integrity_event db a Hint Ha) as [e He].
  destruct (integrity_resource db a Hint Ha) as [r Hr].
  unfold event_of, resource_of in *. cbn [with_resource events resources].
  rewrite He, find_update_resource, Hr. reflexivity.
Qed.

(** The lookups of [get_or_404]. *)
Lemma resource_get_or_404_found rid w r :
  get_resource (session w) rid = Some r ->
  resource_get_or_404 rid w = (Returns (Some r), logged (ReadResource rid) w).
Proof.
  intros Hget. unfold resource_get_or_404. unfold bind at 1. cbn [get_session].
  now rewrite Hget.
Qed.

Lemma resource_get_or_404_missing rid w :
  get_resource (session w) rid = None ->
  resource_get_or_404 rid w
  = if sqlite_integer rid then (Returns None, logged (ReadResource rid) w)
    else (Raises OverflowError, w).
Proof.
  intros Hget. unfold resource_get_or_404. unfold bind at 1. cbn [get_session].
  rewrite Hget. unfold bind at 1. unfold bind_parameter.
  now destruct (sqlite_integer rid).
Qed.

Lemma event_get_or_404_found eid w e :
  get_event (session w) eid = Some e ->
  event_get_or_404 eid w = (Returns (Some e), logged (ReadEvent eid) w).
Proof.
  intros Hget. unfold event_get_or_404. unfold bind at 1. cbn [get_session].
  now rewrite Hget.
Qed.

Lemma event_get_or_404_missing eid w :
  get_event (session w) eid = None ->
  event_get_or_404 eid w
  = if sqlite_integer eid then (Returns None, logged (ReadEvent eid) w)
    else (Raises OverflowError, w).
Proof.
  intros Hget. unfold event_get_or_404. unfold bind at 1. cbn [get_session].
  rewrite Hget. unfold bind at 1. unfold bind_parameter.
  now destruct (sqlite_integer eid).
Qed.

Lemma edit_resource_post req w rid r n t :
  get_resource (session w) rid = Some r ->
  method req = POST ->
  form_get req "resource_name" = Some n -> n <> EmptyString ->
  form_get req "resource_type" = Some t -> t <> EmptyString ->
  edit_resource req rid w
  = (Returns (RedirectTo "list_resources" None),
     committed_with (with_resource (session w) rid n t) "Resource updated successfully!"
                    (logged (ReadResource rid) w)).
Proof.
  intros Hget Hpost Hn Hne Ht Hte. unfold edit_resource.
  unfold bind at 1. rewrite (resource_get_or_404_found rid w r Hget). cbn iota.
  rewrite Hpost, Hn, Ht.
  destruct n as [|c1 n]; [ congruence | ]. destruct t as [|c2 t]; [ congruence | ].
  reflexivity.
Qed.

Lemma edit_resource_missing req rid w :
  get_resource (session w) rid = None ->
  edit_resource req rid w
  = if sqlite_integer rid then (Returns NotFound404, logged (ReadResource rid) w)
    else (Raises OverflowError, w).
Proof.
  intros Hget. unfold edit_resource. unfold bind at 1.
  rewrite (resource_get_or_404_missing rid w Hget).
  now destruct (sqlite_integer rid).
Qed.

(** ** [edit_event] *)

Lemma edit_event_post req eid w old :
  get_event (session w) eid = Some old ->
  method req = POST ->
  edit_event req eid w
  = match timestamp_field (form_get req "start_time"),
          timestamp_field (form_get req "end_time"),
          all_ints (form_getlist req "resources") with
    | Malformed, _, _ => (Raises ValueError, after_resources_query (logged (ReadEvent eid) w))
    | _, Malformed, _ => (Raises ValueError, after_resources_query (logged (ReadEvent eid) w))
    | _, _, None => (Raises ValueError, after_resources_query (logged (ReadEvent eid) w))
    | s, e, Some rids =>
        match form_get req "title", s, e with
        | Some (String c t), WellFormed ds, WellFormed de =>
            edit_event_after_check (edited_event req eid (String c t) ds de) eid rids
              (resources (session w))
              (check_conflicts (edited_event req eid (String c t) ds de) rids
                 (with_session (with_event (session w) (edited_event req eid (String c t) ds de))
                               (after_resources_query (logged (ReadEvent eid) w))))
        | _, _, _ =>
            (Returns (RedirectTo "edit_event" (Some eid)),
             flashed "Title, start time, and end time are required." "danger"
                     (after_resources_query (logged (ReadEvent eid) w)))
        end
    end.
Proof.
  intros Hget Hpost. unfold edit_event. unfold bind at 1.
  rewrite (event_get_or_404_found eid w old Hget). cbn iota.
  unfold bind at 1.
  change (query_all_resources (logged (ReadEvent eid) w))
    with (Returns (resources (session w)), after_resources_query (logged (ReadEvent eid) w)).
  cbn iota. rewrite Hpost.
  unfold bind at 1. rewrite parse_datetime_from_form_spec.
  destruct (timestamp_field (form_get req "start_time")) as [| |ds]; try reflexivity;
    unfold bind at 1; rewrite parse_datetime_from_form_spec;
    destruct (timestamp_field (form_get req "end_time")) as [| |de]; try reflexivity;
    unfold bind at 1; rewrite ints_of_spec;
    destruct (all_ints (form_getlist req "resources")) as [rids|]; try reflexivity;
    destruct (form_get req "title") as [[|c t]|]; try reflexivity.
  fold (edited_event req eid (String c t) ds de).
  unfold bind at 1. cbn [session_update_event]. unfold session_update_event.
  unfold bind at 1. cbn [get_session]. cbn [put_session].
  unfold bind at 1.
  change (mkWorld
            (mkDatabase (update_event (edited_event req eid (String c t) ds de)
                                      (events (session (after_resources_query (logged (ReadEvent eid) w)))))
                        (resources (session (after_resources_query (logged (ReadEvent eid) w))))
                        (allocations (session (after_resources_query (logged (ReadEvent eid) w)))))
            (committed (after_resources_query (logged (ReadEvent eid) w))) (flashes (after_resources_query (logged (ReadEvent eid) w)))
            (reads (after_resources_query (logged (ReadEvent eid) w))) (clock (after_resources_query (logged (ReadEvent eid) w)))
            (ticks (after_resources_query (logged (ReadEvent eid) w))))
    with (with_session (with_event (session w) (edited_event req eid (String c t) ds de))
                       (after_resources_query (logged (ReadEvent eid) w))).
  destruct (check_conflicts _ rids _) as [[[|m ms]|x] w2]; cbn [edit_event_after_check].
  - unfold bind at 1. unfold session_delete_allocations_of.
    unfold bind at 1. cbn [get_session put_session].
    unfold bind at 1. rewrite add_allocations_loop.
    reflexivity.
  - unfold bind at 1. rewrite flash_all_spec. reflexivity.
  - reflexivity.
Qed.

(** Lookups in the rewritten event table. *)
Lemma find_update_event e rows k :
  find (fun x => id_eqb (event_id x) (Some k)) (update_event e rows)
  = option_map (fun x => if id_eqb (event_id x) (event_id e) then e else x)
               (find (fun x => id_eqb (event_id x) (Some k)) rows).
Proof.
  induction rows as [|x rows IH]; cbn [update_event map find option_map]; [ reflexivity | ].
  fold (update_event e rows).
  assert (Hid : event_id (if id_eqb (event_id x) (event_id e) then e else x) = event_id x).
  { destruct (id_eqb (event_id x) (event_id e)) eqn:Heq; [ | reflexivity ].
    apply id_eqb_eq in Heq. now rewrite Heq. }
  rewrite Hid. destruct (id_eqb (event_id x) (Some k)); [ reflexivity | exact IH ].
Qed.

Lemma get_event_id db k e : get_event db k = Some e -> event_id e = Some k.
Proof.
  unfold get_event. intros Hf. apply find_some in Hf. destruct Hf as [_ Hid].
  now apply id_eqb_eq in Hid.
Qed.

Lemma filter_other_event (l : list EventResourceAllocation) eid k :
  k <> eid ->
  filter (fun a => alloc_event_id a =? k) (filter (fun a => negb (alloc_event_id a =? eid)) l)
  = filter (fun a => alloc_event_id a =? k) l.
Proof.
  intros Hk. induction l as [|a l IH]; [ reflexivity | ].
  cbn [filter].
  destruct (Z.eqb_spec (alloc_event_id a) eid) as [Heq|Hne];
    destruct (Z.eqb_spec (alloc_event_id a) k) as [Heq'|Hne']; cbn [negb filter].
  - congruence.
  - exact IH.
  - destruct (Z.eqb_spec (alloc_event_id a) k); [ now rewrite IH | contradiction ].
  - destruct (Z.eqb_spec (alloc_event_id a) k); [ contradiction | exact IH ].
Qed.

Section EditedRows.

Variable db : database.
Variable e : Event.
Variable eid : Z.
Hypothesis e_id : event_id e = Some eid.

Lemma get_edited_event old : get_event db eid = Some old -> get_event (with_event db e) eid = Some e.
Proof.
  intros Hget. unfold get_event, with_event in *. cbn [events].
  rewrite find_update_event, Hget. cbn [option_map].
  rewrite (get_event_id db eid old Hget), e_id. cbn. now rewrite Z.eqb_refl.
Qed.

Lemma get_other_event k : k <> eid -> get_event (with_event db e) k = get_event db k.
Proof.
  intros Hk. unfold get_event, with_event. cbn [events]. rewrite find_update_event.
  destruct (find (fun x => id_eqb (event_id x) (Some k)) (events db)) as [x|] eqn:Hf;
    [ | reflexivity ].
  cbn [option_map]. apply find_some in Hf. destruct Hf as [_ Hid]. apply id_eqb_eq in Hid.
  rewrite Hid, e_id. cbn. destruct (Z.eqb_spec k eid); [ contradiction | reflexivity ].
Qed.

Lemma event_of_edited a :
  event_of (with_event db e) a
  = if alloc_event_id a =? eid
    then option_map (fun _ => e) (event_of db a)
    else event_of db a.
Proof.
  unfold event_of, with_event. cbn [events]. rewrite find_update_event.
  destruct (find (fun x => id_eqb (event_id x) (Some (alloc_event_id a))) (events db))
    as [x|] eqn:Hf; cbn [option_map].
  - apply find_some in Hf. destruct Hf as [_ Hid]. apply id_eqb_eq in Hid.
    rewrite Hid, e_id. cbn. destruct (alloc_event_id a =? eid); reflexivity.
  - destruct (alloc_event_id a =? eid); reflexivity.
Qed.

Lemma with_event_integrity : integrity db = true -> integrity (with_event db e) = true.
Proof.
  intros Hint. unfold integrity. apply forallb_forall. intros a Ha.
  cbn [with_event allocations] in Ha.
  destruct (integrity_event db a Hint Ha) as [x Hx].
  destruct (integrity_resource db a Hint Ha) as [r Hr].
  rewrite event_of_edited, Hx.
  change (resource_of (with_event db e) a) with (resource_of db a). rewrite Hr.
  destruct (alloc_event_id a =? eid); reflexivity.
Qed.

(** The allocations after the replacement: those of the event are the new
    ones, those of the other events are the old ones. *)
Lemma replaced_allocations_of_event rids :
  map alloc_resource_id (allocations_of_event (with_allocations_replaced db eid rids) eid) = rids
  /\ Forall (fun a => alloc_event_id a = eid)
            (allocations_of_event (with_allocations_replaced db eid rids) eid).
Proof.
  unfold allocations_of_event, with_allocations_replaced. cbn [allocations].
  destruct (add_allocations_spec
              (filter (fun a => negb (alloc_event_id a =? eid)) (allocations db)) eid rids)
    as (new & Hnew & Hmap & Hall).
  rewrite Hnew, filter_app.
  rewrite (filter_none (fun a => alloc_event_id a =? eid)
             (filter (fun a => negb (alloc_event_id a =? eid)) (allocations db))).
  2: { intros a Ha. apply filter_In in Ha. destruct Ha as [_ Ha].
       now apply negb_true_iff in Ha. }
  cbn [app]. rewrite filter_all; [ split; assumption | ].
  intros a Ha. rewrite Forall_forall in Hall. rewrite (Hall a Ha). apply Z.eqb_refl.
Qed.

Lemma replaced_allocations_of_other rids k :
  k <> eid ->
  allocations_of_event (with_allocations_replaced db eid rids) k = allocations_of_event db k.
Proof.
  intros Hk. unfold allocations_of_event, with_allocations_replaced. cbn [allocations].
  destruct (add_allocations_spec
              (filter (fun a => negb (alloc_event_id a =? eid)) (allocations db)) eid rids)
    as (new & Hnew & Hmap & Hall).
  rewrite Hnew, filter_app.
  rewrite (filter_none (fun a => alloc_event_id a =? k) new).
  2: { intros a Ha. rewrite Forall_forall in Hall. rewrite (Hall a Ha).
       apply Z.eqb_neq. congruence. }
  rewrite app_nil_r. now apply filter_other_event.
Qed.

End EditedRows.

Lemma edit_event_no_event req eid w :
  get_event (session w) eid = None ->
  edit_event req eid w
  = if sqlite_integer eid then (Returns NotFound404, logged (ReadEvent eid) w)
    else (Raises OverflowError, w).
Proof.
  intros Hget. unfold edit_event. unfold bind at 1.
  rewrite (event_get_or_404_missing eid w Hget).
  now destruct (sqlite_integer eid).
Qed.

Lemma edit_event_get req eid w old :
  get_event (session w) eid = Some old ->
  method req = GET ->
  edit_event req eid w
  = (Returns (EventFormPage "Edit" (resources (session w)) (Some old)
                (map alloc_resource_id (allocations_of_event (session w) eid))),
     logged (ReadAllocationsOf eid) (after_resources_query (logged (ReadEvent eid) w))).
Proof.
  intros Hget Hm. unfold edit_event. unfold bind at 1.
  rewrite (event_get_or_404_found eid w old Hget). cbn iota.
  unfold bind at 1.
  change (query_all_resources (logged (ReadEvent eid) w))
    with (Returns (resources (session w)), after_resources_query (logged (ReadEvent eid) w)).
  cbn iota. now rewrite Hm.
Qed.

(** What the success path of [edit_event] started from and what it leaves. *)
Lemma edit_event_success req eid w w' :
  edit_event req eid w = (Returns (RedirectTo "list_events" None), w') ->
  exists old t ds de rids,
    get_event (session w) eid = Some old
    /\ form_get req "title" = Some t /\ t <> EmptyString
    /\ timestamp_field (form_get req "start_time") = WellFormed ds
    /\ timestamp_field (form_get req "end_time") = WellFormed de
    /\ all_ints (form_getlist req "resources") = Some rids
    /\ ds < de
    /\ committed w'
       = with_allocations_replaced (with_event (session w) (edited_event req eid t ds de)) eid rids
    /\ session w' = committed w'.
Proof.
  intros Hrun.
  destruct (get_event (session w) eid) as [old|] eqn:Hget;
    [ | rewrite (edit_event_no_event req eid w Hget) in Hrun;
        destruct (sqlite_integer eid); discriminate ].
  destruct (method req) eqn:Hm;
    [ rewrite (edit_event_get req eid w old Hget Hm) in Hrun; discriminate | ].
  rewrite (edit_event_post req eid w old Hget Hm) in Hrun.
  destruct (timestamp_field (form_get req "start_time")) as [| |ds] eqn:Hs;
    destruct (timestamp_field (form_get req "end_time")) as [| |de] eqn:He;
    destruct (all_ints (form_getlist req "resources")) as [rids|] eqn:Hints;
    try discriminate;
    destruct (form_get req "title") as [[|c t]|] eqn:Ht; try discriminate.
  set (ev := edited_event req eid (String c t) ds de) in *.
  set (w1 := with_session (with_event (session w) ev) (after_resources_query (logged (ReadEvent eid) w))) in *.
  pose proof (check_conflicts_untouched w1 ev rids w1 (untouched_refl _)) as Hframe.
  change (edit_event_after_check ev eid rids (resources (session w))
            (check_conflicts ev rids w1) = (Returns (RedirectTo "list_events" None), w')) in Hrun.
  destruct (check_conflicts ev rids w1) as [[[|m ms]|x] w2] eqn:Hcc;
    cbn [edit_event_after_check] in Hrun; try discriminate.
  injection Hrun as Hw'. subst w'.
  destruct Hframe as (Hs2 & _). cbn [session w1 with_session] in Hs2.
  pose proof (check_conflicts_empty_valid _ _ _ _ Hcc) as Hvalid.
  cbn [ev edited_event start_time end_time] in Hvalid.
  exists old, (String c t), ds, de, rids.
  repeat (split; [ first [ reflexivity | assumption | discriminate ] | ]).
  cbn [committed_with committed session]. rewrite Hs2.
  split; reflexivity.
Qed.

(** Past the overlap check, the edit either redirects to the list or
    leaves the committed rows as the check left them. *)
Lemma edit_event_after_check_committed e eid rids rs checked :
  fst (edit_event_after_check e eid rids rs checked)
  = Returns (RedirectTo "list_events" None)
  \/ committed (snd (edit_event_after_check e eid rids rs checked))
     = committed (snd checked).
Proof.
  destruct checked as [[[|m ms]|x] w2]; cbn [edit_event_after_check fst snd].
  - now left.
  - right. reflexivity.
  - now right.
Qed.

(** The overlap check leaves the committed rows alone, whatever it answers. *)
Lemma check_conflicts_committed event resource_ids w :
  committed (snd (check_conflicts event resource_ids w)) = committed w.
Proof.
  pose proof (check_conflicts_untouched w event resource_ids w (untouched_refl _)) as H.
  destruct (check_conflicts event resource_ids w) as [[cs|x] w'];
    destruct H as (_ & Hc & _); exact Hc.
Qed.

(** ** [edit_event] past validation *)

Section EditedCheck.

Variable db : database.
Variable e : Event.
Variable eid : Z.
Hypothesis e_id : event_id e = Some eid.
Hypothesis db_integrity : integrity db = true.

(** Once the edited row is flushed, the allocations the checker skips as
    the event's own are those that carry its key. *)
Lemma same_event_edited a :
  In a (allocations db) ->
  Spec.same_event (with_event db e) e a = (alloc_event_id a =? eid).
Proof.
  intros Ha. unfold Spec.same_event. rewrite (event_of_edited db e eid e_id).
  destruct (integrity_event db a db_integrity Ha) as [x Hx]. rewrite Hx.
  assert (Hid : event_id x = Some (alloc_event_id a)).
  { unfold event_of in Hx. apply find_some in Hx. destruct Hx as [_ Hid].
    now apply id_eqb_eq in Hid. }
  destruct (Z.eqb_spec (alloc_event_id a) eid) as [Heq|Hne]; cbn [option_map].
  - rewrite e_id. cbn. apply Z.eqb_refl.
  - rewrite Hid, e_id. cbn. now apply Z.eqb_neq.
Qed.

Lemma reported_edited a :
  (alloc_event_id a =? eid) = false ->
  Spec.reported (with_event db e) e a = Spec.reported db e a.
Proof.
  intros Hne. unfold Spec.reported. rewrite (event_of_edited db e eid e_id), Hne. reflexivity.
Qed.

Lemma conflict_descriptions_edited rids :
  Spec.conflict_descriptions (with_event db e) e rids = edit_conflicts db e eid rids.
Proof.
  unfold Spec.conflict_descriptions, edit_conflicts, others_on.
  apply flat_map_ext_in. intros rid _.
  change (allocations_on (with_event db e) rid) with (allocations_on db rid).
  rewrite (filter_ext_in (fun a => negb (Spec.same_event (with_event db e) e a))
                         (fun a => negb (alloc_event_id a =? eid))).
  - apply flat_map_ext_in. intros a Ha. apply filter_In in Ha. destruct Ha as [_ Hne].
    apply reported_edited. now apply negb_true_iff.
  - intros a Ha. unfold allocations_on in Ha. apply filter_In in Ha. destruct Ha as [Ha _].
    now rewrite (same_event_edited a Ha).
Qed.

End EditedCheck.

(** A complete, well-formed POST with a valid range, on a stored event:
    the handler goes on from the checker's answer, computed over the
    other events' bookings, with the edited row flushed and nothing else
    changed. *)
Lemma edit_event_checked req eid w old t ds de rids :
  get_event (session w) eid = Some old ->
  method req = POST ->
  form_get req "title" = Some t -> t <> EmptyString ->
  timestamp_field (form_get req "start_time") = WellFormed ds ->
  timestamp_field (form_get req "end_time") = WellFormed de ->
  all_ints (form_getlist req "resources") = Some rids ->
  forallb sqlite_integer rids = true ->
  integrity (session w) = true ->
  ds < de ->
  exists w2,
    untouched (with_session (with_event (session w) (edited_event req eid t ds de))
                            (after_resources_query (logged (ReadEvent eid) w))) w2
    /\ edit_event req eid w
       = edit_event_after_check (edited_event req eid t ds de) eid rids (resources (session w))
           (Returns (edit_conflicts (session w) (edited_event req eid t ds de) eid rids), w2).
Proof.
  intros Hget Hpost Ht Hne Hs He Hints Hrange Hint Hvalid.
  rewrite (edit_event_post req eid w old Hget Hpost), Hs, He, Hints, Ht.
  destruct t as [|c t]; [ contradiction | ]. cbn beta iota zeta.
  pose proof (with_event_integrity (session w) (edited_event req eid (String c t) ds de)
                eid eq_refl Hint) as Hint'.
  destruct (check_conflicts_total (edited_event req eid (String c t) ds de) rids
              (with_session (with_event (session w) (edited_event req eid (String c t) ds de))
                            (after_resources_query (logged (ReadEvent eid) w)))
              Hvalid Hrange (integrity_can_check_all _ _ _ Hint'))
    as (w2 & Hrun & Hw2).
  rewrite Hrun.
  change (session (with_session (with_event (session w)
                                   (edited_event req eid (String c t) ds de))
                                (after_resources_query (logged (ReadEvent eid) w))))
    with (with_event (session w) (edited_event req eid (String c t) ds de)).
  rewrite (conflict_descriptions_edited (session w)
             (edited_event req eid (String c t) ds de) eid eq_refl Hint).
  exists w2. split; [ exact Hw2 | reflexivity ].
Qed.


(** ** The ordered listings *)

Lemma sorted_prefix {A} (R : A -> A -> Prop) (l1 l2 : list A) :
  StronglySorted R (l1 ++ l2) ->
  StronglySorted R l1 /\ forall u e, In u l1 -> In e l2 -> R u e.
Proof.
  induction l1 as [|x l1 IH]; cbn [app]; intros Hs.
  - split; [ constructor | intros u e [] ].
  - apply StronglySorted_inv in Hs. destruct Hs as [Hs Hx].
    destruct (IH Hs) as [Hl1 Hcross]. rewrite Forall_app in Hx. destruct Hx as [Hx1 Hx2].
    split; [ now constructor | ].
    intros u e [<-|Hu] He.
    + rewrite Forall_forall in Hx2. now apply Hx2.
    + now apply Hcross.
Qed.

Lemma index_page w :
  index w = (Returns (HomePage (firstn 3 (events_by_start (session w)))
                               (List.length (events (session w)))
                               (List.length (resources (session w)))),
     logged CountResources (logged CountEvents (logged ReadEvents w))).
Proof. reflexivity. Qed.

Lemma list_events_page w :
  list_events w
  = (Returns (EventsPage (events_by_start (session w)) (resources (session w))),
     after_resources_query (logged ReadEvents w)).
Proof. reflexivity. Qed.

(** ** A new event, read by [edit_event] *)

Lemma get_new_event db ev rids :
  get_event (with_new_event db ev rids) (next_id (event_ids db))
  = Some (with_id (next_id (event_ids db)) ev).
Proof.
  unfold get_event, with_new_event. cbn [events].
  rewrite find_app_r by apply next_event_id_unused.
  cbn. now rewrite Z.eqb_refl.
Qed.

Lemma new_event_selection db ev rids :
  event_integrity db = true ->
  map alloc_resource_id
      (allocations_of_event (with_new_event db ev rids) (next_id (event_ids db)))
  = rids.
Proof.
  intros Hint.
  destruct (allocations_of_new_event db (with_id (next_id (event_ids db)) ev)
              (next_id (event_ids db)) rids) as (new & Hnew & Hmap & _).
  { intros a Ha. now apply event_integrity_fresh. }
  unfold with_new_event. rewrite Hnew. exact Hmap.
Qed.

(** * Further properties *)

(** X1. Whatever the request, [add_event] either ends in the redirect to
    the event list or leaves the session's rows and the committed rows as
    they were: a form that is shown again, a validation failure, a
    conflict or an exception writes nothing. *)
Theorem add_event_writes_only_on_success req w :
  fst (add_event req w) = Returns (Redirect "list_events")
  \/ (session (snd (add_event req w)) = session w
      /\ committed (snd (add_event req w)) = committed w).
Proof.
  destruct (add_event req w) as [o w'] eqn:Hrun. cbn [fst snd].
  exact (add_event_unchanged_or_committed req w o w' Hrun).
Qed.

(** X2. Over a store with referential integrity, a complete, well-formed
    POST to [add_event] whose selected identifiers are SQLite integers and
    whose event has a valid range and meets a booking on a selected
    resource is not stored: every conflict description is flashed as
    "danger", in order, the form is rendered again with the event and the
    selected identifiers, and no row changes. *)
Theorem add_event_conflicts_rejected req w t ds de rids :
  method req = POST ->
  form_get req "title" = Some t -> t <> EmptyString ->
  timestamp_field (form_get req "start_time") = WellFormed ds ->
  timestamp_field (form_get req "end_time") = WellFormed de ->
  all_ints (form_getlist req "resources") = Some rids ->
  forallb sqlite_integer rids = true ->
  integrity (session w) = true ->
  ds < de ->
  Spec.conflict_descriptions (session w) (event_of_form req t ds de) rids <> [] ->
  exists w',
    add_event req w
    = (Returns (EventForm "Add" (resources (session w)) (Some (event_of_form req t ds de)) rids),
       w')
    /\ flashes w'
       = flashes w
         ++ map (fun c => (c, "danger"))
                (Spec.conflict_descriptions (session w) (event_of_form req t ds de) rids)
    /\ session w' = session w /\ committed w' = committed w.
Proof.
  intros Hpost Ht Hne Hs He Hints Hrange Hint Hvalid Hconf.
  rewrite (add_event_post req w t ds de rids Hpost Ht Hne Hs He Hints).
  destruct (check_conflicts_total (event_of_form req t ds de) rids (after_resources_query w)
              Hvalid Hrange
              (integrity_can_check_all (session w) (event_of_form req t ds de) rids Hint))
    as (w2 & Hrun & Hs2 & Hc2 & Hf2 & _).
  rewrite Hrun. cbn [session after_resources_query].
  destruct (Spec.conflict_descriptions (session w) (event_of_form req t ds de) rids)
    as [|m ms] eqn:Hcd; [ congruence | ].
  eexists. split; [ reflexivity | ].
  cbn [flashed_all flashes session committed]. rewrite Hf2, Hs2, Hc2.
  repeat split.
Qed.

Lemma add_event_conflicts_rejected_witness :
  exists w',
    add_event MoreSamples.add_request_clash MoreSamples.start_world
    = (Returns (EventForm "Add" [Sample.room; Sample.projector]
                 (Some (mkEvent None "Workshop" (Sample.at_ 2025 1 1 9 30)
                                (Sample.at_ 2025 1 1 10 30) None)) [1]), w')
    /\ List.length (flashes w') = 2%nat
    /\ committed w' = Sample.db.
Proof.
  destruct (add_event_conflicts_rejected MoreSamples.add_request_clash MoreSamples.start_world
              "Workshop" (Sample.at_ 2025 1 1 9 30) (Sample.at_ 2025 1 1 10 30) [1]
              eq_refl eq_refl ltac:(discriminate)
              ltac:(vm_compute; reflexivity) ltac:(vm_compute; reflexivity)
              ltac:(vm_compute; reflexivity) ltac:(vm_compute; reflexivity)
              ltac:(vm_compute; reflexivity)
              ltac:(vm_compute; reflexivity) ltac:(vm_compute; discriminate))
    as (w' & Hrun & Hfl & _ & Hc).
  exists w'. split; [ exact Hrun | ]. split; [ | exact Hc ].
  rewrite Hfl. vm_compute. reflexivity.
Defined.

(** X3. A POST to [add_event] with a title, two well-formed timestamps and
    selected identifiers that [int] accepts, whose start time is not
    before its end time, flashes the invalid-range message alone and shows
    the form again with the identifiers as [int] read them; only the
    resource list has been read and no row changes, whatever the
    identifiers are. *)
Theorem add_event_invalid_range req w t ds de rids :
  method req = POST ->
  form_get req "title" = Some t -> t <> EmptyString ->
  timestamp_field (form_get req "start_time") = WellFormed ds ->
  timestamp_field (form_get req "end_time") = WellFormed de ->
  all_ints (form_getlist req "resources") = Some rids ->
  ds >= de ->
  add_event req w
  = (Returns (EventForm "Add" (resources (session w)) (Some (event_of_form req t ds de)) rids),
     flashed_all [invalid_range_message] "danger" (after_resources_query w)).
Proof.
  intros Hpost Ht Hne Hs He Hints Hbad.
  rewrite (add_event_post req w t ds de rids Hpost Ht Hne Hs He Hints).
  unfold check_conflicts. cbn [event_of_form start_time end_time].
  apply ge_true_iff in Hbad. rewrite Hbad. reflexivity.
Qed.

Lemma add_event_invalid_range_witness :
  add_event MoreSamples.add_request_backwards MoreSamples.start_world
  = (Returns (EventForm "Add" [Sample.room; Sample.projector]
               (Some (mkEvent None "Backwards" (Sample.at_ 2025 1 1 14 0)
                              (Sample.at_ 2025 1 1 13 0) None)) [1]),
     flashed_all [invalid_range_message] "danger"
                 (after_resources_query MoreSamples.start_world)).
Proof.
  apply (add_event_invalid_range MoreSamples.add_request_backwards MoreSamples.start_world
           "Backwards" (Sample.at_ 2025 1 1 14 0) (Sample.at_ 2025 1 1 13 0) [1]).
  - reflexivity.
  - reflexivity.
  - discriminate.
  - vm_compute. reflexivity.
  - vm_compute. reflexivity.
  - vm_compute. reflexivity.
  - vm_compute. discriminate.
Defined.

(** X4. Over a store with referential integrity, a complete, well-formed
    POST to [add_event] whose selected identifiers are SQLite integers and
    whose event has a valid range and meets no booking on the selected
    resources is committed: the event joins the stored events under a
    key that none of them has, one allocation per selected identifier
    joins the stored allocations, each referencing the new event, the
    resources are as they were, the success message is flashed, and the
    user is sent to the event list. *)
Theorem add_event_accepts req w t ds de rids :
  method req = POST ->
  form_get req "title" = Some t -> t <> EmptyString ->
  timestamp_field (form_get req "start_time") = WellFormed ds ->
  timestamp_field (form_get req "end_time") = WellFormed de ->
  all_ints (form_getlist req "resources") = Some rids ->
  forallb sqlite_integer rids = true ->
  integrity (session w) = true ->
  ds < de ->
  Spec.conflict_descriptions (session w) (event_of_form req t ds de) rids = [] ->
  exists w' eid new,
    add_event req w = (Returns (Redirect "list_events"), w')
    /\ ~ In eid (event_ids (session w))
    /\ Permutation (events (committed w'))
                   (events (session w) ++ [with_id eid (event_of_form req t ds de)])
    /\ resources (committed w') = resources (session w)
    /\ Permutation (allocations (committed w')) (allocations (session w) ++ new)
    /\ map alloc_resource_id new = rids
    /\ Forall (fun a => alloc_event_id a = eid) new
    /\ session w' = committed w'
    /\ flashes w' = flashes w ++ [("Event added successfully!", "success")].
Proof.
  intros Hpost Ht Hne Hs He Hints Hrange Hint Hvalid Hconf.
  rewrite (add_event_post req w t ds de rids Hpost Ht Hne Hs He Hints).
  destruct (check_conflicts_total (event_of_form req t ds de) rids (after_resources_query w)
              Hvalid Hrange
              (integrity_can_check_all (session w) (event_of_form req t ds de) rids Hint))
    as (w2 & Hrun & Hs2 & Hc2 & Hf2 & _).
  rewrite Hrun. cbn [session after_resources_query]. rewrite Hconf.
  destruct (add_allocations_spec (allocations (session w)) (next_id (event_ids (session w))) rids)
    as (new & Hnew & Hmap & Hall).
  eexists. exists (next_id (event_ids (session w))), new.
  split; [ reflexivity | ].
  cbn [committed_with flashes session committed]. rewrite Hf2, Hs2.
  cbn [session after_resources_query flashes with_new_event events resources allocations].
  split; [ intros Hin; apply next_id_fresh in Hin; lia | ].
  split; [ apply Permutation_refl | ].
  split; [ reflexivity | ].
  split; [ rewrite Hnew; apply Permutation_refl | ].
  repeat split; assumption.
Qed.

Lemma add_event_accepts_witness :
  exists w',
    add_event Sample.add_request MoreSamples.start_world = (Returns (Redirect "list_events"), w')
    /\ map (fun a => (alloc_event_id a, alloc_resource_id a)) (allocations (committed w'))
       = [(1, 1); (2, 1); (2, 2); (3, 2); (4, 2); (5, 1); (5, 2)].
Proof.
  destruct (add_event_accepts Sample.add_request MoreSamples.start_world
              "Retro" (Sample.at_ 2025 2 1 9 0) (Sample.at_ 2025 2 1 10 0) [1; 2]
              eq_refl eq_refl ltac:(discriminate)
              ltac:(vm_compute; reflexivity) ltac:(vm_compute; reflexivity)
              ltac:(vm_compute; reflexivity) ltac:(vm_compute; reflexivity)
              ltac:(vm_compute; reflexivity)
              ltac:(vm_compute; reflexivity) ltac:(vm_compute; reflexivity))
    as (w' & eid & new & Hrun & _).
  exists w'. split; [ exact Hrun | ].
  vm_compute in Hrun. inversion Hrun. reflexivity.
Defined.

(** X5. An event that [add_event] stores starts before it ends and carries
    the form's values: its title is the non-empty title field, its times
    are the parsed timestamp fields, its description is the description
    field; it is stored beside the events that were there, under a key
    that none of them has, and the resources are as they were. *)
Theorem add_event_stores_valid_event req w w' :
  add_event req w = (Returns (Redirect "list_events"), w') ->
  exists t ds de eid,
    form_get req "title" = Some t /\ t <> EmptyString
    /\ timestamp_field (form_get req "start_time") = WellFormed ds
    /\ timestamp_field (form_get req "end_time") = WellFormed de
    /\ ds < de
    /\ ~ In eid (event_ids (session w))
    /\ Permutation (events (committed w'))
                   (events (session w)
                    ++ [mkEvent (Some eid) t ds de (form_get req "description")])
    /\ resources (committed w') = resources (session w).
Proof.
  intros Hrun.
  destruct (add_event_success_rows req w w' Hrun)
    as (t & ds & de & rids & Ht & Hne & Hs & He & _ & Hvalid & Hc & _).
  exists t, ds, de, (next_id (event_ids (session w))). repeat (split; [ assumption | ]).
  split; [ intros Hin; apply next_id_fresh in Hin; lia | ].
  rewrite Hc. split; [ apply Permutation_refl | reflexivity ].
Qed.

Lemma add_event_stores_valid_event_witness :
  Permutation
    (map (fun e => (title e, start_time e, end_time e))
         (events (committed (snd (add_event Sample.add_request MoreSamples.start_world)))))
    (map (fun e => (title e, start_time e, end_time e)) (events Sample.db)
     ++ [("Retro", Sample.at_ 2025 2 1 9 0, Sample.at_ 2025 2 1 10 0)]).
Proof.
  destruct (add_event_stores_valid_event Sample.add_request MoreSamples.start_world
              (snd (add_event Sample.add_request MoreSamples.start_world))
              ltac:(vm_compute; reflexivity))
    as (t & ds & de & eid & Ht & _ & Hs & He & _ & _ & Hev & _).
  rewrite (Permutation_map _ Hev).
  vm_compute in Ht, Hs, He. inversion Ht; inversion Hs; inversion He; subst.
  rewrite map_app. apply Permutation_refl.
Defined.

(** X6. [add_event] keeps referential integrity: when the store has it and
    every selected identifier is the key of a stored resource, the rows
    committed by a successful request have it too. *)
Theorem add_event_keeps_integrity req w w' rids :
  integrity (session w) = true ->
  all_ints (form_getlist req "resources") = Some rids ->
  (forall rid, In rid rids -> In rid (resource_ids (session w))) ->
  add_event req w = (Returns (Redirect "list_events"), w') ->
  integrity (committed w') = true /\ session w' = committed w'.
Proof.
  intros Hint Hints Hrids Hrun.
  destruct (add_event_success_rows req w w' Hrun)
    as (t & ds & de & rids' & _ & _ & _ & _ & Hints' & _ & Hc & Hs & _).
  rewrite Hints in Hints'. inversion Hints'; subst rids'.
  split; [ | exact Hs ]. rewrite Hc. now apply new_event_integrity.
Qed.

Lemma add_event_keeps_integrity_witness :
  integrity (committed (snd (add_event Sample.add_request MoreSamples.start_world))) = true.
Proof.
  refine (proj1 (add_event_keeps_integrity Sample.add_request MoreSamples.start_world
                   (snd (add_event Sample.add_request MoreSamples.start_world)) [1; 2]
                   _ _ _ _)).
  - vm_compute. reflexivity.
  - vm_compute. reflexivity.
  - intros rid [<- | [<- | []]]; vm_compute; tauto.
  - vm_compute. reflexivity.
Defined.

(** X7. The checker protects the audit: over a store with referential
    integrity on which [conflict_view] reports nothing, a successful
    [add_event] whose selected identifiers are distinct keys of stored
    resources leaves a store on which [conflict_view] still reports
    nothing. *)
Theorem add_event_keeps_scan_clean req w w' rids :
  integrity (session w) = true ->
  fst (conflict_view w) = Returns [] ->
  all_ints (form_getlist req "resources") = Some rids ->
  NoDup rids ->
  (forall rid, In rid rids -> In rid (resource_ids (session w))) ->
  add_event req w = (Returns (Redirect "list_events"), w') ->
  fst (conflict_view w') = Returns [].
Proof.
  intros Hint Hclean Hints Hnd Hrids Hrun.
  destruct (add_event_success_rows req w w' Hrun)
    as (t & ds & de & rids' & _ & _ & _ & _ & Hints' & _ & Hc & Hs & Hnone).
  rewrite Hints in Hints'. inversion Hints'; subst rids'.
  assert (Hscan : Spec.scan_all_conflicts (session w) = []).
  { destruct (hoare_run (sees (session w)) conflict_view _ w
                (conflict_view_computes (session w) (sees (session w)) (log_stable_sees _)
                   (fun _ Hw => Hw) Hint) eq_refl)
      as (c & w1 & Hrun1 & -> & _).
    rewrite Hrun1 in Hclean. now inversion Hclean. }
  assert (Hint' : integrity (session w') = true).
  { rewrite Hs, Hc. now apply new_event_integrity. }
  destruct (hoare_run (sees (session w')) conflict_view _ w'
              (conflict_view_computes (session w') (sees (session w')) (log_stable_sees _)
                 (fun _ Hw => Hw) Hint') eq_refl)
    as (c & w1 & Hrun1 & -> & _).
  rewrite Hrun1. cbn [fst]. f_equal. rewrite Hs, Hc.
  apply new_event_scan_clean; auto.
Qed.

Lemma add_event_keeps_scan_clean_witness :
  fst (conflict_view (snd (add_event Sample.add_request MoreSamples.start_world))) = Returns [].
Proof.
  refine (add_event_keeps_scan_clean Sample.add_request MoreSamples.start_world
            (snd (add_event Sample.add_request MoreSamples.start_world)) [1; 2]
            _ _ _ _ _ _).
  - vm_compute. reflexivity.
  - vm_compute. reflexivity.
  - vm_compute. reflexivity.
  - repeat constructor; cbn; intuition discriminate.
  - intros rid [<- | [<- | []]]; vm_compute; tauto.
  - vm_compute. reflexivity.
Defined.

(** X8. On a valid range and a store with referential integrity, the
    checker treats the requested identifiers, SQLite integers, one after
    the other: the result for two lists put end to end is the result for
    the first followed by the result for the second, so an identifier
    given twice has its conflicts reported twice and an empty list reports
    nothing. *)
Theorem check_conflicts_concatenates event rids1 rids2 w :
  integrity (session w) = true ->
  start_time event < end_time event ->
  forallb sqlite_integer rids1 = true ->
  forallb sqlite_integer rids2 = true ->
  exists c1 c2,
    fst (check_conflicts event rids1 w) = Returns c1
    /\ fst (check_conflicts event rids2 w) = Returns c2
    /\ fst (check_conflicts event (rids1 ++ rids2) w) = Returns (c1 ++ c2)
    /\ fst (check_conflicts event [] w) = Returns [].
Proof.
  intros Hint Hvalid Hr1 Hr2. set (db := session w).
  assert (Hrun : forall rids,
             forallb sqlite_integer rids = true ->
             fst (check_conflicts event rids w)
             = Returns (Spec.conflict_descriptions db event rids)).
  { intros rids Hr.
    destruct (check_conflicts_total event rids w Hvalid Hr
                (integrity_can_check_all db event rids Hint)) as (w' & -> & _).
    reflexivity. }
  exists (Spec.conflict_descriptions db event rids1), (Spec.conflict_descriptions db event rids2).
  rewrite (Hrun rids1 Hr1), (Hrun rids2 Hr2), (Hrun [] eq_refl).
  rewrite (Hrun (rids1 ++ rids2)) by (rewrite forallb_app, Hr1, Hr2; reflexivity).
  repeat split.
  unfold Spec.conflict_descriptions. now rewrite flat_map_app.
Qed.

Lemma check_conflicts_concatenates_witness :
  exists c,
    fst (check_conflicts Sample.workshop [1] MoreSamples.start_world) = Returns c
    /\ fst (check_conflicts Sample.workshop [1; 1] MoreSamples.start_world) = Returns (c ++ c)
    /\ List.length c = 2%nat.
Proof.
  destruct (check_conflicts_concatenates Sample.workshop [1] [1] MoreSamples.start_world
              ltac:(vm_compute; reflexivity) ltac:(vm_compute; reflexivity)
              ltac:(vm_compute; reflexivity) ltac:(vm_compute; reflexivity))
    as (c1 & c2 & H1 & H2 & H12 & _).
  rewrite H1 in H2. inversion H2; subst c2.
  exists c1. split; [ exact H1 | ]. split; [ exact H12 | ].
  vm_compute in H1. inversion H1. reflexivity.
Defined.

(** X9. On a valid range and for requested identifiers that are SQLite
    integers, an allocation on a requested resource whose event is not
    stored makes [check_conflicts] raise [AttributeError]: the checker
    does not guard the dereference of [alloc.event]. *)
Theorem check_conflicts_dangling_event event resource_ids w rid a :
  start_time event < end_time event ->
  forallb sqlite_integer resource_ids = true ->
  In rid resource_ids ->
  In a (allocations_on (session w) rid) ->
  event_of (session w) a = None ->
  fst (check_conflicts event resource_ids w) = Raises AttributeError.
Proof.
  intros Hvalid Hrange Hrid Ha Hnone.
  assert (Hcan : can_check_all (session w) event resource_ids = false).
  { unfold can_check_all. apply (forallb_false_in _ _ rid Hrid).
    apply (forallb_false_in _ _ a Ha). unfold can_check. now rewrite Hnone. }
  pose proof (check_conflicts_run event resource_ids w Hvalid) as Hrun.
  destruct (check_conflicts event resource_ids w) as [[c|e] w']; cbn [fst].
  - destruct Hrun as (_ & _ & Hok & _). congruence.
  - destruct Hrun as ([[_ Hbad] | [-> _]] & _); [ congruence | reflexivity ].
Qed.

Lemma check_conflicts_dangling_event_witness :
  fst (check_conflicts Sample.workshop [1] (Sample.world_at db_dangling Sample.today))
  = Raises AttributeError.
Proof.
  apply (check_conflicts_dangling_event Sample.workshop [1]
           (Sample.world_at db_dangling Sample.today) 1 (mkAllocation 2 9 1)).
  - vm_compute. reflexivity.
  - vm_compute. reflexivity.
  - now left.
  - vm_compute. tauto.
  - vm_compute. reflexivity.
Defined.

(** X10. [conflict_view] only reads: whatever it returns or raises, the
    session's rows, the committed rows, the flashed messages and the clock
    are what they were before the call. *)
Theorem conflict_view_read_only w :
  untouched w (snd (conflict_view w)).
Proof.
  pose proof (conflict_view_untouched w w (untouched_refl w)) as Hf.
  destruct (conflict_view w) as [[c|e] w']; exact Hf.
Qed.

(** X11. [utilisation_report] writes no row: for every request, whatever it
    returns or raises, the session's rows and the committed rows are what
    they were before the call. *)
Theorem utilisation_report_read_only {F : Type} `{PyFloat F} req w :
  rows_kept w (snd (utilisation_report req w)).
Proof.
  pose proof (utilisation_report_rows_kept w req w (rows_kept_refl w)) as Hf.
  destruct (utilisation_report req w) as [[c|e] w']; exact Hf.
Qed.

(** X12. Over a store with referential integrity holding [n] allocations,
    the audit returns at most [n * (n - 1) / 2] records; with fewer than
    two allocations it returns none. *)
Theorem conflict_view_bound w :
  integrity (session w) = true ->
  exists c,
    fst (conflict_view w) = Returns c
    /\ (2 * List.length c
        <= List.length (allocations (session w)) * (List.length (allocations (session w)) - 1))%nat.
Proof.
  intros Hint. set (db := session w).
  destruct (hoare_run (sees db) conflict_view _ w
              (conflict_view_computes db (sees db) (log_stable_sees db) (fun _ Hw => Hw) Hint)
              eq_refl)
    as (c & w' & Hrun & -> & _).
  exists (Spec.scan_all_conflicts db). rewrite Hrun. split; [ reflexivity | ].
  unfold Spec.scan_all_conflicts.
  pose proof (flat_map_length_le (Spec.verdict_at db)
                (Spec.index_pairs (List.length (allocations db))) (verdict_at_length db)) as Hle.
  pose proof (index_pairs_length_twice (List.length (allocations db))) as Hn.
  fold db. lia.
Qed.

Lemma conflict_view_bound_witness :
  exists c,
    fst (conflict_view (Sample.world_at Sample.db_duplicate Sample.today)) = Returns c
    /\ (2 * List.length c <= 3 * 2)%nat.
Proof.
  exact (conflict_view_bound (Sample.world_at Sample.db_duplicate Sample.today)
           ltac:(vm_compute; reflexivity)).
Defined.

(** X13. In a report over a store with referential integrity, a resource
    whose booked events all lie inside the window and start before they
    end is reported with [round(total, 2)] of the sum, from 0.0 and in
    allocation order, of the events' [duration_hours]. *)
Theorem utilisation_report_whole_durations {F : Type} `{PyFloat F} req w ds de r :
  integrity (session w) = true ->
  method req = POST ->
  date_field (form_get req "start_date") = WellFormed ds ->
  date_field (form_get req "end_date") = WellFormed de ->
  In r (resources (session w)) ->
  (forall e, In e (events_on (session w) (resource_id r)) ->
     ds <= start_time e /\ start_time e < end_time e /\ end_time e <= combine_max_time de) ->
  exists page w',
    utilisation_report req w = (Returns page, w')
    /\ In (r, round2 (fold_left float_add
                        (map duration_hours (events_on (session w) (resource_id r)))
                        float_zero))
          (map totals (p_report_data page)).
Proof.
  intros Hint Hpost Hs He Hr Hin.
  destruct (utilisation_report_totals req w ds de Hint Hpost Hs He) as (page & w' & Hrun & Ht).
  exists page, w'. split; [ exact Hrun | ].
  rewrite Ht. apply in_map_iff. exists r. split; [ | exact Hr ].
  now rewrite (total_hours_inside (session w) ds (combine_max_time de) (resource_id r) Hin).
Qed.

Lemma utilisation_report_whole_durations_witness :
  exists page w',
    utilisation_report (H := Binary64.binary64) Sample.report_request MoreSamples.start_world
    = (Returns page, w')
    /\ In (Sample.room, 5%float) (map totals (p_report_data page)).
Proof.
  destruct (utilisation_report_whole_durations (H := Binary64.binary64)
              Sample.report_request MoreSamples.start_world
              (Sample.at_ 2025 1 1 0 0) (Sample.at_ 2025 1 1 0 0) Sample.room
              ltac:(vm_compute; reflexivity) eq_refl
              ltac:(vm_compute; reflexivity) ltac:(vm_compute; reflexivity)
              ltac:(now left)
              ltac:(intros e [<- | [<- | []]]; vm_compute; repeat split; discriminate))
    as (page & w' & Hrun & Hin).
  exists page, w'. split; [ exact Hrun | exact Hin ].
Defined.

(** X14. In a report over a store with referential integrity, a resource
    whose booked events all end before the window starts or start after it
    ends is reported with [round(0.0, 2)]. *)
Theorem utilisation_report_nothing_in_window {F : Type} `{PyFloat F} req w ds de r :
  integrity (session w) = true ->
  method req = POST ->
  date_field (form_get req "start_date") = WellFormed ds ->
  date_field (form_get req "end_date") = WellFormed de ->
  In r (resources (session w)) ->
  (forall e, In e (events_on (session w) (resource_id r)) ->
     end_time e < ds \/ combine_max_time de < start_time e) ->
  exists page w',
    utilisation_report req w = (Returns page, w')
    /\ In (r, round2 float_zero) (map totals (p_report_data page)).
Proof.
  intros Hint Hpost Hs He Hr Hout.
  destruct (utilisation_report_totals req w ds de Hint Hpost Hs He) as (page & w' & Hrun & Ht).
  exists page, w'. split; [ exact Hrun | ].
  rewrite Ht. apply in_map_iff. exists r. split; [ | exact Hr ].
  now rewrite (total_hours_outside (session w) ds (combine_max_time de) (resource_id r) Hout).
Qed.

Lemma utilisation_report_nothing_in_window_witness :
  exists page w',
    utilisation_report (H := Binary64.binary64) Sample.report_request_2030
                       MoreSamples.start_world
    = (Returns page, w')
    /\ In (Sample.room, 0%float) (map totals (p_report_data page)).
Proof.
  destruct (utilisation_report_nothing_in_window (H := Binary64.binary64)
              Sample.report_request_2030 MoreSamples.start_world
              (Sample.at_ 2030 1 1 0 0) (Sample.at_ 2030 6 30 0 0) Sample.room
              ltac:(vm_compute; reflexivity) eq_refl
              ltac:(vm_compute; reflexivity) ltac:(vm_compute; reflexivity)
              ltac:(now left)
              ltac:(intros e [<- | [<- | []]]; left; vm_compute; reflexivity))
    as (page & w' & Hrun & Hin).
  exists page, w'. split; [ exact Hrun | exact Hin ].
Defined.

(** X15. A POST to [add_resource] whose name or type is missing or empty
    stores nothing: the validation message is flashed, the user is sent
    back to the form, and the rest of the world is as before. *)
Theorem add_resource_requires_name_and_type req w :
  method req = POST ->
  PyBuiltins.truthy (form_get req "resource_name") = false
  \/ PyBuiltins.truthy (form_get req "resource_type") = false ->
  add_resource req w
  = (Returns (RedirectTo "add_resource" None),
     flashed "Resource name and type are required." "danger" w)
  /\ committed (snd (add_resource req w)) = committed w
  /\ session (snd (add_resource req w)) = session w.
Proof.
  intros Hpost Hblank. rewrite (add_resource_blank req w Hpost Hblank). repeat split.
Qed.

Lemma add_resource_requires_name_and_type_witness :
  add_resource ResourceSamples.add_request_no_type MoreSamples.start_world
  = (Returns (RedirectTo "add_resource" None),
     flashed "Resource name and type are required." "danger" MoreSamples.start_world).
Proof.
  apply (add_resource_requires_name_and_type ResourceSamples.add_request_no_type
           MoreSamples.start_world eq_refl).
  right. reflexivity.
Defined.

(** X16. A POST to [add_resource] with a name and a type commits one new
    resource row, under a key no stored resource had: the row is found
    again under that key with the name and the type of the form, every
    other key gives what it gave, the table has one row more, events and
    allocations are untouched, and [list_resources] then shows the new row
    beside every row that was there. *)
Theorem add_resource_round_trip req w n t :
  method req = POST ->
  form_get req "resource_name" = Some n -> n <> EmptyString ->
  form_get req "resource_type" = Some t -> t <> EmptyString ->
  exists w' rid shown,
    add_resource req w = (Returns (RedirectTo "list_resources" None), w')
    /\ ~ In rid (map resource_id (resources (session w)))
    /\ get_resource (committed w') rid = Some (mkResource rid n t)
    /\ (forall k, k <> rid -> get_resource (committed w') k = get_resource (session w) k)
    /\ List.length (resources (committed w')) = S (List.length (resources (session w)))
    /\ events (committed w') = events (session w)
    /\ allocations (committed w') = allocations (session w)
    /\ session w' = committed w'
    /\ fst (list_resources w') = Returns (ResourcesPage shown)
    /\ In (mkResource rid n t) shown
    /\ (forall r, In r (resources (session w)) -> In r shown).
Proof.
  intros Hpost Hn Hne Ht Hte.
  rewrite (add_resource_post req w n t Hpost Hn Hne Ht Hte).
  exists (committed_with (with_new_resource (session w) n t) "Resource added successfully!" w),
         (next_id (map resource_id (resources (session w)))),
         (resources (session w) ++ [new_resource (session w) n t]).
  split; [ reflexivity | ].
  cbn [committed_with committed session].
  split; [ intros Hin; apply next_id_fresh in Hin; lia | ].
  split; [ exact (get_new_resource (session w) n t) | ].
  split.
  { intros k Hk. unfold get_resource, with_new_resource. cbn [resources].
    destruct (find (fun r => resource_id r =? k) (resources (session w))) as [x|] eqn:Hf.
    - now apply find_app_l.
    - rewrite (find_app_r _ _ _ Hf). cbn [find new_resource resource_id].
      destruct (Z.eqb_spec (next_id (map resource_id (resources (session w)))) k) as [Heq|_];
        [ congruence | reflexivity ]. }
  split.
  { unfold with_new_resource. cbn [resources]. rewrite length_app. cbn [List.length]. lia. }
  split; [ reflexivity | ]. split; [ reflexivity | ]. split; [ reflexivity | ].
  split; [ reflexivity | ].
  split; [ apply in_or_app; right; now left | ].
  intros r Hr. apply in_or_app. now left.
Qed.

Lemma add_resource_round_trip_witness :
  exists w' rid,
    add_resource ResourceSamples.add_request MoreSamples.start_world
    = (Returns (RedirectTo "list_resources" None), w')
    /\ get_resource (committed w') rid = Some (mkResource rid "Room B" "room").
Proof.
  destruct (add_resource_round_trip ResourceSamples.add_request MoreSamples.start_world
              "Room B" "room" eq_refl eq_refl ltac:(discriminate) eq_refl ltac:(discriminate))
    as (w' & rid & shown & Hrun & _ & Hget & _).
  exists w', rid. split; [ exact Hrun | exact Hget ].
Defined.

(** X17. The resource routes keep referential integrity: over a store that
    has it, the rows committed by a successful [add_resource] and by a
    successful [edit_resource] have it too. *)
Theorem resource_routes_keep_integrity req w rid r n t :
  integrity (session w) = true ->
  method req = POST ->
  form_get req "resource_name" = Some n -> n <> EmptyString ->
  form_get req "resource_type" = Some t -> t <> EmptyString ->
  get_resource (session w) rid = Some r ->
  integrity (committed (snd (add_resource req w))) = true
  /\ integrity (committed (snd (edit_resource req rid w))) = true.
Proof.
  intros Hint Hpost Hn Hne Ht Hte Hget.
  rewrite (add_resource_post req w n t Hpost Hn Hne Ht Hte).
  rewrite (edit_resource_post req w rid r n t Hget Hpost Hn Hne Ht Hte).
  cbn [snd committed_with committed]. split.
  - now apply with_new_resource_integrity.
  - now apply with_resource_integrity.
Qed.

Lemma resource_routes_keep_integrity_witness :
  integrity (committed (snd (add_resource ResourceSamples.rename_request
                                          MoreSamples.start_world))) = true
  /\ integrity (committed (snd (edit_resource ResourceSamples.rename_request 2
                                              MoreSamples.start_world))) = true.
Proof.
  apply (resource_routes_keep_integrity ResourceSamples.rename_request MoreSamples.start_world
           2 Sample.projector "Beamer" "equipment").
  - vm_compute. reflexivity.
  - reflexivity.
  - reflexivity.
  - discriminate.
  - reflexivity.
  - discriminate.
  - vm_compute. reflexivity.
Defined.

(** X18. [edit_resource] on a key that no stored resource has, whatever
    the method and the form.  When the key is a SQLite integer the answer
    is 404: the lookup is the one statement run, and rows, flashes and
    clock are as they were.  When it is not, the lookup raises
    [OverflowError] and the world is as it was. *)
Theorem edit_resource_not_found req rid w :
  get_resource (session w) rid = None ->
  edit_resource req rid w
  = if sqlite_integer rid then (Returns NotFound404, logged (ReadResource rid) w)
    else (Raises OverflowError, w).
Proof. exact (edit_resource_missing req rid w). Qed.

Lemma edit_resource_not_found_witness :
  edit_resource ResourceSamples.rename_request 7 MoreSamples.start_world
  = (Returns NotFound404, logged (ReadResource 7) MoreSamples.start_world)
  /\ edit_resource ResourceSamples.rename_request Sample.oversized MoreSamples.start_world
     = (Raises OverflowError, MoreSamples.start_world).
Proof.
  split.
  - apply (edit_resource_not_found ResourceSamples.rename_request 7 MoreSamples.start_world).
    vm_compute. reflexivity.
  - apply (edit_resource_not_found ResourceSamples.rename_request Sample.oversized
             MoreSamples.start_world).
    vm_compute. reflexivity.
Defined.

(** X19. A POST to [edit_resource] with a name and a type, for a stored
    resource, commits that resource under the same key with the new name
    and type: a lookup of the key gives the new values, lookups of other
    keys give what they gave, the table keeps its length, and events and
    allocations are untouched. *)
Theorem edit_resource_round_trip req w rid r n t :
  get_resource (session w) rid = Some r ->
  method req = POST ->
  form_get req "resource_name" = Some n -> n <> EmptyString ->
  form_get req "resource_type" = Some t -> t <> EmptyString ->
  exists w',
    edit_resource req rid w = (Returns (RedirectTo "list_resources" None), w')
    /\ get_resource (committed w') rid = Some (mkResource rid n t)
    /\ (forall k, k <> rid -> get_resource (committed w') k = get_resource (session w) k)
    /\ map resource_id (resources (committed w')) = map resource_id (resources (session w))
    /\ events (committed w') = events (session w)
    /\ allocations (committed w') = allocations (session w).
Proof.
  intros Hget Hpost Hn Hne Ht Hte.
  rewrite (edit_resource_post req w rid r n t Hget Hpost Hn Hne Ht Hte).
  eexists. split; [ reflexivity | ].
  cbn [committed_with committed with_resource events allocations resources].
  unfold get_resource in *. cbn [resources with_resource].
  split; [ | split; [ | split; [ | split; reflexivity ] ] ].
  - rewrite find_update_resource, Hget. cbn [option_map].
    apply find_some in Hget. destruct Hget as [_ Hid]. rewrite Hid.
    apply Z.eqb_eq in Hid. now rewrite Hid.
  - intros k Hk. rewrite find_update_resource.
    destruct (find (fun r0 => resource_id r0 =? k) (resources (session w))) as [r'|] eqn:Hf;
      [ | reflexivity ].
    cbn [option_map]. apply find_some in Hf. destruct Hf as [_ Hid]. apply Z.eqb_eq in Hid.
    destruct (Z.eqb_spec (resource_id r') rid) as [Heq|_]; [ congruence | reflexivity ].
  - unfold update_resource. rewrite map_map. apply map_ext. intros x.
    destruct (resource_id x =? rid); reflexivity.
Qed.

Lemma edit_resource_round_trip_witness :
  exists w',
    edit_resource ResourceSamples.rename_request 2 MoreSamples.start_world
    = (Returns (RedirectTo "list_resources" None), w')
    /\ get_resource (committed w') 2 = Some (mkResource 2 "Beamer" "equipment").
Proof.
  destruct (edit_resource_round_trip ResourceSamples.rename_request MoreSamples.start_world
              2 Sample.projector "Beamer" "equipment"
              ltac:(vm_compute; reflexivity) eq_refl eq_refl ltac:(discriminate)
              eq_refl ltac:(discriminate))
    as (w' & Hrun & Hget & _).
  exists w'. split; [ exact Hrun | exact Hget ].
Defined.

(** X20. [edit_event] on a key that no stored event has, whatever the
    method and the form.  When the key is a SQLite integer the answer is
    404: the lookup is the one statement run, nothing is parsed, flashed or
    written.  When it is not, the lookup raises [OverflowError] and the
    world is as it was. *)
Theorem edit_event_not_found req eid w :
  get_event (session w) eid = None ->
  edit_event req eid w
  = if sqlite_integer eid then (Returns NotFound404, logged (ReadEvent eid) w)
    else (Raises OverflowError, w).
Proof. exact (edit_event_no_event req eid w). Qed.

Lemma edit_event_not_found_witness :
  edit_event EventSamples.move_review 9 MoreSamples.start_world
  = (Returns NotFound404, logged (ReadEvent 9) MoreSamples.start_world)
  /\ edit_event EventSamples.move_review Sample.oversized MoreSamples.start_world
     = (Raises OverflowError, MoreSamples.start_world).
Proof.
  split.
  - apply (edit_event_not_found EventSamples.move_review 9 MoreSamples.start_world).
    vm_compute. reflexivity.
  - apply (edit_event_not_found EventSamples.move_review Sample.oversized
             MoreSamples.start_world).
    vm_compute. reflexivity.
Defined.

(** X21. When [edit_event] ends in the redirect to the event list, the
    committed rows hold the event under its key with the form's title,
    times (start before end) and description, the other events as they
    were, and the event's allocations replaced: read back, they are bound
    to the selected resources, in the order of the selection, while the
    allocations of every other event and the resources are untouched. *)
Theorem edit_event_replaces_allocations req eid w w' :
  edit_event req eid w = (Returns (RedirectTo "list_events" None), w') ->
  exists t ds de rids,
    form_get req "title" = Some t /\ t <> EmptyString
    /\ timestamp_field (form_get req "start_time") = WellFormed ds
    /\ timestamp_field (form_get req "end_time") = WellFormed de
    /\ all_ints (form_getlist req "resources") = Some rids
    /\ ds < de
    /\ get_event (committed w') eid = Some (mkEvent (Some eid) t ds de (form_get req "description"))
    /\ (forall k, k <> eid -> get_event (committed w') k = get_event (session w) k)
    /\ map alloc_resource_id (allocations_of_event (committed w') eid) = rids
    /\ (forall k, k <> eid ->
          allocations_of_event (committed w') k = allocations_of_event (session w) k)
    /\ resources (committed w') = resources (session w).
Proof.
  intros Hrun.
  destruct (edit_event_success req eid w w' Hrun)
    as (old & t & ds & de & rids & Hget & Ht & Hne & Hs & He & Hints & Hvalid & Hc & _).
  exists t, ds, de, rids. repeat (split; [ assumption | ]).
  rewrite Hc. set (ev := edited_event req eid t ds de).
  split; [ exact (get_edited_event (session w) ev eid eq_refl old Hget) | ].
  split; [ intros k Hk; exact (get_other_event (session w) ev eid eq_refl k Hk) | ].
  split; [ exact (proj1 (replaced_allocations_of_event (with_event (session w) ev) eid rids)) | ].
  split; [ | reflexivity ].
  intros k Hk. exact (replaced_allocations_of_other (with_event (session w) ev) eid rids k Hk).
Qed.

Lemma edit_event_replaces_allocations_witness :
  map alloc_resource_id
      (allocations_of_event
         (committed (snd (edit_event EventSamples.move_review 2 MoreSamples.start_world))) 2)
  = [1].
Proof.
  destruct (edit_event_replaces_allocations EventSamples.move_review 2 MoreSamples.start_world
              (snd (edit_event EventSamples.move_review 2 MoreSamples.start_world))
              ltac:(vm_compute; reflexivity))
    as (t & ds & de & rids & _ & _ & _ & _ & Hints & _ & _ & _ & Hal & _).
  rewrite Hal. vm_compute in Hints. now inversion Hints.
Defined.

(** X22. Whatever the request and the key, [edit_event] either ends in the
    redirect to the event list or leaves the committed rows as they were:
    a missing event, a shown form, a validation failure, a conflict or an
    exception commits nothing. *)
Theorem edit_event_commits_only_on_success req eid w :
  fst (edit_event req eid w) = Returns (RedirectTo "list_events" None)
  \/ committed (snd (edit_event req eid w)) = committed w.
Proof.
  destruct (get_event (session w) eid) as [old|] eqn:Hget;
    [ | rewrite (edit_event_no_event req eid w Hget);
        destruct (sqlite_integer eid); now right ].
  destruct (method req) eqn:Hm;
    [ rewrite (edit_event_get req eid w old Hget Hm); now right | ].
  rewrite (edit_event_post req eid w old Hget Hm).
  destruct (timestamp_field (form_get req "start_time")) as [| |ds];
    destruct (timestamp_field (form_get req "end_time")) as [| |de];
    destruct (all_ints (form_getlist req "resources")) as [rids|];
    try (now right);
    destruct (form_get req "title") as [[|c t]|]; try (now right).
  destruct (edit_event_after_check_committed
              (edited_event req eid (String c t) ds de) eid rids (resources (session w))
              (check_conflicts (edited_event req eid (String c t) ds de) rids
                 (with_session
                    (with_event (session w) (edited_event req eid (String c t) ds de))
                    (after_resources_query (logged (ReadEvent eid) w))))) as [Hok|Hkeep];
    [ left; exact Hok | right ].
  etransitivity; [ exact Hkeep | ].
  now rewrite check_conflicts_committed.
Qed.

(** X23. The event's own bookings never block its edit.  On a store with
    referential integrity, a complete, well-formed POST to [edit_event]
    for a stored event, with a valid range and selected identifiers that
    are SQLite integers, is committed as soon as no allocation of another
    event on a selected resource overlaps the new times; allocations that
    carry the event's own key are not looked at.  The event is stored with
    the form's values, its allocations, read back, are bound to the
    selected resources in the order of the selection, those of the other
    events are as they were, the success message is flashed and the user
    is sent to the event list. *)
Theorem edit_event_ignores_own_bookings req eid w old t ds de rids :
  get_event (session w) eid = Some old ->
  method req = POST ->
  form_get req "title" = Some t -> t <> EmptyString ->
  timestamp_field (form_get req "start_time") = WellFormed ds ->
  timestamp_field (form_get req "end_time") = WellFormed de ->
  all_ints (form_getlist req "resources") = Some rids ->
  forallb sqlite_integer rids = true ->
  integrity (session w) = true ->
  ds < de ->
  (forall rid a other,
     In rid rids -> In a (allocations_on (session w) rid) ->
     alloc_event_id a <> eid -> event_of (session w) a = Some other ->
     Spec.overlaps ds de (start_time other) (end_time other) = false) ->
  exists w',
    edit_event req eid w = (Returns (RedirectTo "list_events" None), w')
    /\ get_event (committed w') eid
       = Some (mkEvent (Some eid) t ds de (form_get req "description"))
    /\ map alloc_resource_id (allocations_of_event (committed w') eid) = rids
    /\ (forall k, k <> eid ->
          allocations_of_event (committed w') k = allocations_of_event (session w) k)
    /\ session w' = committed w'
    /\ flashes w' = flashes w ++ [("Event updated successfully!", "success")].
Proof.
  intros Hget Hpost Ht Hne Hs He Hints Hrange Hint Hvalid Hfree.
  destruct (edit_event_checked req eid w old t ds de rids
              Hget Hpost Ht Hne Hs He Hints Hrange Hint Hvalid) as (w2 & Hw2 & ->).
  assert (Hnone : edit_conflicts (session w) (edited_event req eid t ds de) eid rids = []).
  { unfold edit_conflicts. apply flat_map_nil. intros rid Hrid.
    apply flat_map_nil. intros a Ha. unfold others_on in Ha.
    apply filter_In in Ha. destruct Ha as [Ha Hother].
    apply negb_true_iff, Z.eqb_neq in Hother.
    unfold Spec.reported.
    destruct (event_of (session w) a) as [other|] eqn:Hev; [ | reflexivity ].
    destruct (resource_of (session w) a) as [r|]; [ | reflexivity ].
    cbn [edited_event start_time end_time].
    now rewrite (Hfree rid a other Hrid Ha Hother Hev). }
  rewrite Hnone. cbn [edit_event_after_check].
  eexists. split; [ reflexivity | ].
  destruct Hw2 as (Hs2 & _ & Hf2 & _).
  cbn [committed_with committed session flashes]. rewrite Hs2, Hf2.
  cbn [with_session after_resources_query logged session flashes].
  set (ev := edited_event req eid t ds de).
  split; [ exact (get_edited_event (session w) ev eid eq_refl old Hget) | ].
  split; [ exact (proj1 (replaced_allocations_of_event (with_event (session w) ev) eid rids)) | ].
  split; [ | split; reflexivity ].
  intros k Hk. exact (replaced_allocations_of_other (with_event (session w) ev) eid rids k Hk).
Qed.

Lemma edit_event_ignores_own_bookings_witness :
  exists w',
    edit_event EventSamples.move_review 2 MoreSamples.start_world
    = (Returns (RedirectTo "list_events" None), w')
    /\ map alloc_resource_id (allocations_of_event (committed w') 2) = [1].
Proof.
  destruct (edit_event_ignores_own_bookings EventSamples.move_review 2 MoreSamples.start_world
              Sample.review "Review" (Sample.at_ 2025 1 1 11 0) (Sample.at_ 2025 1 1 12 0) [1]
              ltac:(vm_compute; reflexivity) ltac:(reflexivity) ltac:(vm_compute; reflexivity)
              ltac:(discriminate) ltac:(vm_compute; reflexivity) ltac:(vm_compute; reflexivity)
              ltac:(vm_compute; reflexivity) ltac:(vm_compute; reflexivity)
              ltac:(vm_compute; reflexivity) ltac:(vm_compute; reflexivity))
    as (w' & Hrun & _ & Hal & _).
  - intros rid a other [<-|[]] Ha Hother Hev.
    vm_compute in Ha. destruct Ha as [<-|[<-|[]]].
    + vm_compute in Hev. injection Hev as <-. vm_compute. reflexivity.
    + exfalso. apply Hother. reflexivity.
  - exists w'. split; [ exact Hrun | exact Hal ].
Defined.

(** X24. On a store with referential integrity, a complete, well-formed
    POST to [edit_event] for a stored event, with a valid range and
    selected identifiers that are SQLite integers, that runs into a booking
    of another event on a selected resource is not committed: every
    description is flashed as "danger", in the order of the selection and
    of the allocations, the form is rendered again with the edited event
    and the selected identifiers, and the committed rows stay as they were. *)
Theorem edit_event_conflicts_rejected req eid w old t ds de rids :
  get_event (session w) eid = Some old ->
  method req = POST ->
  form_get req "title" = Some t -> t <> EmptyString ->
  timestamp_field (form_get req "start_time") = WellFormed ds ->
  timestamp_field (form_get req "end_time") = WellFormed de ->
  all_ints (form_getlist req "resources") = Some rids ->
  forallb sqlite_integer rids = true ->
  integrity (session w) = true ->
  ds < de ->
  edit_conflicts (session w) (edited_event req eid t ds de) eid rids <> [] ->
  exists w',
    edit_event req eid w
    = (Returns (EventFormPage "Edit" (resources (session w))
                  (Some (edited_event req eid t ds de)) rids), w')
    /\ flashes w'
       = flashes w
         ++ map (fun c => (c, "danger"))
                (edit_conflicts (session w) (edited_event req eid t ds de) eid rids)
    /\ committed w' = committed w.
Proof.
  intros Hget Hpost Ht Hne Hs He Hints Hrange Hint Hvalid Hconf.
  destruct (edit_event_checked req eid w old t ds de rids
              Hget Hpost Ht Hne Hs He Hints Hrange Hint Hvalid) as (w2 & Hw2 & ->).
  destruct (edit_conflicts (session w) (edited_event req eid t ds de) eid rids) as [|m ms];
    [ contradiction | ].
  cbn [edit_event_after_check]. eexists. split; [ reflexivity | ].
  destruct Hw2 as (_ & Hc2 & Hf2 & _).
  cbn [flashed_all committed flashes]. rewrite Hc2, Hf2. split; reflexivity.
Qed.

Lemma edit_event_conflicts_rejected_witness :
  exists w',
    edit_event EventSamples.move_review_onto_standup 2 MoreSamples.start_world
    = (Returns (EventFormPage "Edit" [Sample.room; Sample.projector]
                  (Some (mkEvent (Some 2) "Review" (Sample.at_ 2025 1 1 9 30)
                                 (Sample.at_ 2025 1 1 12 0) None)) [1]), w')
    /\ flashes w'
       = [("Resource 'Room A' is already booked by event 'Standup' from 2025-01-01 09:00:00 to 2025-01-01 10:00:00.",
           "danger")]
    /\ committed w' = Sample.db.
Proof.
  destruct (edit_event_conflicts_rejected EventSamples.move_review_onto_standup 2
              MoreSamples.start_world
              Sample.review "Review" (Sample.at_ 2025 1 1 9 30) (Sample.at_ 2025 1 1 12 0) [1]
              ltac:(vm_compute; reflexivity) ltac:(reflexivity) ltac:(vm_compute; reflexivity)
              ltac:(discriminate) ltac:(vm_compute; reflexivity) ltac:(vm_compute; reflexivity)
              ltac:(vm_compute; reflexivity) ltac:(vm_compute; reflexivity)
              ltac:(vm_compute; reflexivity) ltac:(vm_compute; reflexivity)
              ltac:(vm_compute; discriminate))
    as (w' & Hrun & Hf & Hc).
  exists w'. split; [ exact Hrun | ]. split; [ rewrite Hf; vm_compute; reflexivity | exact Hc ].
Defined.

(** X25. The edit form reads back what an edit stored: after [edit_event]
    has ended in the redirect to the event list, a GET of the same key
    renders the form with the event as the POST's form gave it (title,
    start, end, description) and with the selected resource identifiers,
    in the order of the selection. *)
Theorem edit_event_form_round_trip req shown eid w w' :
  edit_event req eid w = (Returns (RedirectTo "list_events" None), w') ->
  method shown = GET ->
  exists t ds de rids,
    form_get req "title" = Some t
    /\ timestamp_field (form_get req "start_time") = WellFormed ds
    /\ timestamp_field (form_get req "end_time") = WellFormed de
    /\ all_ints (form_getlist req "resources") = Some rids
    /\ fst (edit_event shown eid w')
       = Returns (EventFormPage "Edit" (resources (session w))
                    (Some (mkEvent (Some eid) t ds de (form_get req "description"))) rids).
Proof.
  intros Hrun Hm.
  destruct (edit_event_success req eid w w' Hrun)
    as (old & t & ds & de & rids & Hget & Ht & Hne & Hs & He & Hints & Hvalid & Hc & Hsess).
  exists t, ds, de, rids. repeat (split; [ assumption | ]).
  assert (Hget' : get_event (session w') eid = Some (edited_event req eid t ds de)).
  { rewrite Hsess, Hc.
    exact (get_edited_event (session w) (edited_event req eid t ds de) eid eq_refl old Hget). }
  rewrite (edit_event_get shown eid w' _ Hget' Hm). cbn [fst].
  rewrite Hsess, Hc.
  rewrite (proj1 (replaced_allocations_of_event
                    (with_event (session w) (edited_event req eid t ds de)) eid rids)).
  reflexivity.
Qed.

Lemma edit_event_form_round_trip_witness :
  fst (edit_event EventSamples.show_form 2
         (snd (edit_event EventSamples.move_review 2 MoreSamples.start_world)))
  = Returns (EventFormPage "Edit" [Sample.room; Sample.projector]
               (Some (mkEvent (Some 2) "Review" (Sample.at_ 2025 1 1 11 0)
                              (Sample.at_ 2025 1 1 12 0) None)) [1]).
Proof.
  destruct (edit_event_form_round_trip EventSamples.move_review EventSamples.show_form 2
              MoreSamples.start_world
              (snd (edit_event EventSamples.move_review 2 MoreSamples.start_world))
              ltac:(vm_compute; reflexivity) ltac:(reflexivity))
    as (t & ds & de & rids & Ht & Hs & He & Hints & Hpage).
  rewrite Hpage.
  vm_compute in Ht, Hs, He, Hints.
  injection Ht as <-. injection Hs as <-. injection He as <-. injection Hints as <-.
  vm_compute. reflexivity.
Defined.

(** X26. The home page shows the earliest events.  [index] returns the
    counts of the stored events and resources and at most three events
    (three when that many are stored), in ascending order of start time;
    they are stored events, and every stored event left out starts no
    earlier than each of the shown ones. *)
Theorem index_shows_earliest_three w :
  exists shown rest,
    fst (index w) = Returns (HomePage shown (List.length (events (session w)))
                                      (List.length (resources (session w))))
    /\ List.length shown = Nat.min 3 (List.length (events (session w)))
    /\ StronglySorted by_start shown
    /\ Permutation (shown ++ rest) (events (session w))
    /\ forall u e, In u shown -> In e rest -> start_time u <= start_time e.
Proof.
  exists (firstn 3 (events_by_start (session w))), (skipn 3 (events_by_start (session w))).
  rewrite index_page. cbn [fst].
  pose proof (sorted_by_start_sorted (events (session w))) as Hsorted.
  fold (events_by_start (session w)) in Hsorted.
  rewrite <- (firstn_skipn 3 (events_by_start (session w))) in Hsorted.
  apply sorted_prefix in Hsorted. destruct Hsorted as [Hshown Hcross].
  split; [ reflexivity | ].
  split.
  { rewrite length_firstn. unfold events_by_start.
    now rewrite (Permutation_length (sorted_by_start_perm (events (session w)))). }
  split; [ exact Hshown | ].
  split; [ | exact Hcross ].
  rewrite firstn_skipn. apply sorted_by_start_perm.
Qed.

(** X27. [list_events] shows every stored event exactly once, in
    ascending order of start time, beside all the resources, and changes
    no row, message or clock. *)
Theorem list_events_sorted_listing w :
  exists shown,
    fst (list_events w) = Returns (EventsPage shown (resources (session w)))
    /\ Permutation shown (events (session w))
    /\ StronglySorted by_start shown
    /\ untouched w (snd (list_events w)).
Proof.
  exists (events_by_start (session w)). rewrite list_events_page. cbn [fst snd].
  split; [ reflexivity | ].
  split; [ apply sorted_by_start_perm | ].
  split; [ apply sorted_by_start_sorted | ].
  repeat split.
Qed.

(** X28. The edit form of a new event shows what was added.  Over a store
    whose allocations all reference stored events, after [add_event] has
    ended in the redirect to the event list, there is a key that no event
    had before at which a GET of [edit_event] renders the form with the
    event as the POST's form gave it and with the selected resource
    identifiers, in the order of the selection. *)
Theorem add_event_then_edit_form req shown w w' :
  event_integrity (session w) = true ->
  add_event req w = (Returns (Redirect "list_events"), w') ->
  method shown = GET ->
  exists t ds de rids eid,
    form_get req "title" = Some t
    /\ timestamp_field (form_get req "start_time") = WellFormed ds
    /\ timestamp_field (form_get req "end_time") = WellFormed de
    /\ all_ints (form_getlist req "resources") = Some rids
    /\ ~ In eid (event_ids (session w))
    /\ fst (edit_event shown eid w')
       = Returns (EventFormPage "Edit" (resources (session w))
                    (Some (mkEvent (Some eid) t ds de (form_get req "description"))) rids).
Proof.
  intros Hint Hrun Hm.
  destruct (add_event_success_rows req w w' Hrun)
    as (t & ds & de & rids & Ht & Hne & Hs & He & Hints & Hvalid & Hc & Hsess & _).
  exists t, ds, de, rids, (next_id (event_ids (session w))).
  repeat (split; [ assumption | ]).
  split; [ intros Hin; apply next_id_fresh in Hin; lia | ].
  assert (Hget : get_event (session w') (next_id (event_ids (session w)))
                 = Some (with_id (next_id (event_ids (session w))) (event_of_form req t ds de))).
  { rewrite Hsess, Hc. apply get_new_event. }
  rewrite (edit_event_get shown _ w' _ Hget Hm). cbn [fst].
  rewrite Hsess, Hc, (new_event_selection _ _ _ Hint).
  reflexivity.
Qed.

Lemma add_event_then_edit_form_witness :
  exists eid,
    fst (edit_event EventSamples.show_form eid
           (snd (add_event Sample.add_request MoreSamples.start_world)))
    = Returns (EventFormPage "Edit" [Sample.room; Sample.projector]
                 (Some (mkEvent (Some eid) "Retro" (Sample.at_ 2025 2 1 9 0)
                                (Sample.at_ 2025 2 1 10 0) None))
                 [1; 2]).
Proof.
  destruct (add_event_then_edit_form Sample.add_request EventSamples.show_form
              MoreSamples.start_world
              (snd (add_event Sample.add_request MoreSamples.start_world))
              ltac:(vm_compute; reflexivity) ltac:(vm_compute; reflexivity) ltac:(reflexivity))
    as (t & ds & de & rids & eid & Ht & Hs & He & Hints & _ & Hpage).
  exists eid. rewrite Hpage.
  vm_compute in Ht, Hs, He, Hints.
  injection Ht as <-. injection Hs as <-. injection He as <-. injection Hints as <-.
  vm_compute. reflexivity.
Defined.
